(** * Physiological insights: a shallow embedding of the analytics core

    The Python package [physiological_insights] turns wearable exports into
    an analysis packet.  This development embeds the deterministic parts the
    specification speaks about (readiness tiers, strain scoring, the sleep
    detector, session classification, trends, pattern rules, the activity
    classifier, the insufficient-data branches and the null-stripping of
    the agent payload) and proves, or refutes on concrete inputs, what the
    specification says about them.

    Conventions.
    - A Python [float] is a rational or NaN ([pyfloat]); every comparison
      with NaN is false, as in IEEE arithmetic.  Rounding error of the
      binary representation is not modelled.
    - Python's [None] is the [None] of an [option].
    - A pandas frame is a list of rows in index order; the label of a row is
      its position.  An optional column is an [option] field of the frame or
      a flag next to the rows.
    - A Python dict used as a keyed map is a [gmap string _]; a JSON value
      about to be serialised keeps its entries in order, as a list of
      pairs.
    - Code that can raise returns an [option]; [None] is the exception. *)

From Stdlib Require Import ZArith QArith Qround Qabs Reals Lra Lia List String Bool.
From Stdlib Require Import Sorted.
From Stdlib Require Lqa.
From stdpp Require Import gmap strings pretty.
Import ListNotations.

Open Scope string_scope.

(** ** Python floats *)

Module PyFloat.

Inductive pyfloat : Type :=
| Fin (q : Q)
| NaN.

Definition Qlt_bool (x y : Q) : bool := negb (Qle_bool y x).

Definition flt (a b : pyfloat) : bool :=
  match a, b with
  | Fin x, Fin y => Qlt_bool x y
  | _, _ => false
  end.

Definition fle (a b : pyfloat) : bool :=
  match a, b with
  | Fin x, Fin y => Qle_bool x y
  | _, _ => false
  end.

Definition fgt (a b : pyfloat) : bool := flt b a.
Definition fge (a b : pyfloat) : bool := fle b a.

Definition fsub (a b : pyfloat) : pyfloat :=
  match a, b with
  | Fin x, Fin y => Fin (x - y)
  | _, _ => NaN
  end.

Definition is_nan (a : pyfloat) : bool :=
  match a with
  | NaN => true
  | Fin _ => false
  end.

(** [Series.dropna()] on a column of floats. *)
Fixpoint dropna (xs : list pyfloat) : list Q :=
  match xs with
  | [] => []
  | Fin q :: rest => q :: dropna rest
  | NaN :: rest => dropna rest
  end.

Definition Qsum (xs : list Q) : Q := fold_right Qplus 0%Q xs.

(** [Series.mean()] of a non-empty list of numbers. *)
Definition Qmean (xs : list Q) : Q :=
  Qsum xs / inject_Z (Z.of_nat (length xs)).

(** Round half to even, the rule of Python's [round]. *)
Definition round_half_even (x : Q) : Z :=
  let f := Qfloor x in
  let d := (x - inject_Z f)%Q in
  if Qlt_bool d (1 # 2) then f
  else if Qlt_bool (1 # 2) d then (f + 1)%Z
  else if Z.even f then f else (f + 1)%Z.

(** [round(x, 1)]. *)
Definition round1 (x : Q) : Q := (inject_Z (round_half_even (x * 10)) / 10)%Q.

Definition fdiv (a b : pyfloat) : pyfloat :=
  match a, b with
  | Fin x, Fin y => Fin (x / y)
  | _, _ => NaN
  end.

Fixpoint insert_sorted (x : Q) (xs : list Q) : list Q :=
  match xs with
  | [] => [x]
  | y :: rest => if Qle_bool x y then x :: y :: rest else y :: insert_sorted x rest
  end.

Definition sort (xs : list Q) : list Q := fold_right insert_sorted [] xs.

(** [Series.quantile(p)] with linear interpolation, on a non-empty list. *)
Definition quantile (p : Q) (xs : list Q) : Q :=
  let s := sort xs in
  let pos := (p * inject_Z (Z.of_nat (length s) - 1))%Q in
  let lo := Z.to_nat (Qfloor pos) in
  let frac := (pos - inject_Z (Qfloor pos))%Q in
  let a := nth lo s 0%Q in
  let b := nth (Nat.min (S lo) (length s - 1)) s 0%Q in
  (a + (b - a) * frac)%Q.

End PyFloat.

(** ** Frames: grouping rows by a key *)

Module Frame.

Fixpoint insert_uniq (k : Z) (ks : list Z) : list Z :=
  match ks with
  | [] => [k]
  | k' :: rest =>
      if (k <? k')%Z then k :: k' :: rest
      else if (k =? k')%Z then k' :: rest
      else k' :: insert_uniq k rest
  end.

(** The distinct keys in increasing order. *)
Definition sorted_keys (ks : list Z) : list Z :=
  fold_right insert_uniq [] ks.

(** [df.groupby(key)]: one group per distinct key, keys increasing, the rows
    of a group in frame order. *)
Definition groupby {A : Type} (key : A -> Z) (rows : list A) : list (Z * list A) :=
  List.map (fun k => (k, List.filter (fun r => (key r =? k)%Z) rows))
           (sorted_keys (List.map key rows)).

(** Calendar date (days since the epoch) and hour of day of a wall-clock
    time given in seconds. *)
Definition date_of (t : Z) : Z := (t / 86400)%Z.
Definition hour_of (t : Z) : Z := ((t / 3600) mod 24)%Z.

End Frame.

(** ** hrv.py *)

Module Hrv.
Import PyFloat Frame.

Definition _CONFIDENCE_THRESHOLD : Q := 7 # 10.

Record epoch : Type := {
  wear_mode : string;
  cardio_RMSSD_ms : pyfloat;
  cardio_confidence_median : pyfloat;
  datetime : Z;        (* UTC, seconds *)
  datetime_et : Z      (* local wall clock, seconds *)
}.

Definition is_valid (e : epoch) : bool :=
  String.eqb (wear_mode e) "wear_on"
  && fgt (cardio_RMSSD_ms e) (Fin 0)
  && fgt (cardio_confidence_median e) (Fin _CONFIDENCE_THRESHOLD).

Definition _valid_hrv (df : list epoch) : list epoch := List.filter is_valid df.

Definition rmssd_values (rows : list epoch) : list Q :=
  dropna (List.map cardio_RMSSD_ms rows).

(** [Series.max()] of a non-empty column of timestamps. *)
Definition Zmax_list (xs : list Z) : Z :=
  match xs with
  | [] => 0%Z
  | x :: rest => fold_right Z.max x rest
  end.

(** Slope of the least-squares line through [(0,y0), (1,y1), ...], the first
    component of [scipy.stats.linregress]. *)
Definition linregress_slope (ys : list Q) : Q :=
  let n := length ys in
  let xs := List.map (fun i => inject_Z (Z.of_nat i)) (seq 0 n) in
  let xbar := Qmean xs in
  let ybar := Qmean ys in
  let sxy := Qsum (List.map (fun p => ((fst p - xbar) * (snd p - ybar))%Q) (combine xs ys)) in
  let sxx := Qsum (List.map (fun x => ((x - xbar) * (x - xbar))%Q) xs) in
  (sxy / sxx)%Q.

(** Python truthiness of an optional float: neither [None] nor zero. *)
Definition truthy (x : option Q) : bool :=
  match x with
  | Some q => negb (Qeq_bool q 0)
  | None => false
  end.

(** The fields of the result that the readiness and pattern stages read. *)
Record hrv_result : Type := {
  rmssd_baseline : option Q;
  morning_rmssd : option Q;
  rmssd_pct_baseline : option Q;
  rmssd_7d_slope : option Q
}.

Definition daily_rmssd (valid : list epoch) : list Q :=
  List.map (fun g => Qmean (rmssd_values (snd g)))
           (groupby (fun e => date_of (datetime_et e)) valid).

Definition analyse_hrv (df : list epoch) : hrv_result :=
  let valid := _valid_hrv df in
  match valid with
  | [] =>
      {| rmssd_baseline := None; morning_rmssd := None;
         rmssd_pct_baseline := None; rmssd_7d_slope := None |}
  | _ =>
      let rmssd := rmssd_values valid in
      let top20_threshold := PyFloat.quantile (8 # 10) rmssd in
      let baseline :=
        Some (Qmean (List.filter (fun x => Qle_bool top20_threshold x) rmssd)) in
      let last_ts := Zmax_list (List.map datetime valid) in
      let morning_window :=
        List.filter (fun e => (last_ts - 3600 <=? datetime e)%Z) valid in
      let morning :=
        match morning_window with
        | [] => None
        | _ => Some (Qmean (rmssd_values morning_window))
        end in
      let pct :=
        match morning, baseline with
        | Some m, Some b =>
            if truthy morning && truthy baseline
            then Some (round1 (m / b * 100)) else None
        | _, _ => None
        end in
      let daily := daily_rmssd valid in
      let slope :=
        if (2 <=? length daily)%nat then Some (linregress_slope daily) else None in
      {| rmssd_baseline := baseline; morning_rmssd := morning;
         rmssd_pct_baseline := pct; rmssd_7d_slope := slope |}
  end.

(** The field in the specification's words: the morning RMSSD (the mean over
    the last hour of the whole recording) as a percentage of the personal
    baseline (the mean of the top quintile), to one decimal. *)
Definition morning_pct_of_baseline (df : list epoch) : Q :=
  let valid := _valid_hrv df in
  let rmssd := rmssd_values valid in
  let baseline :=
    Qmean (List.filter (fun x => Qle_bool (PyFloat.quantile (8 # 10) rmssd) x) rmssd) in
  let last_ts := Zmax_list (List.map datetime valid) in
  let morning :=
    Qmean (rmssd_values (List.filter (fun e => (last_ts - 3600 <=? datetime e)%Z) valid)) in
  round1 (morning / baseline * 100).

End Hrv.

(** ** readiness.py *)

Module Readiness.
Import PyFloat.

Record tier_def : Type := {
  name : string;
  color : string;
  rmssd_min : Q;
  ready_min : Q
}.

Definition _TIERS : list tier_def := [
  {| name := "Peak";     color := "green";  rmssd_min := 90; ready_min := 175 |};
  {| name := "Good";     color := "blue";   rmssd_min := 75; ready_min := 155 |};
  {| name := "Moderate"; color := "yellow"; rmssd_min := 55; ready_min := 140 |};
  {| name := "Low";      color := "orange"; rmssd_min := 40; ready_min := 130 |};
  {| name := "Recovery"; color := "red";    rmssd_min := 0;  ready_min := 0 |}
].

Definition task_row (a b c d e : bool) : list (string * bool) := [
  ("deep_analytical_work", a);
  ("creative_brainstorming", b);
  ("high_stakes_presentation", c);
  ("routine_admin", d);
  ("physical_training", e)
].

Definition _TASK_MATRIX : list (string * list (string * bool)) := [
  ("Peak",     task_row true  true  true  true  true);
  ("Good",     task_row true  true  true  true  true);
  ("Moderate", task_row false true  false true  true);
  ("Low",      task_row false false false true  false);
  ("Recovery", task_row false false false false false)
].

(** [d.get(k, default)] on a literal dict. *)
Fixpoint assoc_get {V : Type} (k : string) (d : list (string * V)) (default : V) : V :=
  match d with
  | [] => default
  | (k', v) :: rest => if String.eqb k' k then v else assoc_get k rest default
  end.

(** [l.index(x)]; [None] is the [ValueError] of a missing element. *)
Fixpoint list_index (l : list string) (x : string) : option nat :=
  match l with
  | [] => None
  | y :: rest => if String.eqb y x then Some 0%nat else option_map S (list_index rest x)
  end.

Definition tier_order : list string := List.map name _TIERS.

(** Position of a tier in [Peak > Good > Moderate > Low > Recovery]: a larger
    rank is a lower tier. *)
Definition rank (t : string) : option nat := list_index tier_order t.

(** The [for t in _TIERS] loop with its [break]: the first tier whose floors
    are met, if any. *)
Fixpoint scan_tiers (ready_score : pyfloat) (rmssd_pct : option pyfloat)
         (ts : list tier_def) : option string :=
  match ts with
  | [] => None
  | t :: rest =>
      let met :=
        match rmssd_pct with
        | Some p => fge p (Fin (rmssd_min t)) && fge ready_score (Fin (ready_min t))
        | None => fge ready_score (Fin (ready_min t))
        end in
      if met then Some (name t) else scan_tiers ready_score rmssd_pct rest
  end.

(** The tier before the self-report cap is applied. *)
Definition score_tier (ready_score rmssd_pct : option pyfloat) : string :=
  match ready_score with
  | None => "Moderate"
  | Some r =>
      match scan_tiers r rmssd_pct _TIERS with
      | Some n => n
      | None => "Recovery"
      end
  end.

Definition self_report_cap (stress sleepiness : option pyfloat) : option string :=
  match stress, sleepiness with
  | Some s, Some sl =>
      if fgt s (Fin 7) && fgt sl (Fin 7) then Some "Recovery"
      else if fgt s (Fin 5) && fgt sl (Fin 5) then Some "Low"
      else None
  | _, _ => None
  end.

Definition _classify_tier (ready_score rmssd_pct stress sleepiness : option pyfloat)
  : option string :=
  let sr_cap := self_report_cap stress sleepiness in
  let tier := score_tier ready_score rmssd_pct in
  match sr_cap with
  | Some cap =>
      match list_index tier_order tier, list_index tier_order cap with
      | Some i, Some j => Some (if (i <? j)%nat then cap else tier)
      | _, _ => None
      end
  | None => Some tier
  end.

Record ready_day : Type := {
  rd_date : string;
  rd_mean : option pyfloat
}.

Record self_report_day : Type := {
  sr_date : string;
  sr_stress : option pyfloat;
  sr_sleepiness : option pyfloat
}.

Record performance : Type := {
  ready_baseline : option pyfloat;
  daily_ready : list ready_day;
  daily_self_report : list self_report_day
}.

Record results : Type := {
  res_performance : performance;
  res_hrv : Hrv.hrv_result
}.

Record tier_entry : Type := {
  tier : string;
  tier_color : string;
  ready_score : option pyfloat;
  task_suitability : list (string * bool)
}.

Record readiness_result : Type := {
  tiers_by_date : gmap string tier_entry;
  latest_tier : option tier_entry;
  task_matrix : list (string * list (string * bool))
}.

(** [str(x)[:10]]. *)
Definition date_key (s : string) : string := substring 0 10 s.

(** The inner [for sr in daily_sr] loop: the first self-report of that date. *)
Fixpoint find_self_report (date : string) (daily_sr : list self_report_day)
  : option pyfloat * option pyfloat :=
  match daily_sr with
  | [] => (None, None)
  | sr :: rest =>
      if String.eqb (date_key (sr_date sr)) date
      then (sr_stress sr, sr_sleepiness sr)
      else find_self_report date rest
  end.

(** [next(t["color"] for t in _TIERS if t["name"] == tier)]; [None] is
    [StopIteration]. *)
Fixpoint color_of (ts : list tier_def) (tier : string) : option string :=
  match ts with
  | [] => None
  | t :: rest => if String.eqb (name t) tier then Some (color t) else color_of rest tier
  end.

Definition classify_day (rmssd_pct : option pyfloat)
           (daily_sr : list self_report_day) (day : ready_day)
  : option (string * tier_entry) :=
  let date := date_key (rd_date day) in
  let score := rd_mean day in
  let sr := find_self_report date daily_sr in
  match _classify_tier score rmssd_pct (fst sr) (snd sr) with
  | None => None
  | Some t =>
      match color_of _TIERS t with
      | None => None
      | Some c =>
          Some (date, {| tier := t; tier_color := c; ready_score := score;
                         task_suitability := assoc_get t _TASK_MATRIX [] |})
      end
  end.

(** The [for day in daily_ready] loop, threading the dict being filled. *)
Fixpoint assign_loop (rmssd_pct : option pyfloat) (daily_sr : list self_report_day)
         (days : list ready_day) (acc : gmap string tier_entry)
  : option (gmap string tier_entry) :=
  match days with
  | [] => Some acc
  | day :: rest =>
      match classify_day rmssd_pct daily_sr day with
      | None => None
      | Some (date, e) => assign_loop rmssd_pct daily_sr rest (<[date := e]> acc)
      end
  end.

Definition assign_readiness_tiers (r : results) : option readiness_result :=
  let perf := res_performance r in
  let rmssd_pct := option_map Fin (Hrv.rmssd_pct_baseline (res_hrv r)) in
  match assign_loop rmssd_pct (daily_self_report perf) (daily_ready perf) ∅ with
  | None => None
  | Some tiers =>
      let latest :=
        match daily_ready perf with
        | [] => None
        | _ => tiers !! date_key (rd_date (List.last (daily_ready perf) {| rd_date := ""; rd_mean := None |}))
        end in
      Some {| tiers_by_date := tiers; latest_tier := latest; task_matrix := _TASK_MATRIX |}
  end.

End Readiness.

(** ** strain.py *)

Module Strain.
Import PyFloat Frame.

Definition _ZONE_BOUNDS : list Q := [50 # 100; 60 # 100; 70 # 100; 80 # 100; 90 # 100; 1 # 1].
Definition _ZONE_WEIGHTS : list Q := [0 # 1; 1 # 1; 2 # 1; 4 # 1; 8 # 1].

Definition _STRAIN_CAP : R := 21%R.
Definition _CV_DIVISOR : R := 80%R.
Definition _CV_SCALE : R := (55 / 10)%R.
Definition _MUSC_DIVISOR : R := 5000%R.
Definition _MUSC_SCALE : R := 4%R.

Record epoch : Type := {
  wear_mode : string;
  heart_rate_mean : pyfloat;
  datetime_et : Z;                 (* local wall clock, seconds *)
  energy_cols : list pyfloat       (* the acc_*energyPerSec* cells of the row *)
}.

(** [df is None], or a frame with its optional columns. *)
Record frame : Type := {
  has_heart_rate_mean : bool;
  has_wear_mode : bool;
  rows : list epoch
}.

Definition _estimate_max_hr (df : list epoch) : Q :=
  let valid := List.filter (fun h => Qlt_bool 0 h) (dropna (List.map heart_rate_mean df)) in
  match valid with
  | [] => 190
  | _ => let q := quantile (99 # 100) valid in
         if Qlt_bool q 150 then 150 else q   (* max(q, 150.0) *)
  end.

(** The [for i, bound in enumerate(...)] loop of [_classify_zone]. *)
Fixpoint first_zone (pct : pyfloat) (bounds : list Q) (i : nat) : nat :=
  match bounds with
  | [] => 5
  | b :: rest => if flt pct (Fin b) then i else first_zone pct rest (S i)
  end.

Definition _classify_zone (hr : pyfloat) (max_hr : Q) : nat :=
  let pct := if Qlt_bool 0 max_hr then fdiv hr (Fin max_hr) else Fin 0 in
  first_zone pct (removelast _ZONE_BOUNDS) 0.

(** Python's [min(a, b)]: [b] when [b < a], else [a]. *)
Definition pymin (a b : R) : R := if Rlt_dec b a then b else a.

(** Round half to even on the reals, and [round(x, 1)]. *)
Definition Rround_half_even (x : R) : Z :=
  let f := Int_part x in
  let d := (x - IZR f)%R in
  if Rlt_dec d (1 / 2) then f
  else if Rlt_dec (1 / 2) d then (f + 1)%Z
  else if Z.even f then f else (f + 1)%Z.

Definition Rround1 (x : R) : R := (IZR (Rround_half_even (x * 10)) / 10)%R.

Definition _raw_to_borg (raw divisor scale : R) : R :=
  if Rle_dec raw 0 then 0%R
  else
    let score := (scale * ln (1 + raw / divisor))%R in
    pymin _STRAIN_CAP (Rround1 score).

Definition _strain_label (score : R) : string :=
  if Rlt_dec score 4 then "minimal"
  else if Rlt_dec score 8 then "light"
  else if Rlt_dec score 14 then "moderate"
  else if Rlt_dec score 18 then "high"
  else "overreaching".

Record daily_strain_row : Type := {
  date : Z;
  strain_score : R;
  cardiovascular_strain : R;
  muscular_strain : R;
  strain_level : string;
  zone_minutes : list Q;           (* zone_1_min .. zone_5_min *)
  sleep_need_adjustment_min : Z
}.

Record strain_result : Type := {
  daily_strain : list daily_strain_row;
  max_hr_est : option Z
}.

Definition acc_energy (e : epoch) : Q := Qsum (dropna (energy_cols e)).

(** [zone_counts.get(z, 0)]. *)
Definition zone_count (max_hr : Q) (day : list epoch) (z : nat) : nat :=
  length (List.filter (fun e => (_classify_zone (heart_rate_mean e) max_hr =? z)%nat) day).

Definition analyse_day (max_hr : Q) (d : Z) (day : list epoch) : daily_strain_row :=
  let count z := inject_Z (Z.of_nat (zone_count max_hr day z)) in
  let raw_cv :=
    Qsum (List.map (fun z => (count z * (1 # 2) * nth (z - 1) _ZONE_WEIGHTS 0)%Q)
                   (seq 1 5)) in
  let cv_strain := _raw_to_borg (Q2R raw_cv) _CV_DIVISOR _CV_SCALE in
  let moderate :=
    List.filter (fun e => (3 <=? _classify_zone (heart_rate_mean e) max_hr)%nat) day in
  let muscular_energy :=
    match moderate with
    | [] => 0%Q
    | _ => Qsum (List.map acc_energy moderate)
    end in
  let muscular := _raw_to_borg (Q2R muscular_energy) _MUSC_DIVISOR _MUSC_SCALE in
  let combined :=
    pymin _STRAIN_CAP (Rround1 (cv_strain * (7 / 10) + muscular * (3 / 10))%R) in
  let sleep_adjustment_min :=
    if Rle_dec 18 combined then 45%Z
    else if Rle_dec 14 combined then 30%Z
    else if Rle_dec 10 combined then 15%Z
    else 0%Z in
  {| date := d;
     strain_score := combined;
     cardiovascular_strain := cv_strain;
     muscular_strain := muscular;
     strain_level := _strain_label combined;
     zone_minutes := List.map (fun z => round1 (count z * (1 # 2))) (seq 1 5);
     sleep_need_adjustment_min := sleep_adjustment_min |}.

Definition analyse_strain (df : option frame) : strain_result :=
  let empty := {| daily_strain := []; max_hr_est := None |} in
  match df with
  | None => empty
  | Some f =>
      match rows f with
      | [] => empty
      | _ =>
          if negb (has_heart_rate_mean f) then empty
          else
            let wear :=
              if has_wear_mode f
              then List.filter (fun e => String.eqb (wear_mode e) "wear_on") (rows f)
              else rows f in
            match wear with
            | [] => empty
            | _ =>
                let max_hr := _estimate_max_hr wear in
                {| daily_strain :=
                     List.map (fun g => analyse_day max_hr (fst g) (snd g))
                              (groupby (fun e => date_of (datetime_et e)) wear);
                   max_hr_est := Some (round_half_even max_hr) |}
            end
      end
  end.

(** The three scores of a daily record lie on the 0-21 scale. *)
Definition strain_in_range (d : daily_strain_row) : Prop :=
  (0 <= strain_score d <= 21)%R
  /\ (0 <= cardiovascular_strain d <= 21)%R
  /\ (0 <= muscular_strain d <= 21)%R.

End Strain.

(** ** activity.py *)

Module Activity.
Import PyFloat.

Definition _SEDENTARY_ENERGY : Q := 50.
Definition _LIGHT_ENERGY : Q := 200.
Definition _MODERATE_ENERGY : Q := 600.

Definition _classify_epoch (energy hr : pyfloat) : string :=
  if flt energy (Fin _SEDENTARY_ENERGY) && flt hr (Fin 80) then "sedentary"
  else if flt energy (Fin _LIGHT_ENERGY) then "light"
  else if flt energy (Fin _MODERATE_ENERGY) || (fle (Fin 80) hr && flt hr (Fin 100))
       then "moderate"
  else "vigorous".

Definition at_least_moderate (level : string) : bool :=
  String.eqb level "moderate" || String.eqb level "vigorous".

(** The [activity_level] column of [analyse_activity]: a missing heart rate
    is filled with 60 before the epochs are classified. *)
Definition fillna (d : Q) (x : pyfloat) : pyfloat :=
  match x with
  | NaN => Fin d
  | Fin _ => x
  end.

Definition activity_level_column (epochs : list (pyfloat * pyfloat)) : list string :=
  List.map (fun e => _classify_epoch (fst e) (fillna 60 (snd e))) epochs.

End Activity.

(** ** sleep_sessions.py *)

Module SleepSessions.
Import PyFloat Frame.

Definition _DEBT_REPAY_RATE : Q := 4.

Record session : Type := {
  night_date : Z;
  sleep_start_local : option Z;    (* local wall clock, seconds; [None] is NaT *)
  total_sleep_time_min : pyfloat;
  sleep_needed_min : pyfloat;
  sleep_debt_min : pyfloat;
  recovery_score : pyfloat
}.

Record frame : Type := {
  has_night_date : bool;
  has_sleep_start_local : bool;
  has_total_sleep_time_min : bool;
  has_sleep_needed_min : bool;
  has_sleep_debt_min : bool;
  has_recovery_score : bool;
  rows : list session
}.

(** [start_hour.between(10, 17)]. *)
Definition nap_hour (s : session) : bool :=
  match sleep_start_local s with
  | Some t => (10 <=? hour_of t)%Z && (hour_of t <=? 17)%Z
  | None => false
  end.

(** The rows with their labels. *)
Definition labelled (rs : list session) : list (nat * session) :=
  combine (seq 0 (length rs)) rs.

(** [types[idx] = "nap"] for each label of a list. *)
Definition mark_naps (idxs : list nat) (types : list string) : list string :=
  fold_left (fun t i => <[i := "nap"]> t) idxs types.

(** [Series.idxmax()]: the label of the first largest value, missing values
    skipped.  With every value missing it raises [ValueError]: that is [None]
    here. *)
Fixpoint idxmax_from (best : option (nat * Q)) (g : list (nat * session))
  : option (nat * Q) :=
  match g with
  | [] => best
  | (i, s) :: rest =>
      match total_sleep_time_min s, best with
      | Fin t, None => idxmax_from (Some (i, t)) rest
      | Fin t, Some (_, b) =>
          if Qlt_bool b t then idxmax_from (Some (i, t)) rest
          else idxmax_from best rest
      | NaN, _ => idxmax_from best rest
      end
  end.

Definition idxmax (g : list (nat * session)) : option nat :=
  option_map fst (idxmax_from None g).

(** The body of [for date, group in df.groupby("night_date")]; [None] when
    [idxmax] raises. *)
Definition mark_group (types : list string) (group : list (nat * session))
  : option (list string) :=
  if (1 <? length group)%nat then
    match idxmax group with
    | Some longest_idx =>
        Some (mark_naps (List.filter (fun idx => negb (idx =? longest_idx)%nat)
                                     (List.map fst group))
                        types)
    | None => None
    end
  else Some types.

(** The loop over the groups, stopped by the first group that raises. *)
Fixpoint mark_groups (groups : list (list (nat * session))) (types : list string)
  : option (list string) :=
  match groups with
  | [] => Some types
  | group :: rest =>
      match mark_group types group with
      | Some types' => mark_groups rest types'
      | None => None
      end
  end.

Definition nights (df : frame) : list (list (nat * session)) :=
  List.map snd (groupby (fun r => night_date (snd r)) (labelled (rows df))).

(** [None] is the [KeyError] of [groupby] on a frame without the
    [night_date] column, or the [ValueError] of [idxmax]. *)
Definition _classify_session_type (df : frame) : option (list string) :=
  let types := repeat "primary" (length (rows df)) in
  let types :=
    if has_sleep_start_local df
    then mark_naps (List.map fst (List.filter (fun r => nap_hour (snd r)) (labelled (rows df))))
                   types
    else types in
  if has_total_sleep_time_min df
  then if has_night_date df then mark_groups (nights df) types else None
  else Some types.

(** [xs.iloc[-k]] and [xs.iloc[0]] on a column of numbers. *)
Definition iloc_back (k : nat) (xs : list Q) : Q := nth (k - 1) (rev xs) 0%Q.
Definition iloc_first (xs : list Q) : Q := hd 0%Q xs.

(** [xs.iloc[-3:]]. *)
Definition tail3 (xs : list Q) : list Q := skipn (length xs - 3) xs.

(** The [trend] block of [_analyse_sleep_debt], on the non-missing debt
    readings. *)
Definition debt_trend_code (debts : list Q) : string :=
  if (3 <=? length debts)%nat then
    let last_3 := tail3 debts in
    if Qlt_bool (iloc_first last_3) (iloc_back 1 last_3) then "worsening"
    else if Qlt_bool (iloc_back 1 last_3) (iloc_first last_3) then "improving"
    else "stable"
  else if (2 <=? length debts)%nat then
    if Qlt_bool (iloc_first debts) (iloc_back 1 debts) then "worsening"
    else if Qlt_bool (iloc_back 1 debts) (iloc_first debts) then "improving"
    else "stable"
  else "stable".

(** The [trend] block of [_analyse_recovery]. *)
Definition recovery_trend_code (scores : list Q) : string :=
  if (2 <=? length scores)%nat then
    if Qlt_bool (iloc_back 2 scores) (iloc_back 1 scores) then "improving"
    else if Qlt_bool (iloc_back 1 scores) (iloc_back 2 scores) then "declining"
    else "stable"
  else "stable".

Record debt_report : Type := {
  current_debt_min : option Q;
  current_debt_hours : option Q;
  nights_to_repay : option Z;
  avg_nightly_deficit_min : option Q;
  debt_trend : option string       (* the "trend" key, absent in the short dict *)
}.

Definition no_debt : debt_report :=
  {| current_debt_min := None; current_debt_hours := None;
     nights_to_repay := None; avg_nightly_deficit_min := None; debt_trend := None |}.

(** [None] is the [KeyError] raised when a column read without a guard is
    not in the frame. *)
Definition _analyse_sleep_debt (df : frame) : option debt_report :=
  match rows df with
  | [] => Some no_debt
  | _ =>
      if negb (has_sleep_debt_min df) then Some no_debt
      else
        let debts := dropna (List.map sleep_debt_min (rows df)) in
        match debts with
        | [] => Some no_debt
        | _ =>
            let current := iloc_back 1 debts in
            let debt_hours := round1 (current / 60) in
            let repay :=
              if Qlt_bool 0 debt_hours
              then round_half_even (debt_hours * _DEBT_REPAY_RATE) else 0%Z in
            if negb (has_sleep_needed_min df) then None
            else if negb (has_total_sleep_time_min df) then None
            else
              let needed := dropna (List.map sleep_needed_min (rows df)) in
              let actual := dropna (List.map total_sleep_time_min (rows df)) in
              let avg_deficit :=
                match needed, actual with
                | _ :: _, _ :: _ => Some (round1 (Qmean needed - Qmean actual))
                | _, _ => None
                end in
              let trend := debt_trend_code debts in
              Some {| current_debt_min := Some (round1 current);
                      current_debt_hours := Some debt_hours;
                      nights_to_repay := Some repay;
                      avg_nightly_deficit_min := avg_deficit;
                      debt_trend := Some trend |}
        end
  end.

Record recovery_report : Type := {
  latest : option Q;
  zone : option string;
  personal_mean : option Q;
  pct_of_mean : option Q;
  recovery_trend : option string;  (* the "trend" key *)
  days_since_green_zone : option nat;
  history : list Q
}.

Definition no_recovery : recovery_report :=
  {| latest := None; zone := None; personal_mean := None; pct_of_mean := None;
     recovery_trend := None; days_since_green_zone := None; history := [] |}.

(** The backwards scan for the most recent reading of at least 67: the number
    of readings after it, or the number of readings when there is none. *)
Fixpoint since_green (newest_first : list Q) : nat :=
  match newest_first with
  | [] => 0
  | x :: rest => if Qle_bool 67 x then 0 else S (since_green rest)
  end.

Definition _analyse_recovery (df : frame) : recovery_report :=
  match rows df with
  | [] => no_recovery
  | _ =>
      if negb (has_recovery_score df) then no_recovery
      else
        let scores := dropna (List.map recovery_score (rows df)) in
        match scores with
        | [] => no_recovery
        | _ =>
            let last := iloc_back 1 scores in
            let mean_score := Qmean scores in
            let z :=
              if Qlt_bool last 34 then "red"
              else if Qlt_bool last 67 then "yellow" else "green" in
            let trend := recovery_trend_code scores in
            {| latest := Some (round1 last);
               zone := Some z;
               personal_mean := Some (round1 mean_score);
               pct_of_mean :=
                 if Qlt_bool 0 mean_score
                 then Some (round1 (last / mean_score * 100)) else None;
               recovery_trend := Some trend;
               days_since_green_zone := Some (since_green (rev scores));
               history := List.map round1 scores |}
        end
  end.

(** [df[df["session_type"] == "primary"]], the frame both trend functions
    are given by [analyse_sleep_sessions]; [None] when the classification
    raises. *)
Definition primary_frame (df : frame) : option frame :=
  match _classify_session_type df with
  | Some session_type =>
      Some {| has_night_date := has_night_date df;
              has_sleep_start_local := has_sleep_start_local df;
              has_total_sleep_time_min := has_total_sleep_time_min df;
              has_sleep_needed_min := has_sleep_needed_min df;
              has_sleep_debt_min := has_sleep_debt_min df;
              has_recovery_score := has_recovery_score df;
              rows := List.map snd
                        (List.filter (fun p => String.eqb (fst p) "primary")
                                     (combine session_type (rows df))) |}
  | None => None
  end.

(** The readings as the specification words them: the most recent three (or
    fewer), compared last against first; the last two, compared last against
    the one before. *)
Definition sign_comparison (earlier later : Q) (up down : string) : string :=
  if Qlt_bool earlier later then up
  else if Qlt_bool later earlier then down
  else "stable".

Definition debt_trend_spec (debts : list Q) : string :=
  let recent := skipn (length debts - 3) debts in
  sign_comparison (hd 0%Q recent) (List.last recent 0%Q) "worsening" "improving".

Definition recovery_trend_spec (scores : list Q) : string :=
  let recent := skipn (length scores - 2) scores in
  sign_comparison (hd 0%Q recent) (List.last recent 0%Q) "improving" "declining".

(** The night of a row: the rows with its [night_date], with their labels. *)
Definition night_of (df : frame) (s : session) : list (nat * session) :=
  List.filter (fun r => (night_date (snd r) =? night_date s)%Z) (labelled (rows df)).

End SleepSessions.

(** ** sleep.py *)

Module Sleep.
Import PyFloat Frame.

Record epoch : Type := {
  wear_mode : string;
  datetime : Z;                    (* UTC, seconds *)
  datetime_et : Z;                 (* local wall clock, seconds *)
  heart_rate_mean : pyfloat;
  cardio_RMSSD_ms : pyfloat
}.

Record frame : Type := {
  has_wear_mode : bool;
  has_heart_rate_mean : bool;
  has_cardio_RMSSD_ms : bool;
  rows : list epoch
}.

(** [sort_values("datetime")]: a stable sort on the UTC time. *)
Fixpoint insert_by_datetime (e : epoch) (l : list epoch) : list epoch :=
  match l with
  | [] => [e]
  | y :: rest =>
      if (datetime e <=? datetime y)%Z then e :: y :: rest
      else y :: insert_by_datetime e rest
  end.

Definition sort_values (l : list epoch) : list epoch :=
  fold_right insert_by_datetime [] l.

(** Rows carry the label [reset_index] gave them. *)
Definition row : Type := (nat * epoch)%type.

Definition reset_index (l : list epoch) : list row := combine (seq 0 (length l)) l.

Definition night_date_of (r : row) : Z := date_of (datetime_et (snd r) - 18 * 3600).

Definition in_sleep_window (r : row) : bool :=
  let h := hour_of (datetime_et (snd r)) in
  (21 <=? h)%Z || (h <=? 3)%Z.

Definition hr_below (c : Q) (r : row) : bool := flt (heart_rate_mean (snd r)) (Fin c).

(** [heart_rate_mean >= wake_thresh_hr]. *)
Definition is_wake (r : row) : bool := fge (heart_rate_mean (snd r)) (Fin 70).

Definition onset_candidates (has_rmssd : bool) (night_df : list row) : list row :=
  let sleep_window := List.filter in_sleep_window night_df in
  let candidates := List.filter (hr_below 65) sleep_window in
  let candidates :=
    if has_rmssd && negb (forallb (fun r => is_nan (cardio_RMSSD_ms (snd r))) night_df)
    then List.filter (fun r => fgt (cardio_RMSSD_ms (snd r)) (Fin 70)) candidates
    else candidates in
  match candidates with
  | [] => List.filter (hr_below 70) sleep_window
  | _ => candidates
  end.

(** [onset_candidates["datetime_et"].iloc[0]], when there is a candidate. *)
Definition sleep_onset_of (has_rmssd : bool) (night_df : list row) : option Z :=
  match onset_candidates has_rmssd night_df with
  | [] => None
  | r :: _ => Some (datetime_et (snd r))
  end.

Definition post_onset_of (night_df : list row) (sleep_onset : Z) : list row :=
  List.filter (fun r => (sleep_onset <=? datetime_et (snd r))%Z) night_df.

(** The labels of the wake candidates. *)
Definition wake_index (post_onset : list row) : list nat :=
  List.map fst (List.filter is_wake post_onset).

(** The [for i in range(1, len(wake_idx))] loop; [None] when it ends without
    [break].  [S i - consecutive] is the index [i - consecutive + 1], which is
    never negative. *)
Fixpoint wake_loop (wake_idx : list nat) (range : list nat) (consecutive : nat) : option nat :=
  match range with
  | [] => None
  | i :: rest =>
      if (nth i wake_idx 0 =? nth (i - 1) wake_idx 0 + 1)%nat then
        let consecutive := S consecutive in
        if (5 <=? consecutive)%nat then Some (nth (S i - consecutive) wake_idx 0%nat)
        else wake_loop wake_idx rest consecutive
      else wake_loop wake_idx rest 1
  end.

Definition sleep_offset_idx (wake_idx : list nat) : nat :=
  match wake_loop wake_idx (seq 1 (length wake_idx - 1)) 1 with
  | Some idx => idx
  | None => nth 0 wake_idx 0%nat
  end.

(** [post_onset.loc[idx, "datetime_et"]]; [None] is the [KeyError]. *)
Fixpoint loc (idx : nat) (rs : list row) : option Z :=
  match rs with
  | [] => None
  | r :: rest => if (fst r =? idx)%nat then Some (datetime_et (snd r)) else loc idx rest
  end.

(** [post_onset["datetime_et"].iloc[-1]]: the time of the last available
    epoch. *)
Definition last_time (post_onset : list row) : Z :=
  List.last (List.map (fun r => datetime_et (snd r)) post_onset) 0%Z.

Definition sleep_offset_of (post_onset : list row) : option Z :=
  match wake_index post_onset with
  | [] => Some (last_time post_onset)
  | wake_idx => loc (sleep_offset_idx wake_idx) post_onset
  end.

(** The fields of a night this development follows; the nadir, the wake
    episodes and the continuity score are computed after them and do not feed
    back. *)
Record night : Type := {
  night_date : Z;
  sleep_onset : Z;
  sleep_offset : Z;
  duration_min : Q
}.

Inductive outcome : Type :=
| Skipped                          (* [continue] *)
| Reported (n : night)
| Raised.                          (* an exception *)

Definition analyse_night (has_rmssd : bool) (d : Z) (night_df : list row) : outcome :=
  match List.filter in_sleep_window night_df with
  | [] => Skipped
  | _ =>
      match sleep_onset_of has_rmssd night_df with
      | None => Skipped
      | Some onset =>
          match sleep_offset_of (post_onset_of night_df onset) with
          | None => Raised
          | Some offset =>
              let duration := (inject_Z (offset - onset) / 60)%Q in
              if Qlt_bool duration 60 then Skipped
              else Reported {| night_date := d; sleep_onset := onset;
                               sleep_offset := offset; duration_min := duration |}
          end
      end
  end.

Definition outcomes (df : frame) : list outcome :=
  let wear := List.filter (fun e => String.eqb (wear_mode e) "wear_on") (rows df) in
  match wear with
  | [] => []
  | _ =>
      if negb (has_heart_rate_mean df) then []
      else
        let wear := reset_index (sort_values wear) in
        List.map (fun g => analyse_night (has_cardio_RMSSD_ms df) (fst g) (snd g))
                 (groupby night_date_of wear)
  end.

(** The nights of the groups that report one; [None] when a night raised. *)
Fixpoint collect (os : list outcome) : option (list night) :=
  match os with
  | [] => Some []
  | Skipped :: rest => collect rest
  | Reported n :: rest => option_map (cons n) (collect rest)
  | Raised :: _ => None
  end.

(** [analyse_sleep(df)["nights"]]; [None] is the [KeyError] of a frame
    without the [wear_mode] column, or a night that raised. *)
Definition analyse_sleep (df : frame) : option (list night) :=
  if negb (has_wear_mode df) then None else collect (outcomes df).

(** The same loop as a recursion over the candidates still to visit,
    carrying the previous label, the first label of the current run and the
    length of that run. *)
Fixpoint scan (prev start consecutive : nat) (rest : list nat) : option nat :=
  match rest with
  | [] => None
  | x :: rest' =>
      if (x =? prev + 1)%nat then
        if (5 <=? S consecutive)%nat then Some start
        else scan x start (S consecutive) rest'
      else scan x x 1 rest'
  end.

(** The specification's wording of the offset: the first label that starts a
    run of five consecutive labels.  [run_from a k l]: [l] begins with
    [a+1, ..., a+k]. *)
Fixpoint run_from (a k : nat) (l : list nat) : bool :=
  match k with
  | O => true
  | S k' =>
      match l with
      | b :: rest => (b =? S a)%nat && run_from b k' rest
      | [] => false
      end
  end.

Definition starts_run5 (l : list nat) : bool :=
  match l with
  | a :: rest => run_from a 4 rest
  | [] => false
  end.

Fixpoint first_run5 (l : list nat) : option nat :=
  match l with
  | [] => None
  | a :: rest => if starts_run5 l then Some a else first_run5 rest
  end.

(** Epochs every [step] seconds from [start], with the given heart rates. *)
Fixpoint epochs_from (start step : Z) (hrs : list Q) : list epoch :=
  match hrs with
  | [] => []
  | h :: rest =>
      {| wear_mode := "wear_on"; datetime := start + 18000; datetime_et := start;
         heart_rate_mean := Fin h; cardio_RMSSD_ms := NaN |}
      :: epochs_from (start + step) step rest
  end.

(** A night at 30-second epochs: heart rate 60 from 23:00, then 75 from
    06:00:00 to 06:05:00. *)
Definition sustained_wake_night : frame :=
  {| has_wear_mode := true; has_heart_rate_mean := true; has_cardio_RMSSD_ms := false;
     rows := epochs_from 1702162800 30 (repeat 60%Q 840 ++ repeat 75%Q 11)%list |}.

(** The same night with a single epoch of heart rate 75 at 00:30:30 and heart
    rate 60 until 06:00. *)
Definition isolated_wake_night : frame :=
  {| has_wear_mode := true; has_heart_rate_mean := true; has_cardio_RMSSD_ms := false;
     rows := epochs_from 1702162800 30
               (repeat 60%Q 181 ++ [75%Q] ++ repeat 60%Q 659)%list |}.

End Sleep.

(** ** patterns.py *)

Module Patterns.
Import PyFloat Readiness.

Record pattern_record : Type := {
  pattern : string;
  description : string;
  severity : string;
  first_detected : option string
}.

Definition fabs (x : pyfloat) : pyfloat :=
  match x with
  | Fin q => Fin (Qabs q)
  | NaN => NaN
  end.

Definition fmul (a b : pyfloat) : pyfloat :=
  match a, b with
  | Fin x, Fin y => Fin (x * y)
  | _, _ => NaN
  end.

(** Python truthiness of a float: anything but zero (NaN is true). *)
Definition nonzero (x : pyfloat) : bool :=
  match x with
  | Fin q => negb (Qeq_bool q 0)
  | NaN => true
  end.

(** [l[-7:]]. *)
Definition last7 {A : Type} (l : list A) : list A := skipn (length l - 7) l.

(** [[d["mean"] for d in recent if d.get("mean") is not None]]. *)
Fixpoint means_of (recent : list ready_day) : list pyfloat :=
  match recent with
  | [] => []
  | d :: rest =>
      match rd_mean d with
      | Some m => m :: means_of rest
      | None => means_of rest
      end
  end.

(** [[means[i + 1] - means[i] for i in range(len(means) - 1)]]. *)
Fixpoint deltas (means : list pyfloat) : list pyfloat :=
  match means with
  | a :: ((b :: _) as rest) => fsub b a :: deltas rest
  | _ => []
  end.

Definition declining_days (means : list pyfloat) : nat :=
  length (List.filter (fun d => flt d (Fin 0)) (deltas means)).

(** The number of day-over-day drops, in the specification's words: the
    adjacent pairs whose later mean is below the earlier one. *)
Fixpoint day_over_day_drops (means : list pyfloat) : nat :=
  match means with
  | a :: ((b :: _) as rest) =>
      ((if flt b a then 1 else 0) + day_over_day_drops rest)%nat
  | _ => 0%nat
  end.

Section Rules.

(** The number formats of the f-strings ([:.0f], [:.1f]) and [str] of a
    length; they only shape the description text. *)
Variable format_0f : pyfloat -> string.
Variable format_1f : pyfloat -> string.
Variable str_nat : nat -> string.

(** Rule 1, compounding readiness debt. *)
Definition readiness_debt_rule (perf : performance) : list pattern_record :=
  let daily_ready := daily_ready perf in
  if (5 <=? length daily_ready)%nat then
    let recent := last7 daily_ready in
    let means := means_of recent in
    if (5 <=? length means)%nat then
      if (3 <=? declining_days means)%nat then
        let total_drop := fsub (List.last means NaN) (hd NaN means) in
        let pct_drop :=
          match ready_baseline perf with
          | Some b =>
              if nonzero b then Some (fabs (fmul (fdiv total_drop b) (Fin 100))) else None
          | None => None
          end in
        let text :=
          match pct_drop with
          | Some pct =>
              if nonzero pct then
                "Ready scores declined " ++ format_0f (fabs total_drop) ++ " points ("
                  ++ format_1f pct ++ "%) over " ++ str_nat (length means) ++ " days"
              else
                "Ready scores declined " ++ format_0f (fabs total_drop)
                  ++ " points over " ++ str_nat (length means) ++ " days"
          | None =>
              "Ready scores declined " ++ format_0f (fabs total_drop)
                ++ " points over " ++ str_nat (length means) ++ " days"
          end in
        [ {| pattern := "compounding_readiness_debt";
             description := text;
             severity := "warning";
             first_detected :=
               Some (date_key (rd_date (List.last recent
                                          {| rd_date := ""; rd_mean := None |}))) |} ]
      else []
    else []
  else [].

(** Rule 2, HRV downtrend. *)
Definition rmssd_declining_rule (hrv : Hrv.hrv_result) : list pattern_record :=
  match Hrv.rmssd_7d_slope hrv with
  | Some slope =>
      if Qlt_bool slope (-2) then
        [ {| pattern := "rmssd_declining";
             description :=
               "RMSSD trending down (slope=" ++ format_1f (Fin slope)
                 ++ " ms/day). Possible overreach.";
             severity := "warning";
             first_detected := None |} ]
      else []
  | None => []
  end.

(** Rules 3 to 14 read the sensor nights, the test frame and the session
    log; each appends to the list after rules 1 and 2.  [later] is what they
    append on the run at hand. *)
Definition detect_patterns (later : list pattern_record) (r : results)
  : list pattern_record :=
  readiness_debt_rule (res_performance r)
    ++ rmssd_declining_rule (res_hrv r)
    ++ later.

End Rules.

(** A daily Ready series with the given means on consecutive dates, and no
    other input. *)
Fixpoint ready_series (day : nat) (means : list Q) : list ready_day :=
  match means with
  | [] => []
  | m :: rest =>
      {| rd_date := "2024-01-0" ++ String (Ascii.ascii_of_nat (48 + day)) ""
                      ++ " 00:00:00";
         rd_mean := Some (Fin m) |}
      :: ready_series (S day) rest
  end.

Definition ready_only (means : list Q) : results :=
  {| res_performance :=
       {| ready_baseline := None; daily_ready := ready_series 1 means;
          daily_self_report := [] |};
     res_hrv := {| Hrv.rmssd_baseline := None; Hrv.morning_rmssd := None;
                   Hrv.rmssd_pct_baseline := None; Hrv.rmssd_7d_slope := None |} |}.

End Patterns.

(** ** circadian.py *)

Module Circadian.
Import PyFloat.

Record test : Type := {
  type : string;
  hour : pyfloat;
  score : pyfloat
}.

Record frame : Type := {
  has_type : bool;
  has_hour : bool;
  has_score : bool;
  rows : list test
}.

Record circadian_result : Type := {
  cosinor_fit : bool;
  mesor : option Q;
  amplitude : option Q;
  acrophase_hour : option Q;
  estimated_peak_window : option string;
  worst_window : option string;
  hourly_bins : list (string * Q * nat);
  cosinor_n : nat;
  peak_score_variance : option Q;
  chronotype_estimate : option string;
  natural_sleep_onset_local : option string;
  natural_wake_local : option string;
  bedtime_variance_min : option pyfloat
}.

(** The session log as [_add_sleep_timing] reads it: the two local times of
    a session, [None] being NaT, and whether the frame has each column. *)
Record session : Type := {
  sleep_start_local : option Z;    (* local wall clock, seconds *)
  sleep_end_local : option Z
}.

Record sleep_frame : Type := {
  has_sleep_start_local : bool;
  has_sleep_end_local : bool;
  sessions : list session
}.

Definition _chronotype_from_acrophase (acrophase_hour : Q) : string :=
  if Qlt_bool acrophase_hour 11 then "morning_lark"
  else if Qlt_bool acrophase_hour 15 then "intermediate"
  else "evening_owl".

(** [round(x, 2)] and [x % 24]. *)
Definition round2 (x : Q) : Q := (inject_Z (round_half_even (x * 100)) / 100)%Q.
Definition mod24 (x : Q) : Q := (x - 24 * inject_Z (Qfloor (x / 24)))%Q.

(** The READY rows and, of those, the samples with a score, as pairs of hour
    and score ([t_fit], [y_fit]). *)
Definition ready_rows (df : frame) : list test :=
  List.filter (fun r => String.eqb (type r) "READY") (rows df).

Fixpoint fit_samples (ready : list test) : list (pyfloat * Q) :=
  match ready with
  | [] => []
  | r :: rest =>
      match score r with
      | Fin y => (hour r, y) :: fit_samples rest
      | NaN => fit_samples rest
      end
  end.

(** The samples the model can use: none without a time-of-day column. *)
Definition valid_samples (df : frame) : list (pyfloat * Q) :=
  if has_hour df then fit_samples (ready_rows df) else [].

(** [.dt.minute], [int(x)] and [x % 1] on a float. *)
Definition minute_of (t : Z) : Z := ((t / 60) mod 60)%Z.
Definition Qtrunc (x : Q) : Z := if Qlt_bool x 0 then Qceiling x else Qfloor x.
Definition Qfrac (x : Q) : Q := (x - inject_Z (Qfloor x))%Q.

(** [f"{n:02d}"] and the clock text [f"{int(x):02d}:{int((x % 1) * 60):02d}"]. *)
Definition fmt02d (n : Z) : string :=
  if (0 <=? n)%Z && (n <? 10)%Z then "0" ++ pretty n else pretty n.

Definition hhmm (x : Q) : string :=
  fmt02d (Qtrunc x) ++ ":" ++ fmt02d (Qtrunc (Qfrac x * 60)).

(** [t.dt.hour + t.dt.minute / 60.0], missing for NaT. *)
Definition clock_hours (t : option Z) : pyfloat :=
  match t with
  | Some t => Fin (inject_Z (Frame.hour_of t) + inject_Z (minute_of t) / 60)
  | None => NaN
  end.

(** [h - 24 if h > 12 else h]. *)
Definition adjust (h : pyfloat) : pyfloat :=
  if fgt h (Fin 12) then fsub h (Fin 24) else h.

(** [Series.mean()], missing values skipped. *)
Definition Series_mean (xs : list pyfloat) : pyfloat :=
  match dropna xs with
  | [] => NaN
  | ys => Fin (Qmean ys)
  end.

(** [round(x, 0)] on a float. *)
Definition fround0 (x : pyfloat) : pyfloat :=
  match x with
  | Fin q => Fin (inject_Z (round_half_even q))
  | NaN => NaN
  end.

(** [start_hour.between(10, 17)]. *)
Definition is_nap (s : session) : bool :=
  match sleep_start_local s with
  | Some t => (10 <=? Frame.hour_of t)%Z && (Frame.hour_of t <=? 17)%Z
  | None => false
  end.

(** The sessions the timing is computed from: [df[~is_nap]] when the log has
    the start column. *)
Definition kept_sessions (log : sleep_frame) : list session :=
  if has_sleep_start_local log
  then List.filter (fun s => negb (is_nap s)) (sessions log)
  else sessions log.

Section Fit.

(** What the numeric libraries contribute.  [hourly_table] is the two-hour
    binning ([pd.cut] and [groupby]); [curve_fit] is scipy's least-squares
    fit from a first guess, [None] when it raises [RuntimeError] or
    [ValueError]; [peak_window_of], [worst_window_of] and [peak_variance_of] read the
    fitted curve on its 240-point grid; [Series_std] is pandas' sample
    standard deviation. *)
Variable hourly_table : list test -> list (string * Q * nat).
Variable curve_fit : list (pyfloat * Q) -> Q * Q * Q -> option (Q * Q * Q).
Variable peak_window_of : Q * Q * Q -> string.
Variable worst_window_of : Q * Q * Q -> string.
Variable peak_variance_of : list test -> Q * Q * Q -> option Q.
Variable Series_std : list pyfloat -> pyfloat.

Definition with_timing (result : circadian_result) (onset wake : option string)
    (variance : option pyfloat) : circadian_result :=
  {| cosinor_fit := cosinor_fit result;
     mesor := mesor result;
     amplitude := amplitude result;
     acrophase_hour := acrophase_hour result;
     estimated_peak_window := estimated_peak_window result;
     worst_window := worst_window result;
     hourly_bins := hourly_bins result;
     cosinor_n := cosinor_n result;
     peak_score_variance := peak_score_variance result;
     chronotype_estimate := chronotype_estimate result;
     natural_sleep_onset_local := onset;
     natural_wake_local := wake;
     bedtime_variance_min := variance |}.

(** The bedtime block: the onset text and the variance; [None] is the
    [ValueError] of [int(mean_bt)] on NaN. *)
Definition bedtime_of (log : sleep_frame) (df : list session)
  : option (option string * option pyfloat) :=
  if has_sleep_start_local log then
    let adjusted := List.map (fun s => adjust (clock_hours (sleep_start_local s))) df in
    match Series_mean adjusted with
    | NaN => None
    | Fin mean_bt =>
        let mean_bt := if Qlt_bool mean_bt 0 then (mean_bt + 24)%Q else mean_bt in
        Some (Some (hhmm mean_bt),
              if (2 <=? length adjusted)%nat
              then Some (fround0 (Patterns.fmul (Series_std adjusted) (Fin 60)))
              else None)
    end
  else Some (None, None).

(** The wake block; [None] is the [ValueError] of [int(mean_wk)] on NaN. *)
Definition wake_of (log : sleep_frame) (df : list session) : option (option string) :=
  if has_sleep_end_local log then
    match Series_mean (List.map (fun s => clock_hours (sleep_end_local s)) df) with
    | NaN => None
    | Fin mean_wk => Some (Some (hhmm mean_wk))
    end
  else Some None.

(** [None] is the [ValueError] that [int] raises on a NaN mean. *)
Definition _add_sleep_timing (result : circadian_result) (sleep_df : option sleep_frame)
  : option circadian_result :=
  match sleep_df with
  | None => Some (with_timing result None None None)
  | Some log =>
      match sessions log with
      | [] => Some (with_timing result None None None)
      | _ =>
          match kept_sessions log with
          | [] => Some (with_timing result None None None)
          | df =>
              match bedtime_of log df with
              | None => None
              | Some (onset, variance) =>
                  match wake_of log df with
                  | None => None
                  | Some wake => Some (with_timing result onset wake variance)
                  end
              end
          end
      end
  end.

(** A result without a fit: the given mesor and nulls. *)
Definition mean_only (bins : list (string * Q * nat)) (n : nat) (m : option Q)
  : circadian_result :=
  {| cosinor_fit := false; mesor := m; amplitude := None; acrophase_hour := None;
     estimated_peak_window := None; worst_window := None; hourly_bins := bins;
     cosinor_n := n; peak_score_variance := None; chronotype_estimate := None;
     natural_sleep_onset_local := None; natural_wake_local := None;
     bedtime_variance_min := None |}.

Definition Qmax_list (x : Q) (xs : list Q) : Q :=
  fold_left (fun m y => if Qlt_bool m y then y else m) xs x.

Definition Qmin_list (x : Q) (xs : list Q) : Q :=
  fold_left (fun m y => if Qlt_bool y m then y else m) xs x.

(** [t_fit[np.argmax(y_fit)]]: the hour of the first largest score. *)
Fixpoint hour_of_max (best : pyfloat * Q) (samples : list (pyfloat * Q)) : pyfloat :=
  match samples with
  | [] => fst best
  | s :: rest => if Qlt_bool (snd best) (snd s) then hour_of_max s rest
                 else hour_of_max best rest
  end.

(** [None] is the [KeyError] of a frame without the [type] or the [score]
    column, or the [ValueError] raised in [_add_sleep_timing]. *)
Definition analyse_circadian (df : frame) (sleep_df : option sleep_frame)
  : option circadian_result :=
  if negb (has_type df) then None else
  let ready := ready_rows df in
  match ready with
  | [] => Some (mean_only [] 0 None)
  | _ =>
      if negb (has_hour df) then Some (mean_only [] 0 None)
      else if negb (has_score df) then None
      else
        let bins := hourly_table ready in
        let samples := fit_samples ready in
        let y_fit := List.map snd samples in
        let n := length samples in
        if (n <? 6)%nat then
          let m := match y_fit with
                   | [] => None
                   | _ => Some (Qmean y_fit)
                   end in
          _add_sleep_timing (mean_only bins n m) sleep_df
        else
          let mesor_guess := Qmean y_fit in
          let amp_guess := ((Qmax_list (hd 0%Q y_fit) y_fit
                             - Qmin_list (hd 0%Q y_fit) y_fit) / 2)%Q in
          let acro_guess :=
            match hour_of_max (hd (NaN, 0%Q) samples) samples with
            | Fin h => h
            | NaN => 0%Q
            end in
          let result :=
            match curve_fit samples (mesor_guess, amp_guess, acro_guess) with
            | Some (m, a, p) =>
                let popt := (m, Qabs a, mod24 p) in
                {| cosinor_fit := true;
                   mesor := Some (round2 m);
                   amplitude := Some (round2 (Qabs a));
                   acrophase_hour := Some (round2 (mod24 p));
                   estimated_peak_window := Some (peak_window_of popt);
                   worst_window := Some (worst_window_of popt);
                   hourly_bins := bins;
                   cosinor_n := n;
                   peak_score_variance := peak_variance_of ready popt;
                   chronotype_estimate := Some (_chronotype_from_acrophase (mod24 p));
                   natural_sleep_onset_local := None;
                   natural_wake_local := None;
                   bedtime_variance_min := None |}
            | None => mean_only bins n (Some mesor_guess)
            end in
          _add_sleep_timing result sleep_df
  end.

End Fit.

End Circadian.

(** ** agent_payload.py *)

Module AgentPayload.
Import PyFloat.

(** The structured values the payload is made of.  A dict keeps its entries
    in insertion order; numpy scalars are the numbers and booleans they
    convert to. *)
#[local] Set Warnings "-register-all".

Inductive json : Type :=
| JNull
| JBool (b : bool)
| JNum (q : Q)
| JStr (s : string)
| JList (items : list json)
| JDict (entries : list (string * json)).

Definition is_null (j : json) : bool :=
  match j with
  | JNull => true
  | _ => false
  end.

Definition is_empty_dict (j : json) : bool :=
  match j with
  | JDict [] => true
  | _ => false
  end.

Definition is_empty_list (j : json) : bool :=
  match j with
  | JList [] => true
  | _ => false
  end.

Fixpoint _strip_nulls (obj : json) : json :=
  match obj with
  | JDict entries =>
      let cleaned :=
        (fix clean (es : list (string * json)) : list (string * json) :=
           match es with
           | [] => []
           | (k, v) :: rest =>
               let v' := _strip_nulls v in
               if is_null v' then clean rest
               else if is_empty_dict v' then clean rest
               else (k, v') :: clean rest
           end) entries in
      match cleaned with
      | [] => JNull
      | _ => JDict cleaned
      end
  | JList items =>
      JList (List.filter (fun c => negb (is_null c)) (List.map _strip_nulls items))
  | _ => obj
  end.

(** What the docstring of [_strip_nulls] promises and the specification
    repeats: at no depth a dict entry whose value is null, an empty dict or
    an empty list. *)
Fixpoint no_empty_entries (j : json) : bool :=
  match j with
  | JDict entries =>
      (fix all (es : list (string * json)) : bool :=
         match es with
         | [] => true
         | (_, v) :: rest =>
             negb (is_null v) && negb (is_empty_dict v) && negb (is_empty_list v)
             && no_empty_entries v && all rest
         end) entries
  | JList items =>
      (fix all (l : list json) : bool :=
         match l with
         | [] => true
         | x :: rest => no_empty_entries x && all rest
         end) items
  | _ => true
  end.

(** The part of it that concerns nulls and empty dicts only. *)
Fixpoint no_null_entries (j : json) : bool :=
  match j with
  | JDict entries =>
      (fix all (es : list (string * json)) : bool :=
         match es with
         | [] => true
         | (_, v) :: rest =>
             negb (is_null v) && negb (is_empty_dict v)
             && no_null_entries v && all rest
         end) entries
  | JList items =>
      (fix all (l : list json) : bool :=
         match l with
         | [] => true
         | x :: rest => no_null_entries x && all rest
         end) items
  | _ => true
  end.

(** The loop body of the dict case, entry by entry: strip the value, then
    keep the entry unless the stripped value is null or an empty dict. *)
Definition strip_entry (kv : string * json) : string * json :=
  (fst kv, _strip_nulls (snd kv)).

Definition keep_entry (kv : string * json) : bool :=
  negb (is_null (snd kv)) && negb (is_empty_dict (snd kv)).

(** [d.get(k)] and [d.get(k, default)]. *)
Fixpoint lookup_default (k : string) (d : list (string * json)) (default : json) : json :=
  match d with
  | [] => default
  | (k', v) :: rest => if String.eqb k' k then v else lookup_default k rest default
  end.

Definition get (k : string) (d : json) : json :=
  match d with
  | JDict es => lookup_default k es JNull
  | _ => JNull
  end.

(** Python truthiness. *)
Definition truthy (j : json) : bool :=
  match j with
  | JNull => false
  | JBool b => b
  | JNum q => negb (Qeq_bool q 0)
  | JStr s => negb (String.eqb s "")
  | JList l => match l with [] => false | _ => true end
  | JDict es => match es with [] => false | _ => true end
  end.

(** [x or {}] and [x or []] for a section of the packet. *)
Definition or_empty_dict (j : json) : json := if truthy j then j else JDict [].

Definition items_of (j : json) : list json :=
  match j with
  | JList l => l
  | _ => []
  end.

(** Comparisons of a value that is a number; false on null. *)
Definition num_gt (j : json) (c : Q) : bool :=
  match j with
  | JNum q => Qlt_bool c q
  | _ => false
  end.

Definition num_ge (j : json) (c : Q) : bool :=
  match j with
  | JNum q => Qle_bool c q
  | _ => false
  end.

Definition num_lt (j : json) (c : Q) : bool :=
  match j with
  | JNum q => Qlt_bool q c
  | _ => false
  end.

Definition str_is (j : json) (s : string) : bool :=
  match j with
  | JStr t => String.eqb t s
  | _ => false
  end.

(** [d.get("strain_score", default)] of one daily strain record. *)
Definition strain_score_or (default : Q) (d : json) : json :=
  match d with
  | JDict es => lookup_default "strain_score" es (JNum default)
  | _ => JNum default
  end.

Fixpoint count_leading (p : json -> bool) (l : list json) : nat :=
  match l with
  | [] => 0
  | d :: rest => if p d then S (count_leading p rest) else 0
  end.

Definition _count_overreach (daily_strain : list json) : nat :=
  count_leading (fun d => num_ge (strain_score_or 0 d) 18) (rev daily_strain).

Fixpoint first_index (p : json -> bool) (l : list json) (i : nat) : option nat :=
  match l with
  | [] => None
  | d :: rest => if p d then Some i else first_index p rest (S i)
  end.

Definition _days_since_rest (daily_strain : list json) : option nat :=
  match daily_strain with
  | [] => None
  | _ =>
      match first_index (fun d => num_lt (strain_score_or 21 d) 5) (rev daily_strain) 0 with
      | Some i => Some i
      | None => Some (length daily_strain)
      end
  end.

Definition _get_arch_summary (pkt : json) : json :=
  let ss := get "sleep_sessions" pkt in
  if truthy ss then get "architecture_summary" ss else JNull.

Definition _SEVERITY_ORDER (severity : json) : nat :=
  if str_is severity "critical" then 0
  else if str_is severity "warning" then 1
  else if str_is severity "info" then 2
  else 9.

(** [alerts.sort(key=...)]: stable, by severity rank. *)
Fixpoint insert_alert (a : json) (l : list json) : list json :=
  match l with
  | [] => [a]
  | b :: rest =>
      if (_SEVERITY_ORDER (get "severity" a) <=? _SEVERITY_ORDER (get "severity" b))%nat
      then a :: b :: rest
      else b :: insert_alert a rest
  end.

Definition sort_alerts (l : list json) : list json := fold_right insert_alert [] l.

Definition alert (id severity message action : string) : json :=
  JDict [("id", JStr id); ("severity", JStr severity);
         ("message", JStr message); ("recommended_action", JStr action)].

Section Builders.

(** [fmt] is the text an f-string puts for a value (the two non-ASCII signs
    of the message texts are written [>=] and [F]); the builders below are
    the functions of agent_payload.py that compute derived fields from the
    packet and the results, each returning the dict (or null) it builds. *)
Variable fmt : json -> string.
Variable _build_agent_state : json -> json -> json.
Variable _build_data_quality : json -> json -> json.
Variable _build_baseline : json -> json -> json.
Variable _build_recovery : json -> json -> json.
Variable _build_sleep_debt : json -> json -> json.
Variable _build_strain : json -> json -> json.

Definition _build_meta (pkt : json) : json :=
  let m := get "meta" pkt in
  JDict [("analysis_generated_at", get "analysis_generated_at" m);
         ("data_coverage", get "data_coverage" m)].

Definition when (b : bool) (a : json) : list json := if b then [a] else [].

Definition _build_alerts (pkt results : json) : list json :=
  let recovery := or_empty_dict (get "recovery" pkt) in
  let sleep_debt := or_empty_dict (get "sleep_debt" pkt) in
  let arch := _get_arch_summary pkt in
  let daily_strain := items_of (get "daily_strain" (get "strain" results)) in
  let circ := or_empty_dict (get "circadian_profile" pkt) in
  let zone := get "zone" recovery in
  let dsg := get "days_since_green_zone" recovery in
  let debt_h :=
    let v := get "current_debt_hours" sleep_debt in
    if truthy v then v else JNum 0 in
  let trend := get "trend" sleep_debt in
  let overreach := _count_overreach daily_strain in
  let avg_rem := if truthy arch then get "avg_rem_pct" arch else JNull in
  let rem_debt := if truthy arch then get "rem_debt_min_3night" arch else JNull in
  let avg_deep := if truthy arch then get "avg_deep_pct" arch else JNull in
  let bedtime_var := get "bedtime_variance_min" circ in
  let days_rest := _days_since_rest daily_strain in
  let alerts :=
    (when ((str_is zone "red" || str_is zone "yellow") && num_ge dsg 3)
          (alert "CHRONIC_UNDERRECOVERY"
                 (if str_is zone "red" then "critical" else "warning")
                 ("Recovery has not reached green zone in " ++ fmt dsg ++ " sessions.")
                 "Prioritize sleep, reduce training load, and consider a rest day.")
     ++ when (num_gt debt_h (15 # 10))
          (alert "SLEEP_DEBT_ACCUMULATING"
                 (if num_gt debt_h 4 then "critical" else "warning")
                 ("You owe " ++ fmt debt_h ++ "h of sleep. Trend: "
                    ++ (if truthy trend then fmt trend else "unknown") ++ ".")
                 ("Aim for "
                    ++ fmt (match debt_h with
                            | JNum q => JNum (inject_Z (30 + Qfloor (q * 15)))
                            | _ => JNull
                            end)
                    ++ " extra minutes tonight."))
     ++ when (2 <=? overreach)%nat
          (alert "OVERREACH_STREAK" "warning"
                 ("Strain >=18 for " ++ fmt (JNum (inject_Z (Z.of_nat overreach)))
                    ++ " consecutive day(s). Risk of functional overreach.")
                 "Schedule a rest day. Reduce strain below 10.")
     ++ when (num_lt avg_rem 18)
          (alert "REM_DEFICIT" "warning"
                 ("Average REM is " ++ fmt avg_rem
                    ++ "% (target >=20%). REM debt over last 3 nights: "
                    ++ (if truthy rem_debt then fmt rem_debt else "?") ++ " min.")
                 "Avoid alcohol and late caffeine. Aim for consistent wake time.")
     ++ when (num_lt avg_deep 15)
          (alert "DEEP_SLEEP_DEFICIT" "warning"
                 ("Average deep sleep is " ++ fmt avg_deep ++ "% (target 15-20%).")
                 "Exercise earlier in the day. Keep bedroom cool (65-68F).")
     ++ when (num_gt bedtime_var 45)
          (alert "CIRCADIAN_DRIFT" "info"
                 ("Bedtime varies by " ++ fmt bedtime_var
                    ++ " min. Circadian anchor is unstable.")
                 "Set a consistent bedtime within a 30-minute window.")
     ++ when (match days_rest with
              | Some n => (7 <=? n)%nat
              | None => false
              end)
          (alert "REST_DAY_OVERDUE" "info"
                 ("No rest day (strain <5) in the last "
                    ++ fmt (match days_rest with
                            | Some n => JNum (inject_Z (Z.of_nat n))
                            | None => JNull
                            end)
                    ++ " days.")
                 "Schedule a low-strain recovery day."))%list in
  sort_alerts alerts.

Definition _trim_latest_day (pkt : json) : json :=
  let ld := get "latest_day" pkt in
  if negb (truthy ld) then JNull
  else JDict (List.map (fun k => (k, get k ld))
                       ["date"; "readiness_tier"; "ready_mean"; "ready_pct_baseline";
                        "agility_mean"; "focus_mean"; "self_report"; "strain"]).

Definition _build_circadian (pkt : json) : json :=
  let cp := get "circadian_profile" pkt in
  if negb (truthy cp) then JNull
  else JDict (List.map (fun k => (k, get k cp))
                       ["estimated_peak_window"; "cosinor_acrophase_hour";
                        "cosinor_amplitude"; "worst_window"; "peak_score_variance";
                        "natural_sleep_onset_local"; "natural_wake_local";
                        "bedtime_variance_min"; "chronotype_estimate"; "cosinor_n"]).

Definition _trim_sleep_performance (pkt : json) : json :=
  let ss := get "sleep_sessions" pkt in
  if negb (truthy ss) then JNull else get "sleep_performance" ss.

Definition _trim_arch_summary (pkt : json) : json := _get_arch_summary pkt.

(** The dict literal of [build_agent_payload], before stripping. *)
Definition payload_of (full_packet results : json) : json :=
  JDict [
    ("schema_version", JStr "3.0");
    ("meta", _build_meta full_packet);
    ("agent_state", _build_agent_state full_packet results);
    ("data_quality", _build_data_quality full_packet results);
    ("alerts", JList (_build_alerts full_packet results));
    ("baseline", _build_baseline full_packet results);
    ("latest_day", _trim_latest_day full_packet);
    ("circadian", _build_circadian full_packet);
    ("recovery", _build_recovery full_packet results);
    ("sleep_debt", _build_sleep_debt full_packet results);
    ("sleep_performance", _trim_sleep_performance full_packet);
    ("sleep_architecture_summary", _trim_arch_summary full_packet);
    ("strain", _build_strain full_packet results);
    ("trends", get "trends" full_packet)
  ].

Definition build_agent_payload (full_packet results : json) : json :=
  _strip_nulls (payload_of full_packet results).

End Builders.

End AgentPayload.

(** ** activity.py: daily aggregation and exercise sessions *)

Module ActivityFrame.
Import PyFloat Frame Activity.

(** A row of the decoded-metrics frame.  [acc_energy] is the value
    [_epoch_energy] computes from the accelerometer cells of the row, a
    finite float. *)
Record epoch : Type := {
  wear_mode : string;
  datetime_et : Z;                 (* local wall clock, seconds *)
  heart_rate_mean : pyfloat;
  acc_energy : Q
}.

Record frame : Type := {
  has_heart_rate_mean : bool;
  rows : list epoch
}.

(** A row with its index label; the loader leaves the frame with the labels
    0, 1, 2, ... *)
Definition row : Type := (nat * epoch)%type.

Definition labelled (df : frame) : list row :=
  combine (seq 0 (length (rows df))) (rows df).


(** [hr_values]: the heart rate with missing readings filled with 60, or 60
    throughout when the frame has no heart-rate column. *)
Definition hr_value (df : frame) (r : row) : pyfloat :=
  if has_heart_rate_mean df then fillna 60 (heart_rate_mean (snd r)) else Fin 60.

Definition activity_level (df : frame) (r : row) : string :=
  _classify_epoch (Fin (acc_energy (snd r))) (hr_value df r).

Definition _load_label (energy : Q) : string :=
  if Qlt_bool energy 500 then "low"
  else if Qlt_bool energy 2000 then "moderate"
  else "high".

(** The fields of a daily record that come from the classified epochs; the
    step and calorie counters are read from columns of their own. *)
Record daily_record : Type := {
  date : Z;
  sedentary_epochs : nat;
  light_epochs : nat;
  moderate_epochs : nat;
  vigorous_epochs : nat;
  total_epochs : nat;
  moderate_vigorous_min : Q;
  physical_load : Q;
  exercise_load : string
}.

(** [counts.get(level, 0)] on the [value_counts()] of a day. *)
Definition count_level (df : frame) (day : list row) (level : string) : nat :=
  length (List.filter (fun r => String.eqb (activity_level df r) level) day).

Definition analyse_day (df : frame) (d : Z) (day_df : list row) : daily_record :=
  let counts := count_level df day_df in
  let moderate_vigorous :=
    List.filter (fun r => at_least_moderate (activity_level df r)) day_df in
  let load_energy :=
    match moderate_vigorous with
    | [] => 0%Q
    | _ => Qsum (List.map (fun r => acc_energy (snd r)) moderate_vigorous)
    end in
  {| date := d;
     sedentary_epochs := counts "sedentary";
     light_epochs := counts "light";
     moderate_epochs := counts "moderate";
     vigorous_epochs := counts "vigorous";
     total_epochs := length day_df;
     moderate_vigorous_min :=
       round1 (inject_Z (Z.of_nat (counts "moderate" + counts "vigorous")) * (1 # 2));
     physical_load := round1 load_energy;
     exercise_load := _load_label load_energy |}.



(** [np.split(idx, np.where(np.diff(idx) > gap)[0] + 1)] on a non-empty
    array of labels: a new group starts after every step larger than
    [gap]. *)
Fixpoint split_gaps (gap : Z) (idx : list nat) : list (list nat) :=
  match idx with
  | [] => [[]]
  | x :: rest =>
      match rest with
      | [] => [[x]]
      | y :: _ =>
          if (gap <? Z.of_nat y - Z.of_nat x)%Z then [x] :: split_gaps gap rest
          else
            match split_gaps gap rest with
            | g :: gs => (x :: g) :: gs
            | [] => [[x]]
            end
      end
  end.

(** [df.loc[label]]; [None] is the [KeyError]. *)
Fixpoint loc (label : nat) (rs : list row) : option epoch :=
  match rs with
  | [] => None
  | r :: rest => if (fst r =? label)%nat then Some (snd r) else loc label rest
  end.


Record session : Type := {
  s_start : Z;
  s_end : Z;
  duration_min : Q;
  avg_hr : Q
}.




(** Consecutive labels of a list are at most [gap] apart. *)
Fixpoint within_gap (gap : Z) (idx : list nat) : bool :=
  match idx with
  | x :: rest =>
      match rest with
      | y :: _ => (Z.of_nat y - Z.of_nat x <=? gap)%Z && within_gap gap rest
      | [] => true
      end
  | [] => true
  end.

End ActivityFrame.

(** ** agent_payload.py: the derived agent state *)

Module AgentState.
Import PyFloat AgentPayload.

(** A daily strain record as [analyse_strain] writes it: a dict whose
    [strain_score], when present, is a number.  On anything else the two
    scans below raise. *)
Definition strain_record (d : json) : bool :=
  match d with
  | JDict es =>
      match lookup_default "strain_score" es (JNum 0) with
      | JNum _ => true
      | _ => false
      end
  | _ => false
  end.

(** The [history] argument of the source is not read. *)
Definition _derive_readiness_regime (zone days_since_green : json) : string :=
  if str_is zone "red" then "red"
  else if str_is zone "yellow" then
    if num_ge days_since_green 3 then "chronic_yellow" else "yellow"
  else "green".

Definition _strain_ceiling (zone : json) (overreach_count : nat) : Z :=
  if str_is zone "red" then 8%Z
  else if str_is zone "yellow" then Z.max 8 (14 - Z.of_nat overreach_count * 2)
  else Z.max 10 (18 - Z.of_nat overreach_count * 2).

Definition _deep_work_capacity (ceiling : Z) (rem_deficit debt_alert : bool) : string :=
  if (ceiling <=? 8)%Z || (rem_deficit && debt_alert) then "low"
  else if (ceiling <=? 12)%Z || rem_deficit || debt_alert then "moderate"
  else "high".

Definition _peak_cognitive_confidence (n_ready : Z) (zone : json) : string :=
  if (30 <=? n_ready)%Z && (str_is zone "green" || is_null zone) then "high"
  else if (15 <=? n_ready)%Z then "medium"
  else "low".

Definition _overall_confidence (sensor_days primary_count n_ready sr_pct : Z) : string :=
  let score :=
    ((if (7 <=? sensor_days)%Z then 1 else 0)
     + (if (5 <=? primary_count)%Z then 1 else 0)
     + (if (30 <=? n_ready)%Z then 1 else 0)
     + (if (50 <=? sr_pct)%Z then 1 else 0))%nat in
  if (3 <=? score)%nat then "high"
  else if (2 <=? score)%nat then "medium"
  else "low".

(** The fields of [_build_agent_state] that are computed from the zone, the
    daily strain and the two alert flags. *)
Record agent_state : Type := {
  readiness_regime : string;
  consecutive_overreach_days : nat;
  days_since_rest_day : option nat;
  recommended_strain_ceiling : Z;
  deep_work_capacity : string;
  nap_recommended : bool
}.

Definition agent_state_of (zone days_since_green : json) (daily_strain : list json)
           (rem_deficit_alert sleep_debt_alert : bool) : agent_state :=
  let consecutive_overreach := _count_overreach daily_strain in
  let recommended_ceiling := _strain_ceiling zone consecutive_overreach in
  {| readiness_regime := _derive_readiness_regime zone days_since_green;
     consecutive_overreach_days := consecutive_overreach;
     days_since_rest_day := _days_since_rest daily_strain;
     recommended_strain_ceiling := recommended_ceiling;
     deep_work_capacity :=
       _deep_work_capacity recommended_ceiling rem_deficit_alert sleep_debt_alert;
     nap_recommended := rem_deficit_alert && sleep_debt_alert |}.

(** The severity rank the alerts are sorted by. *)
Definition alert_rank (a : json) : nat := _SEVERITY_ORDER (get "severity" a).

(** The keys of the payload dict, in the order of the literal. *)
Definition payload_keys : list string :=
  ["schema_version"; "meta"; "agent_state"; "data_quality"; "alerts"; "baseline";
   "latest_day"; "circadian"; "recovery"; "sleep_debt"; "sleep_performance";
   "sleep_architecture_summary"; "strain"; "trends"].

(** The dict literal of [build_agent_payload], on the values its entries
    have been computed to; the schema version is the constant of the
    source. *)
Definition payload_literal (meta agent_state data_quality : json) (alerts : list json)
    (baseline latest_day circadian recovery sleep_debt sleep_performance
     sleep_architecture_summary strain trends : json) : json :=
  JDict [
    ("schema_version", JStr "3.0");
    ("meta", meta);
    ("agent_state", agent_state);
    ("data_quality", data_quality);
    ("alerts", JList alerts);
    ("baseline", baseline);
    ("latest_day", latest_day);
    ("circadian", circadian);
    ("recovery", recovery);
    ("sleep_debt", sleep_debt);
    ("sleep_performance", sleep_performance);
    ("sleep_architecture_summary", sleep_architecture_summary);
    ("strain", strain);
    ("trends", trends)
  ].

End AgentState.

(** ** sleep_sessions.py: night summaries and sleep architecture *)

Module SleepArchitecture.
Import PyFloat.

Definition _DEEP_TARGET_PCT : Q * Q := (15%Q, 20%Q).
Definition _REM_TARGET_PCT : Q * Q := (20%Q, 25%Q).

Definition fadd (a b : pyfloat) : pyfloat :=
  match a, b with
  | Fin x, Fin y => Fin (x + y)
  | _, _ => NaN
  end.

(** Python's [min(a, b)] and [max(a, b)]: the first argument, unless the
    second is strictly smaller (larger); with a NaN no comparison holds. *)
Definition fmin (a b : pyfloat) : pyfloat := if flt b a then b else a.
Definition fmax (a b : pyfloat) : pyfloat := if fgt b a then b else a.

(** [round(x, 1)] of a float. *)
Definition fround1 (x : pyfloat) : pyfloat :=
  match x with
  | Fin q => Fin (round1 q)
  | NaN => NaN
  end.

Definition _target_score (value : pyfloat) (lo hi : Q) : pyfloat :=
  if fle (Fin lo) value && fle value (Fin hi) then Fin 100
  else
    let mid := ((lo + hi) / 2)%Q in
    let distance :=
      fmin (Patterns.fabs (fsub value (Fin lo))) (Patterns.fabs (fsub value (Fin hi))) in
    fmax (Fin 0) (fsub (Fin 100) (Patterns.fmul distance (Fin (100 / mid)))).

(** The cells of a session row the architecture is computed from; [None]
    is a column that is not in the frame. *)
Record session_row : Type := {
  total_sleep_time_min : option pyfloat;
  total_deep : option pyfloat;
  total_rem : option pyfloat
}.

(** [row.get(col) or 0]: zero for a missing column and for a zero cell; a
    NaN cell is true in Python and stays. *)
Definition or_zero (x : option pyfloat) : pyfloat :=
  match x with
  | Some (Fin q) => if Qeq_bool q 0 then Fin 0 else Fin q
  | Some NaN => NaN
  | None => Fin 0
  end.

(** [round(part / total * 100, 1) if total > 0 else 0]. *)
Definition pct_of (part total : pyfloat) : pyfloat :=
  if fgt total (Fin 0)
  then fround1 (Patterns.fmul (fdiv part total) (Fin 100))
  else Fin 0.

(** [band[0] <= pct <= band[1]]. *)
Definition on_target (pct : pyfloat) (band : Q * Q) : bool :=
  fle (Fin (fst band)) pct && fle pct (Fin (snd band)).

(** The architecture fields of a night summary. *)
Record night_summary : Type := {
  total_sleep_min : pyfloat;
  deep_pct : pyfloat;
  deep_on_target : bool;
  rem_min : pyfloat;
  rem_pct : pyfloat;
  rem_on_target : bool
}.

(** The body of the loop of [_build_night_summaries], for these fields. *)
Definition night_summary_of (row : session_row) : night_summary :=
  let total := or_zero (total_sleep_time_min row) in
  let deep := or_zero (total_deep row) in
  let rem := or_zero (total_rem row) in
  let deep_pct := pct_of deep total in
  let rem_pct := pct_of rem total in
  {| total_sleep_min := fround1 total;
     deep_pct := deep_pct;
     deep_on_target := on_target deep_pct _DEEP_TARGET_PCT;
     rem_min := fround1 rem;
     rem_pct := rem_pct;
     rem_on_target := on_target rem_pct _REM_TARGET_PCT |}.

(** One entry of [arch_scores] in [_compute_sleep_performance]. *)
Definition architecture_score (n : night_summary) : pyfloat :=
  let deep_score :=
    _target_score (deep_pct n) (fst _DEEP_TARGET_PCT) (snd _DEEP_TARGET_PCT) in
  let rem_score :=
    _target_score (rem_pct n) (fst _REM_TARGET_PCT) (snd _REM_TARGET_PCT) in
  fdiv (fadd deep_score rem_score) (Fin 2).

(** [primary_nights[-3:]]. *)
Definition last3 {A : Type} (l : list A) : list A := skipn (length l - 3) l.

(** [target_rem_min - n["rem_min"]] of one night. *)
Definition rem_deficit (n : night_summary) : pyfloat :=
  fsub (Patterns.fmul (total_sleep_min n) (Fin (fst _REM_TARGET_PCT / 100))) (rem_min n).

(** The loop over [recent_primary]: only a deficit above zero is added, so
    the sum stays a number. *)
Fixpoint rem_debt_sum (acc : Q) (recent : list night_summary) : Q :=
  match recent with
  | [] => acc
  | n :: rest =>
      match rem_deficit n with
      | Fin d => if Qlt_bool 0 d then rem_debt_sum (acc + d) rest
                 else rem_debt_sum acc rest
      | NaN => rem_debt_sum acc rest
      end
  end.

(** [int(round(rem_debt_min_3night, 0))]. *)
Definition rem_debt_min_3night (primary_nights : list night_summary) : Z :=
  round_half_even (rem_debt_sum 0 (last3 primary_nights)).

End SleepArchitecture.

(** ** performance.py: the baseline and the daily Ready trajectory *)

Module Performance.
Import PyFloat Frame.

Record test : Type := {
  type : string;
  date : Z;                        (* local calendar date, in days *)
  score : pyfloat;
  is_baseline : bool
}.

Definition of_type (ttype : string) (df : list test) : list test :=
  List.filter (fun t => String.eqb (type t) ttype) df.

(** [Series.max()] of a non-empty column of numbers. *)
Definition Qmax_of (x : Q) (xs : list Q) : Q :=
  fold_left (fun m y => if Qlt_bool m y then y else m) xs x.

(** The baseline block of [analyse_performance]: the score of the first
    baseline test (a Ready one when there is any), which may be missing;
    without a baseline test the highest Ready score. *)
Definition ready_baseline (df : list test) : option pyfloat :=
  let baselines :=
    match List.filter (fun t => is_baseline t && String.eqb (type t) "READY") df with
    | [] => List.filter is_baseline df
    | b => b
    end in
  match baselines with
  | b :: _ => Some (score b)
  | [] =>
      match dropna (List.map score (of_type "READY" df)) with
      | [] => None
      | x :: rest => Some (Fin (Qmax_of x rest))
      end
  end.

(** Python truthiness of the baseline: neither [None] nor zero. *)
Definition truthy (b : option pyfloat) : bool :=
  match b with
  | Some (Fin q) => negb (Qeq_bool q 0)
  | Some NaN => true
  | None => false
  end.

Record daily : Type := {
  d_date : Z;
  d_mean : pyfloat;                (* NaN when the day has no score *)
  d_count : nat;
  pct_baseline : option pyfloat    (* absent without a baseline *)
}.

(** The mean of a column, missing values skipped. *)
Definition mean_skipna (xs : list pyfloat) : pyfloat :=
  match dropna xs with
  | [] => NaN
  | ys => Fin (Qmean ys)
  end.

(** [_daily_agg(df, "READY")] with the [pct_baseline] column that
    [analyse_performance] adds. *)
Definition daily_ready (df : list test) : list daily :=
  let baseline := ready_baseline df in
  List.map (fun g =>
              let m := mean_skipna (List.map score (snd g)) in
              {| d_date := fst g;
                 d_mean := m;
                 d_count := length (snd g);
                 pct_baseline :=
                   match baseline with
                   | Some b =>
                       if truthy baseline
                       then Some (Patterns.fmul (fdiv m b) (Fin 100)) else None
                   | None => None
                   end |})
           (groupby date (of_type "READY" df)).

End Performance.

(** ** sleep.py: wake episodes and the continuity score *)

Module SleepContinuity.
Import PyFloat Frame Sleep.

(** [round(x, 3)]. *)
Definition round3 (x : Q) : Q := (inject_Z (round_half_even (x * 1000)) / 1000)%Q.

(** Python's [max(a, b)] and [min(a, b)]: the first argument unless the
    second is strictly beyond it. *)
Definition Qpymax (a b : Q) : Q := if Qlt_bool a b then b else a.
Definition Qpymin (a b : Q) : Q := if Qlt_bool b a then b else a.

(** [night_df[(datetime_et >= sleep_onset) & (datetime_et <= sleep_offset)]]. *)
Definition sleep_period (night_df : list row) (sleep_onset sleep_offset : Z) : list row :=
  List.filter (fun r => (sleep_onset <=? datetime_et (snd r))%Z
                        && (datetime_et (snd r) <=? sleep_offset)%Z) night_df.

(** [int(np.sum(np.diff(idx_arr) > gap))]. *)
Fixpoint count_gaps (gap : Z) (idx_arr : list nat) : nat :=
  match idx_arr with
  | [] => 0
  | x :: rest =>
      match rest with
      | [] => 0
      | y :: _ =>
          ((if (gap <? Z.of_nat y - Z.of_nat x)%Z then 1 else 0) + count_gaps gap rest)%nat
      end
  end.

Definition continuity_score (wake_episodes : nat) (duration_min : Q) : Q :=
  let continuity :=
    round3 (1 - inject_Z (Z.of_nat wake_episodes) * 5 / Qpymax duration_min 1) in
  Qpymax 0 (Qpymin 1 continuity).

Section Energy.

(** The [acc_energy] column that [_acc_energy] fills in, by row label. *)
Variable acc_energy : nat -> pyfloat.

Definition wake_mask (r : row) : bool :=
  fgt (heart_rate_mean (snd r)) (Fin 70) && fgt (acc_energy (fst r)) (Fin 500).

Definition wake_epochs (sleep_period : list row) : list row :=
  List.filter wake_mask sleep_period.

Definition wake_episodes (sleep_period : list row) : nat :=
  match sleep_period with
  | [] => 0%nat
  | _ =>
      match List.map fst (wake_epochs sleep_period) with
      | [] => 0%nat
      | idx_arr => (count_gaps 5 idx_arr + 1)%nat
      end
  end.

End Energy.

End SleepContinuity.

(** * Properties *)

(** ** Readiness tiers *)

Section ReadinessFacts.
Import PyFloat Readiness.

Lemma scan_tiers_name (r : pyfloat) (p : option pyfloat) (ts : list tier_def) (n : string) :
  scan_tiers r p ts = Some n -> In n (List.map name ts).
Proof.
  induction ts as [|t rest IH]; simpl; [discriminate|].
  destruct (match p with Some _ => _ | None => _ end).
  - intros [= <-]. now left.
  - intros H. right. auto.
Qed.

Lemma score_tier_known (ready_score rmssd_pct : option pyfloat) :
  In (score_tier ready_score rmssd_pct) tier_order.
Proof.
  unfold score_tier. destruct ready_score as [r|].
  - destruct (scan_tiers r rmssd_pct _TIERS) as [n|] eqn:E.
    + apply (scan_tiers_name _ _ _ _ E).
    + vm_compute. tauto.
  - vm_compute. tauto.
Qed.

Lemma self_report_cap_cases (stress sleepiness : option pyfloat) :
  self_report_cap stress sleepiness = None
  \/ self_report_cap stress sleepiness = Some "Low"
  \/ self_report_cap stress sleepiness = Some "Recovery".
Proof.
  unfold self_report_cap. destruct stress, sleepiness; auto.
  destruct (_ && _); auto. destruct (_ && _); auto.
Qed.

Lemma classify_tier_known (ready_score rmssd_pct stress sleepiness : option pyfloat) :
  exists t, _classify_tier ready_score rmssd_pct stress sleepiness = Some t
            /\ In t tier_order.
Proof.
  unfold _classify_tier.
  pose proof (score_tier_known ready_score rmssd_pct) as Hin.
  destruct (self_report_cap_cases stress sleepiness) as [-> | [-> | ->]].
  - eauto.
  - simpl in Hin. destruct Hin as [<- | [<- | [<- | [<- | [<- | []]]]]];
      vm_compute; eexists; split; try reflexivity; tauto.
  - simpl in Hin. destruct Hin as [<- | [<- | [<- | [<- | [<- | []]]]]];
      vm_compute; eexists; split; try reflexivity; tauto.
Qed.

Lemma color_of_known (t : string) :
  In t tier_order -> exists c, color_of _TIERS t = Some c.
Proof.
  simpl. intros [<- | [<- | [<- | [<- | [<- | []]]]]]; vm_compute; eauto.
Qed.

Lemma classify_day_total (p : option pyfloat) (sr : list self_report_day) (day : ready_day) :
  exists e, classify_day p sr day = Some (date_key (rd_date day), e)
            /\ In (tier e) tier_order
            /\ ready_score e = rd_mean day
            /\ _classify_tier (rd_mean day) p
                 (fst (find_self_report (date_key (rd_date day)) sr))
                 (snd (find_self_report (date_key (rd_date day)) sr)) = Some (tier e).
Proof.
  unfold classify_day.
  destruct (classify_tier_known (rd_mean day) p
              (fst (find_self_report (date_key (rd_date day)) sr))
              (snd (find_self_report (date_key (rd_date day)) sr))) as (t & Ht & Hin).
  rewrite Ht. destruct (color_of_known t Hin) as (c & ->).
  eexists. split; [reflexivity|]. simpl. auto.
Qed.

Lemma assign_loop_entries (p : option pyfloat) (sr : list self_report_day)
      (days : list ready_day) (acc : gmap string tier_entry) :
  exists out, assign_loop p sr days acc = Some out
    /\ forall (date : string) (e : tier_entry), out !! date = Some e ->
         acc !! date = Some e
         \/ exists day, In day days /\ classify_day p sr day = Some (date, e).
Proof.
  revert acc. induction days as [|day rest IH]; intros acc; simpl.
  - exists acc. auto.
  - destruct (classify_day_total p sr day) as (e0 & He0 & _).
    rewrite He0.
    destruct (IH (<[date_key (rd_date day) := e0]> acc)) as (out & Hout & Hent).
    exists out. split; [exact Hout|].
    intros date e Hlook. destruct (Hent date e Hlook) as [Hacc | (d & Hd & Hc)].
    + destruct (decide (date_key (rd_date day) = date)) as [Heq | Hne].
      * subst date. rewrite lookup_insert_eq in Hacc. injection Hacc as <-.
        right. exists day. auto.
      * rewrite lookup_insert_ne in Hacc by exact Hne. now left.
    + right. exists d. auto.
Qed.

End ReadinessFacts.

Section ReadinessClaims.
Import PyFloat Readiness.

(** C2. The self-report override never promotes: the tier returned by
    [_classify_tier] with the override is at the same or a lower place in
    Peak > Good > Moderate > Low > Recovery than the tier computed without
    a self-report; with stress > 7 and sleepiness > 7 the result is
    Recovery, and with stress > 5 and sleepiness > 5 it is Low or lower. *)
Theorem classify_tier_override_never_promotes
        (ready_score rmssd_pct stress sleepiness : option pyfloat) :
  exists (base capped : string) (i j : nat),
    _classify_tier ready_score rmssd_pct None None = Some base
    /\ _classify_tier ready_score rmssd_pct stress sleepiness = Some capped
    /\ rank base = Some i /\ rank capped = Some j /\ (i <= j)%nat
    /\ (forall s sl, stress = Some s -> sleepiness = Some sl ->
          fgt s (Fin 7) = true -> fgt sl (Fin 7) = true ->
          capped = "Recovery")
    /\ (forall s sl, stress = Some s -> sleepiness = Some sl ->
          fgt s (Fin 5) = true -> fgt sl (Fin 5) = true ->
          exists low, rank "Low" = Some low /\ (low <= j)%nat).
Proof.
  unfold _classify_tier at 1. simpl self_report_cap.
  unfold _classify_tier.
  pose proof (score_tier_known ready_score rmssd_pct) as Hin.
  remember (score_tier ready_score rmssd_pct) as base eqn:Hbase. clear Hbase.
  unfold self_report_cap.
  destruct stress as [s|], sleepiness as [sl|];
    try (simpl in Hin;
         destruct Hin as [<- | [<- | [<- | [<- | [<- | []]]]]];
         do 4 eexists; repeat split; try reflexivity; try lia;
         intros; discriminate).
  destruct (fgt s (Fin 7)) eqn:Hs7, (fgt sl (Fin 7)) eqn:Hl7;
  destruct (fgt s (Fin 5)) eqn:Hs5, (fgt sl (Fin 5)) eqn:Hl5;
    simpl in Hin; destruct Hin as [<- | [<- | [<- | [<- | [<- | []]]]]];
    simpl;
    do 4 eexists;
    (split; [reflexivity|]); (split; [reflexivity|]);
    (split; [reflexivity|]); (split; [reflexivity|]);
    (split; [lia|]);
    (split; [intros s' sl' [= <-] [= <-] H1 H2; unfold fgt, flt in *;
             first [reflexivity | congruence]
            | intros s' sl' [= <-] [= <-] H1 H2; unfold fgt, flt in *;
              first [congruence | eexists; split; [reflexivity | lia]]]).
Qed.

Lemma classify_tier_override_never_promotes_witness :
  _classify_tier (Some (Fin 180)) (Some (Fin 95)) None None = Some "Peak"
  /\ _classify_tier (Some (Fin 180)) (Some (Fin 95)) (Some (Fin 8)) (Some (Fin 9))
     = Some "Recovery".
Proof.
  destruct (classify_tier_override_never_promotes
              (Some (Fin 180)) (Some (Fin 95)) (Some (Fin 8)) (Some (Fin 9)))
    as (base & capped & i & j & Hb & Hc & _ & _ & _ & H7 & _).
  split; [reflexivity|].
  rewrite Hc. f_equal.
  apply (H7 (Fin 8) (Fin 9)); reflexivity.
Defined.

(** C10. Every date in [tiers_by_date] is classified against the single
    whole-run [rmssd_pct_baseline] of the HRV result: the entry of a date
    comes from a day of [daily_ready] with that date key, and its tier is
    [_classify_tier] of that day's mean, the run's [rmssd_pct_baseline]
    and that date's self-report.  No other field of the HRV result is read,
    and the field [analyse_hrv] reports is the morning RMSSD of the whole
    recording as a percentage of the baseline, not a per-date reading. *)
Theorem assign_readiness_tiers_single_hrv (r : results) :
  (exists out, assign_readiness_tiers r = Some out
     /\ forall (date : string) (e : tier_entry),
          tiers_by_date out !! date = Some e ->
          exists day,
            In day (daily_ready (res_performance r))
            /\ date_key (rd_date day) = date
            /\ ready_score e = rd_mean day
            /\ _classify_tier (rd_mean day)
                 (option_map Fin (Hrv.rmssd_pct_baseline (res_hrv r)))
                 (fst (find_self_report date (daily_self_report (res_performance r))))
                 (snd (find_self_report date (daily_self_report (res_performance r))))
               = Some (tier e))
  /\ (forall r' : results,
        res_performance r' = res_performance r ->
        Hrv.rmssd_pct_baseline (res_hrv r') = Hrv.rmssd_pct_baseline (res_hrv r) ->
        assign_readiness_tiers r' = assign_readiness_tiers r)
  /\ (forall (df : list Hrv.epoch) (pct : Q),
        Hrv.rmssd_pct_baseline (Hrv.analyse_hrv df) = Some pct ->
        pct = Hrv.morning_pct_of_baseline df).
Proof.
  split; [|split].
  - unfold assign_readiness_tiers.
    destruct (assign_loop_entries
                (option_map Fin (Hrv.rmssd_pct_baseline (res_hrv r)))
                (daily_self_report (res_performance r))
                (daily_ready (res_performance r)) ∅) as (tiers & -> & Hent).
    eexists. split; [reflexivity|]. simpl.
    intros date e Hlook.
    destruct (Hent date e Hlook) as [Hempty | (day & Hin & Hday)].
    + rewrite lookup_empty in Hempty. discriminate.
    + destruct (classify_day_total
                  (option_map Fin (Hrv.rmssd_pct_baseline (res_hrv r)))
                  (daily_self_report (res_performance r)) day)
        as (e' & He' & _ & Hscore & Htier).
      rewrite He' in Hday. injection Hday as Hdate <-.
      exists day. rewrite <- Hdate. auto.
  - intros r' Hperf Hpct. unfold assign_readiness_tiers.
    rewrite Hperf, Hpct. reflexivity.
  - intros df pct. unfold Hrv.analyse_hrv, Hrv.morning_pct_of_baseline.
    destruct (Hrv._valid_hrv df) as [|e0 rest]; [discriminate|].
    cbn [Hrv.rmssd_pct_baseline].
    destruct (List.filter _ (e0 :: rest)); [discriminate|].
    destruct (_ && _); [|discriminate].
    now intros [= <-].
Qed.

Lemma assign_readiness_tiers_single_hrv_witness :
  let r := {| res_performance :=
                {| ready_baseline := Some (Fin 170);
                   daily_ready := [ {| rd_date := "2024-01-05 00:00:00";
                                       rd_mean := Some (Fin 160) |} ];
                   daily_self_report := [] |};
              res_hrv := {| Hrv.rmssd_baseline := Some 60%Q;
                            Hrv.morning_rmssd := Some 48%Q;
                            Hrv.rmssd_pct_baseline := Some 80%Q;
                            Hrv.rmssd_7d_slope := None |} |} in
  exists out e,
    assign_readiness_tiers r = Some out
    /\ tiers_by_date out !! "2024-01-05" = Some e
    /\ tier e = "Good".
Proof.
  intros r.
  destruct (assign_readiness_tiers_single_hrv r) as ((out & Hout & Hent) & _ & _).
  assert (Hlook : is_Some (tiers_by_date out !! "2024-01-05")).
  { unfold assign_readiness_tiers in Hout. simpl in Hout.
    injection Hout as <-. simpl. rewrite lookup_insert_eq. eauto. }
  destruct Hlook as (e & He).
  exists out, e. split; [exact Hout|]. split; [exact He|].
  destruct (Hent _ _ He) as (day & Hin & _ & _ & Htier).
  simpl in Hin. destruct Hin as [<- | []].
  vm_compute in Htier. injection Htier as Ht. symmetry. exact Ht.
Defined.

End ReadinessClaims.

(** ** Strain scores *)

Section StrainFacts.
Import PyFloat Frame Strain.
Local Open Scope R_scope.

Lemma Int_part_nonneg (x : R) : 0 <= x -> (0 <= Int_part x)%Z.
Proof.
  intros Hx. destruct (base_Int_part x) as [_ Hlow].
  assert (H : IZR (-1) < IZR (Int_part x)) by (simpl; lra).
  apply lt_IZR in H. lia.
Qed.

Lemma Rround_half_even_nonneg (x : R) : 0 <= x -> (0 <= Rround_half_even x)%Z.
Proof.
  intros Hx. pose proof (Int_part_nonneg x Hx) as Hf.
  unfold Rround_half_even.
  destruct (Rlt_dec _ _); [exact Hf|].
  destruct (Rlt_dec _ _); [lia|].
  destruct (Z.even _); lia.
Qed.

Lemma Rround1_nonneg (x : R) : 0 <= x -> 0 <= Rround1 x.
Proof.
  intros Hx. unfold Rround1.
  assert (H : (0 <= Rround_half_even (x * 10))%Z)
    by (apply Rround_half_even_nonneg; lra).
  apply IZR_le in H. lra.
Qed.

Lemma pymin_cap_range (x : R) : 0 <= x -> 0 <= pymin _STRAIN_CAP x <= 21.
Proof.
  intros Hx. unfold pymin, _STRAIN_CAP. destruct (Rlt_dec x 21); lra.
Qed.

Lemma raw_to_borg_range (raw divisor scale : R) :
  0 < divisor -> 0 <= scale -> 0 <= _raw_to_borg raw divisor scale <= 21.
Proof.
  intros Hd Hs. unfold _raw_to_borg.
  destruct (Rle_dec raw 0) as [_ | Hraw]; [lra|].
  apply pymin_cap_range, Rround1_nonneg.
  apply Rmult_le_pos; [exact Hs|].
  assert (Hq : 0 < raw / divisor) by (apply Rdiv_lt_0_compat; lra).
  rewrite <- ln_1. left. apply ln_increasing; lra.
Qed.

Lemma analyse_day_range (max_hr : Q) (d : Z) (day : list epoch) :
  strain_in_range (analyse_day max_hr d day).
Proof.
  unfold strain_in_range, analyse_day. cbn [strain_score cardiovascular_strain muscular_strain].
  set (cv := _raw_to_borg _ _CV_DIVISOR _CV_SCALE).
  set (mu := _raw_to_borg _ _MUSC_DIVISOR _MUSC_SCALE).
  assert (Hcv : 0 <= cv <= 21)
    by (apply raw_to_borg_range; unfold _CV_DIVISOR, _CV_SCALE; lra).
  assert (Hmu : 0 <= mu <= 21)
    by (apply raw_to_borg_range; unfold _MUSC_DIVISOR, _MUSC_SCALE; lra).
  repeat split; try tauto;
    apply pymin_cap_range, Rround1_nonneg; nra.
Qed.

Lemma analyse_strain_range (df : option frame) :
  Forall strain_in_range (daily_strain (analyse_strain df)).
Proof.
  unfold analyse_strain.
  destruct df as [f|]; [|constructor].
  destruct (rows f); [constructor|].
  destruct (negb _); [constructor|].
  destruct (if has_wear_mode f then _ else _); [constructor|].
  cbn [daily_strain]. apply List.Forall_forall. intros row Hrow.
  apply in_map_iff in Hrow. destruct Hrow as (g & <- & _).
  apply analyse_day_range.
Qed.

End StrainFacts.

Section RangeClaims.
Import PyFloat Readiness.

(** C1. Every daily record of [analyse_strain] has its strain score, its
    cardiovascular strain and its muscular strain within [0, 21], and every
    date classified by [assign_readiness_tiers] carries one of the five
    tier names Peak, Good, Moderate, Low, Recovery. *)
Theorem strain_bounded_and_tiers_named :
  (forall df : option Strain.frame,
      Forall (fun d => (0 <= Strain.strain_score d <= 21)%R
                       /\ (0 <= Strain.cardiovascular_strain d <= 21)%R
                       /\ (0 <= Strain.muscular_strain d <= 21)%R)
             (Strain.daily_strain (Strain.analyse_strain df)))
  /\ (forall r : results,
        exists out, assign_readiness_tiers r = Some out
          /\ map_Forall
               (fun _ e => In (tier e) ["Peak"; "Good"; "Moderate"; "Low"; "Recovery"])
               (tiers_by_date out)).
Proof.
  split.
  - intros df. exact (analyse_strain_range df).
  - intros r. unfold assign_readiness_tiers.
    destruct (assign_loop_entries
                (option_map Fin (Hrv.rmssd_pct_baseline (res_hrv r)))
                (daily_self_report (res_performance r))
                (daily_ready (res_performance r)) ∅) as (tiers & -> & Hent).
    eexists. split; [reflexivity|]. cbn [tiers_by_date].
    intros date e Hlook.
    destruct (Hent date e Hlook) as [Hempty | (day & _ & Hday)].
    + rewrite lookup_empty in Hempty. discriminate.
    + destruct (classify_day_total
                  (option_map Fin (Hrv.rmssd_pct_baseline (res_hrv r)))
                  (daily_self_report (res_performance r)) day)
        as (e' & He' & Hin & _).
      rewrite He' in Hday. injection Hday as _ <-. exact Hin.
Qed.

End RangeClaims.

(** ** Comparisons on rationals *)

Section QFacts.
Import PyFloat.

Lemma Qlt_bool_iff (x y : Q) : Qlt_bool x y = true <-> (x < y)%Q.
Proof.
  unfold Qlt_bool. rewrite negb_true_iff. split.
  - intros H. apply Qnot_le_lt. intros Hle.
    apply Qle_bool_iff in Hle. congruence.
  - intros H. destruct (Qle_bool y x) eqn:E; [|reflexivity].
    apply Qle_bool_iff in E. exfalso. exact (Qlt_not_le _ _ H E).
Qed.

Lemma Qlt_bool_false_iff (x y : Q) : Qlt_bool x y = false <-> (y <= x)%Q.
Proof.
  unfold Qlt_bool. rewrite negb_false_iff. apply Qle_bool_iff.
Qed.

Lemma Qle_bool_false_iff (x y : Q) : Qle_bool x y = false <-> (y < x)%Q.
Proof.
  rewrite <- Qlt_bool_iff. unfold Qlt_bool.
  destruct (Qle_bool x y); simpl; split; congruence.
Qed.

End QFacts.

(** ** Activity levels *)

Section ActivityClaims.
Import PyFloat Activity.

(** C6 as stated fails: an epoch with heart rate 90 and energy 100 is
    classified light, which is below moderate. *)
Lemma classify_epoch_hr_band_not_forced :
  ~ (forall energy hr : Q,
        (80 <= hr)%Q -> (hr <= 100)%Q ->
        at_least_moderate (_classify_epoch (Fin energy) (Fin hr)) = true).
Proof.
  intros H. specialize (H 100%Q 90%Q).
  assert (H1 : (80 <= 90)%Q) by (apply Qle_bool_iff; reflexivity).
  assert (H2 : (90 <= 100)%Q) by (apply Qle_bool_iff; reflexivity).
  specialize (H H1 H2). vm_compute in H. discriminate.
Qed.

(** C6, amended. An epoch with heart rate from 80 to 100 and energy at or
    above the light threshold (200) is classified moderate or vigorous; with
    heart rate at least 80 and energy below 200 it is classified light; and
    an epoch with energy below the sedentary threshold and heart rate below
    80 is classified sedentary. *)
Theorem classify_epoch_levels (energy hr : Q) :
  ((80 <= hr)%Q -> (hr <= 100)%Q -> (_LIGHT_ENERGY <= energy)%Q ->
     at_least_moderate (_classify_epoch (Fin energy) (Fin hr)) = true)
  /\ ((80 <= hr)%Q -> (energy < _LIGHT_ENERGY)%Q ->
        _classify_epoch (Fin energy) (Fin hr) = "light")
  /\ ((energy < _SEDENTARY_ENERGY)%Q -> (hr < 80)%Q ->
        _classify_epoch (Fin energy) (Fin hr) = "sedentary").
Proof.
  unfold _classify_epoch, flt, fle. repeat split.
  - intros Hlo Hhi Hen.
    apply Qlt_bool_false_iff in Hlo. rewrite Hlo, andb_false_r.
    apply Qlt_bool_false_iff in Hen. rewrite Hen.
    destruct (_ || _); reflexivity.
  - intros Hlo Hen.
    apply Qlt_bool_false_iff in Hlo. rewrite Hlo, andb_false_r.
    apply Qlt_bool_iff in Hen. rewrite Hen. reflexivity.
  - intros Hen Hhr.
    apply Qlt_bool_iff in Hen, Hhr. rewrite Hen, Hhr. reflexivity.
Qed.

Lemma classify_epoch_levels_witness :
  at_least_moderate (_classify_epoch (Fin 700) (Fin 90)) = true
  /\ _classify_epoch (Fin 100) (Fin 90) = "light"
  /\ activity_level_column [(Fin 10, NaN)] = ["sedentary"].
Proof.
  split; [|split].
  - apply (proj1 (classify_epoch_levels 700 90)); apply Qle_bool_iff; reflexivity.
  - apply (proj1 (proj2 (classify_epoch_levels 100 90)));
      [apply Qle_bool_iff | apply Qlt_bool_iff]; reflexivity.
  - assert (H : _classify_epoch (Fin 10) (Fin 60) = "sedentary")
      by (apply (proj2 (proj2 (classify_epoch_levels 10 60)));
          apply Qlt_bool_iff; reflexivity).
    change (activity_level_column [(Fin 10, NaN)])
      with [_classify_epoch (Fin 10) (Fin 60)].
    rewrite H. reflexivity.
Defined.

End ActivityClaims.

(** ** Sleep-debt and recovery trends *)

Section TrendFacts.
Import PyFloat SleepSessions.

Lemma Qlt_bool_irrefl (x : Q) : Qlt_bool x x = false.
Proof. apply Qlt_bool_false_iff, Qle_refl. Qed.

Lemma iloc_back_last (xs : list Q) : iloc_back 1 xs = List.last xs 0%Q.
Proof.
  unfold iloc_back. destruct xs as [|x xs'] using rev_ind; [reflexivity|].
  rewrite rev_unit, List.last_last. reflexivity.
Qed.

Lemma sign_comparison_cases (a b : Q) (up down : string) :
  In (sign_comparison a b up down) [up; down; "stable"].
Proof.
  unfold sign_comparison. destruct (Qlt_bool a b); [now left|].
  destruct (Qlt_bool b a); [right; now left | right; right; now left].
Qed.

Lemma debt_trend_code_spec (debts : list Q) :
  debt_trend_code debts = debt_trend_spec debts.
Proof.
  unfold debt_trend_code, debt_trend_spec, sign_comparison, tail3, iloc_first.
  destruct (3 <=? length debts)%nat eqn:H3.
  - rewrite iloc_back_last. reflexivity.
  - apply Nat.leb_gt in H3.
    destruct debts as [|a [|b [|c rest]]]; simpl in H3; try lia.
    + reflexivity.
    + simpl. now rewrite Qlt_bool_irrefl.
    + reflexivity.
Qed.

Lemma recovery_trend_code_spec (scores : list Q) :
  recovery_trend_code scores = recovery_trend_spec scores.
Proof.
  unfold recovery_trend_code, recovery_trend_spec, sign_comparison.
  destruct scores as [|b front] using rev_ind; [reflexivity|].
  clear IHfront.
  destruct front as [|a front'] using rev_ind.
  - simpl. now rewrite Qlt_bool_irrefl.
  - clear IHfront'.
    replace ((front' ++ [a]) ++ [b])%list with (front' ++ [a; b])%list
      by (rewrite <- app_assoc; reflexivity).
    rewrite length_app. simpl length.
    replace (length front' + 2 - 2)%nat with (length front') by lia.
    rewrite drop_app_length.
    replace (2 <=? length front' + 2)%nat with true
      by (symmetry; apply Nat.leb_le; lia).
    unfold iloc_back. rewrite rev_app_distr. reflexivity.
Qed.

End TrendFacts.

Section TrendClaims.
Import PyFloat SleepSessions.

(** C7. Whenever [_analyse_sleep_debt] reports a trend it is one of
    worsening, improving, stable and equals the comparison of the last with
    the first of the most recent three debt readings (two if there are only
    two); whenever [_analyse_recovery] reports a trend it is one of
    improving, declining, stable and equals the comparison of the last two
    recovery readings.  A trend is reported as soon as there is one reading
    (and, for the debt, the two columns the function also reads exist). *)
Theorem trends_match_recomputation (df : frame) :
  let debts := dropna (List.map sleep_debt_min (rows df)) in
  let scores := dropna (List.map recovery_score (rows df)) in
  (forall rep t,
      _analyse_sleep_debt df = Some rep -> debt_trend rep = Some t ->
      In t ["worsening"; "improving"; "stable"] /\ t = debt_trend_spec debts)
  /\ (has_sleep_debt_min df = true -> has_sleep_needed_min df = true ->
      has_total_sleep_time_min df = true -> debts <> [] ->
      exists rep t, _analyse_sleep_debt df = Some rep /\ debt_trend rep = Some t)
  /\ (forall t,
        recovery_trend (_analyse_recovery df) = Some t ->
        In t ["improving"; "declining"; "stable"] /\ t = recovery_trend_spec scores)
  /\ (has_recovery_score df = true -> scores <> [] ->
      exists t, recovery_trend (_analyse_recovery df) = Some t).
Proof.
  intros debts scores. subst debts scores.
  unfold _analyse_sleep_debt, _analyse_recovery.
  destruct (rows df) as [|r rs].
  { split; [|split; [|split]].
    - intros rep t [= <-]. discriminate.
    - intros _ _ _ H. simpl in H. congruence.
    - intros t. simpl. discriminate.
    - intros _ H. simpl in H. congruence. }
  remember (dropna (List.map sleep_debt_min (r :: rs))) as debts eqn:Hd.
  remember (dropna (List.map recovery_score (r :: rs))) as scores eqn:Hs.
  clear Hd Hs.
  split; [|split; [|split]].
  - intros rep t.
    destruct (has_sleep_debt_min df); simpl; [|intros [= <-]; discriminate].
    destruct debts as [|d ds] eqn:Hd; [intros [= <-]; discriminate|].
    destruct (has_sleep_needed_min df); simpl; [|discriminate].
    destruct (has_total_sleep_time_min df); simpl; [|discriminate].
    intros [= <-]. cbn [debt_trend]. intros [= <-].
    rewrite debt_trend_code_spec.
    split; [|reflexivity]. apply sign_comparison_cases.
  - intros -> -> -> Hne. simpl.
    destruct debts as [|d ds]; [congruence|].
    eexists. eexists. split; reflexivity.
  - intros t.
    destruct (has_recovery_score df); simpl; [|discriminate].
    destruct scores as [|s ss] eqn:Hs; [discriminate|].
    cbn [recovery_trend]. intros [= <-].
    rewrite recovery_trend_code_spec.
    split; [|reflexivity]. apply sign_comparison_cases.
  - intros -> Hne. simpl.
    destruct scores as [|s ss]; [congruence|].
    eexists. reflexivity.
Qed.

Lemma trends_match_recomputation_witness :
  let row (start : Z) (total debt rec : Q) :=
    {| night_date := Frame.date_of start; sleep_start_local := Some start;
       total_sleep_time_min := Fin total; sleep_needed_min := Fin 480;
       sleep_debt_min := Fin debt; recovery_score := Fin rec |} in
  let log :=
    {| has_night_date := true;
       has_sleep_start_local := true; has_total_sleep_time_min := true;
       has_sleep_needed_min := true; has_sleep_debt_min := true;
       has_recovery_score := true;
       rows := [row 1701990000%Z 420%Q 30%Q 40%Q; row 1702076400%Z 400%Q 60%Q 50%Q;
                row 1702130400%Z 60%Q 10%Q 90%Q; row 1702162800%Z 410%Q 90%Q 70%Q] |} in
  exists df,
    primary_frame log = Some df
    /\ length (rows df) = 3%nat
    /\ (exists rep, _analyse_sleep_debt df = Some rep /\ debt_trend rep = Some "worsening")
    /\ recovery_trend (_analyse_recovery df) = Some "improving".
Proof.
  intros row log.
  eexists. split; [reflexivity|].
  match goal with
  | |- length (rows ?d) = _ /\ _ =>
      destruct (trends_match_recomputation d) as (Hdebt & Hdebt_some & Hrec & Hrec_some)
  end.
  split; [reflexivity|]. split.
  - destruct Hdebt_some as (rep & t & Hrep & Ht);
      [reflexivity | reflexivity | reflexivity | vm_compute; discriminate |].
    exists rep. split; [exact Hrep|].
    destruct (Hdebt rep t Hrep Ht) as [_ Heq]. rewrite Ht, Heq. reflexivity.
  - destruct Hrec_some as (t & Ht); [reflexivity | vm_compute; discriminate |].
    destruct (Hrec t Ht) as [_ Heq]. rewrite Ht, Heq. reflexivity.
Defined.

End TrendClaims.

(** ** Session classification *)

Section SessionFacts.
Import PyFloat Frame SleepSessions.

Lemma mark_naps_length (idxs : list nat) (types : list string) :
  length (mark_naps idxs types) = length types.
Proof.
  unfold mark_naps. revert types.
  induction idxs as [|j rest IH]; intros types; simpl; [reflexivity|].
  rewrite IH. apply length_insert.
Qed.

Lemma mark_naps_keeps (idxs : list nat) (types : list string) (i : nat) :
  types !! i = Some "nap" -> mark_naps idxs types !! i = Some "nap".
Proof.
  unfold mark_naps. revert types.
  induction idxs as [|j rest IH]; intros types Hi; simpl; [exact Hi|].
  apply IH. destruct (decide (j = i)) as [-> | Hne].
  - apply list_lookup_insert_eq. apply lookup_lt_Some in Hi. exact Hi.
  - rewrite list_lookup_insert_ne by exact Hne. exact Hi.
Qed.

Lemma mark_naps_marks (idxs : list nat) (types : list string) (i : nat) :
  In i idxs -> (i < length types)%nat -> mark_naps idxs types !! i = Some "nap".
Proof.
  revert types.
  induction idxs as [|j rest IH]; intros types Hin Hlt; [destruct Hin|].
  change (mark_naps (j :: rest) types) with (mark_naps rest (<[j := "nap"]> types)).
  destruct (decide (j = i)) as [-> | Hne].
  - apply mark_naps_keeps. now apply list_lookup_insert_eq.
  - destruct Hin as [-> | Hin]; [congruence|].
    apply IH; [exact Hin|]. now rewrite length_insert.
Qed.

Lemma mark_group_length (types types' : list string) (g : list (nat * session)) :
  mark_group types g = Some types' -> length types' = length types.
Proof.
  unfold mark_group. destruct (1 <? length g)%nat; [|now intros [= <-]].
  destruct (idxmax g); [|discriminate]. intros [= <-]. apply mark_naps_length.
Qed.

Lemma mark_group_keeps (types types' : list string) (g : list (nat * session)) (i : nat) :
  mark_group types g = Some types' ->
  types !! i = Some "nap" -> types' !! i = Some "nap".
Proof.
  unfold mark_group. destruct (1 <? length g)%nat; [|now intros [= <-]].
  destruct (idxmax g); [|discriminate]. intros [= <-]. apply mark_naps_keeps.
Qed.

Lemma mark_groups_length (gs : list (list (nat * session))) (types types' : list string) :
  mark_groups gs types = Some types' -> length types' = length types.
Proof.
  revert types. induction gs as [|g rest IH]; intros types; simpl; [now intros [= <-]|].
  destruct (mark_group types g) as [t1|] eqn:E; [|discriminate].
  intros H. rewrite (IH _ H). eapply mark_group_length, E.
Qed.

Lemma mark_groups_keeps (gs : list (list (nat * session))) (types types' : list string)
      (i : nat) :
  mark_groups gs types = Some types' ->
  types !! i = Some "nap" -> types' !! i = Some "nap".
Proof.
  revert types. induction gs as [|g rest IH]; intros types; simpl; [now intros [= <-]|].
  destruct (mark_group types g) as [t1|] eqn:E; [|discriminate].
  intros H Hi. apply (IH _ H). eapply mark_group_keeps; eauto.
Qed.

(** A group that marks [i] on every list of the right length marks it in the
    result of the whole loop. *)
Lemma mark_groups_marks (gs : list (list (nat * session))) (g : list (nat * session))
      (types types' : list string) (i : nat) :
  mark_groups gs types = Some types' ->
  In g gs ->
  (forall t t', length t = length types -> mark_group t g = Some t' ->
                t' !! i = Some "nap") ->
  types' !! i = Some "nap".
Proof.
  revert types. induction gs as [|g0 rest IH]; intros types H Hin Hmark; [destruct Hin|].
  simpl in H. destruct (mark_group types g0) as [t1|] eqn:E; [|discriminate].
  destruct Hin as [-> | Hin].
  - eapply mark_groups_keeps; [exact H|]. eapply Hmark; [reflexivity | exact E].
  - apply (IH _ H Hin). intros t t' Hlen. apply Hmark.
    rewrite Hlen. eapply mark_group_length, E.
Qed.

(** The loop returns unless one of its groups raises. *)
Lemma mark_groups_raises (gs : list (list (nat * session))) (types : list string) :
  mark_groups gs types = None
  <-> exists g, In g gs /\ (1 < length g)%nat /\ idxmax g = None.
Proof.
  revert types. induction gs as [|g0 rest IH]; intros types; simpl.
  - split; [discriminate | intros (g & [] & _)].
  - destruct (mark_group types g0) as [t1|] eqn:E.
    + rewrite IH. split.
      * intros (g & Hg & H). exists g. tauto.
      * intros (g & [<- | Hg] & Hlen & Hmax); [|exists g; tauto].
        exfalso. unfold mark_group in E. apply Nat.ltb_lt in Hlen.
        rewrite Hlen, Hmax in E. discriminate.
    + split; [intros _|reflexivity].
      exists g0. split; [now left|]. unfold mark_group in E.
      destruct (1 <? length g0)%nat eqn:Hlen; [|discriminate].
      apply Nat.ltb_lt in Hlen. split; [exact Hlen|].
      destruct (idxmax g0); [discriminate | reflexivity].
Qed.

Lemma combine_seq_lookup (rs : list session) (k i : nat) (s : session) :
  In (i, s) (combine (seq k (length rs)) rs)
  <-> (k <= i)%nat /\ rs !! (i - k)%nat = Some s.
Proof.
  revert k. induction rs as [|r rest IH]; intros k; simpl.
  - split; [tauto | intros [_ H]; discriminate].
  - rewrite IH. split.
    + intros [[= <- <-] | [Hle Hlook]].
      * split; [lia|]. now rewrite Nat.sub_diag.
      * split; [lia|]. replace (i - k)%nat with (S (i - S k)) by lia. exact Hlook.
    + intros [Hle Hlook]. destruct (decide (i = k)) as [-> | Hne].
      * left. rewrite Nat.sub_diag in Hlook. simpl in Hlook. congruence.
      * right. split; [lia|].
        replace (i - k)%nat with (S (i - S k)) in Hlook by lia. exact Hlook.
Qed.

Lemma labelled_lookup (rs : list session) (i : nat) (s : session) :
  In (i, s) (labelled rs) <-> rs !! i = Some s.
Proof.
  unfold labelled. rewrite combine_seq_lookup, Nat.sub_0_r.
  split; [tauto | intros H; split; [lia | exact H]].
Qed.

Lemma insert_uniq_In (k x : Z) (ks : list Z) :
  In x (insert_uniq k ks) <-> x = k \/ In x ks.
Proof.
  induction ks as [|k' rest IH]; simpl; [intuition congruence|].
  destruct (k <? k')%Z; simpl; [intuition congruence|].
  destruct (k =? k')%Z eqn:E; simpl.
  - apply Z.eqb_eq in E. subst k'. intuition congruence.
  - rewrite IH. intuition congruence.
Qed.

Lemma sorted_keys_In (x : Z) (ks : list Z) : In x (sorted_keys ks) <-> In x ks.
Proof.
  unfold sorted_keys. induction ks as [|k rest IH]; simpl; [tauto|].
  rewrite insert_uniq_In, IH. intuition congruence.
Qed.

Lemma two_elements_length {A : Type} (x y : A) (l : list A) :
  In x l -> In y l -> x <> y -> (1 < length l)%nat.
Proof.
  destruct l as [|a [|b rest]]; simpl; try tauto; [|lia].
  intros [<- | []] [<- | []] H. congruence.
Qed.

End SessionFacts.

Section SessionGroups.
Import PyFloat Frame SleepSessions.

Lemma idxmax_from_spec (g : list (nat * session)) (best : option (nat * Q))
      (i : nat) (t : Q) :
  idxmax_from best g = Some (i, t) ->
  (forall j s' t', In (j, s') g -> total_sleep_time_min s' = Fin t' -> (t' <= t)%Q)
  /\ (forall bi bt, best = Some (bi, bt) -> (bt <= t)%Q)
  /\ (best = Some (i, t) \/ exists s, In (i, s) g /\ total_sleep_time_min s = Fin t).
Proof.
  revert best. induction g as [|[j0 s0] rest IH]; intros best H; simpl in H.
  - subst best. split; [intros j s' t' []|]. split; [|now left].
    intros bi bt [= _ <-]. apply Qle_refl.
  - destruct (total_sleep_time_min s0) as [t0|] eqn:Ht0.
    + destruct best as [[bi b]|].
      * destruct (Qlt_bool b t0) eqn:Hlt.
        -- destruct (IH _ H) as (Hall & Hbest & Hwho).
           assert (Ht0t : (t0 <= t)%Q) by (apply (Hbest j0 t0); reflexivity).
           split; [|split].
           ++ intros j s' t' [[= <- <-] | Hin] Hs'.
              ** rewrite Ht0 in Hs'. injection Hs' as <-. exact Ht0t.
              ** eapply Hall; eauto.
           ++ intros bi' bt' [= <- <-]. apply Qlt_bool_iff in Hlt.
              apply Qlt_le_weak. eapply Qlt_le_trans; eauto.
           ++ right. destruct Hwho as [[= <- <-] | (s & Hin & Hs)].
              ** exists s0. split; [now left | exact Ht0].
              ** exists s. split; [now right | exact Hs].
        -- destruct (IH _ H) as (Hall & Hbest & Hwho).
           assert (Hbt : (b <= t)%Q) by (apply (Hbest bi b); reflexivity).
           split; [|split].
           ++ intros j s' t' [[= <- <-] | Hin] Hs'.
              ** rewrite Ht0 in Hs'. injection Hs' as <-.
                 apply Qlt_bool_false_iff in Hlt. eapply Qle_trans; eauto.
              ** eapply Hall; eauto.
           ++ exact Hbest.
           ++ destruct Hwho as [Hb | (s & Hin & Hs)]; [now left|].
              right. exists s. split; [now right | exact Hs].
      * destruct (IH _ H) as (Hall & Hbest & Hwho).
        assert (Ht0t : (t0 <= t)%Q) by (apply (Hbest j0 t0); reflexivity).
        split; [|split].
        -- intros j s' t' [[= <- <-] | Hin] Hs'.
           ++ rewrite Ht0 in Hs'. injection Hs' as <-. exact Ht0t.
           ++ eapply Hall; eauto.
        -- intros bi bt [=].
        -- right. destruct Hwho as [[= <- <-] | (s & Hin & Hs)].
           ++ exists s0. split; [now left | exact Ht0].
           ++ exists s. split; [now right | exact Hs].
    + destruct (IH _ H) as (Hall & Hbest & Hwho).
      split; [|split].
      * intros j s' t' [[= <- <-] | Hin] Hs'; [congruence|]. eapply Hall; eauto.
      * exact Hbest.
      * destruct Hwho as [Hb | (s & Hin & Hs)]; [now left|].
        right. exists s. split; [now right | exact Hs].
Qed.

Lemma night_of_In (df : frame) (i : nat) (s s0 : session) :
  In (i, s) (night_of df s0) <-> rows df !! i = Some s /\ night_date s = night_date s0.
Proof.
  unfold night_of. rewrite filter_In, labelled_lookup. simpl. now rewrite Z.eqb_eq.
Qed.

Lemma night_of_nights (df : frame) (i : nat) (s : session) :
  rows df !! i = Some s -> In (night_of df s) (nights df).
Proof.
  intros Hi. unfold nights, groupby. rewrite map_map. simpl.
  apply in_map_iff. exists (night_date s). split; [reflexivity|].
  apply sorted_keys_In, in_map_iff. exists (i, s). split; [reflexivity|].
  now apply labelled_lookup.
Qed.

Lemma nights_night_of (df : frame) (g : list (nat * session)) :
  In g (nights df) -> exists i s, rows df !! i = Some s /\ g = night_of df s.
Proof.
  unfold nights, groupby. rewrite List.map_map. cbn [snd].
  intros Hg. apply in_map_iff in Hg. destruct Hg as (k & <- & Hk).
  apply sorted_keys_In, in_map_iff in Hk. destruct Hk as ([i s] & Hkey & Hin).
  simpl in Hkey. subst k. exists i, s. split; [now apply labelled_lookup | reflexivity].
Qed.

Lemma idxmax_from_none (g : list (nat * session)) (best : option (nat * Q)) :
  idxmax_from best g = None
  <-> best = None /\ Forall (fun r => total_sleep_time_min (snd r) = NaN) g.
Proof.
  revert best. induction g as [|[j s] rest IH]; intros best; simpl.
  - split; [intros ->; split; [reflexivity | constructor] | tauto].
  - destruct (total_sleep_time_min s) as [t|] eqn:Ht.
    + split.
      * intros H. exfalso. destruct best as [[bi b]|].
        -- destruct (Qlt_bool b t); apply IH in H; destruct H as [H _]; discriminate.
        -- apply IH in H. destruct H as [H _]. discriminate.
      * intros [_ H]. apply Forall_cons_iff in H. destruct H as [H _].
        simpl in H. congruence.
    + rewrite IH. split.
      * intros [Hb Hall]. split; [exact Hb|]. constructor; [exact Ht | exact Hall].
      * intros [Hb Hall]. apply Forall_cons_iff in Hall. tauto.
Qed.

Lemma idxmax_none (g : list (nat * session)) :
  idxmax g = None <-> Forall (fun r => total_sleep_time_min (snd r) = NaN) g.
Proof.
  unfold idxmax. destruct (idxmax_from None g) as [[l t]|] eqn:E.
  - split; [discriminate|]. intros H.
    assert (H' : idxmax_from None g = None) by (apply idxmax_from_none; auto).
    congruence.
  - split; [|reflexivity]. intros _. now apply idxmax_from_none in E.
Qed.

(** A row that shares its night and is not the [idxmax] of it is marked. *)
Lemma mark_group_marks (df : frame) (i : nat) (s : session) (types types' : list string) :
  rows df !! i = Some s ->
  length types = length (rows df) ->
  idxmax (night_of df s) <> Some i ->
  (1 < length (night_of df s))%nat ->
  mark_group types (night_of df s) = Some types' ->
  types' !! i = Some "nap".
Proof.
  intros Hi Hlen Hnot Hmany. unfold mark_group.
  apply Nat.ltb_lt in Hmany. rewrite Hmany.
  destruct (idxmax (night_of df s)) as [l|]; [|discriminate].
  intros [= <-]. apply mark_naps_marks.
  - apply filter_In. split.
    + apply in_map_iff. exists (i, s). split; [reflexivity|].
      apply night_of_In. auto.
    + apply negb_true_iff, Nat.eqb_neq. congruence.
  - rewrite Hlen. apply lookup_lt_Some in Hi. exact Hi.
Qed.

Lemma classify_marks_not_longest (df : frame) (types : list string) (i j : nat)
      (s s' : session) :
  _classify_session_type df = Some types ->
  has_total_sleep_time_min df = true ->
  rows df !! i = Some s -> rows df !! j = Some s' ->
  i <> j -> night_date s' = night_date s ->
  idxmax (night_of df s) <> Some i ->
  types !! i = Some "nap".
Proof.
  unfold _classify_session_type. intros Hret Htot Hi Hj Hij Hnight Hnot.
  rewrite Htot in Hret. destruct (has_night_date df); [|discriminate].
  apply (mark_groups_marks _ (night_of df s) _ _ i Hret).
  - eapply night_of_nights, Hi.
  - intros t t' Hlen. apply mark_group_marks; auto.
    + rewrite Hlen. destruct (has_sleep_start_local df).
      * rewrite mark_naps_length. apply repeat_length.
      * apply repeat_length.
    + apply (two_elements_length (i, s) (j, s')).
      * apply night_of_In. auto.
      * apply night_of_In. auto.
      * congruence.
Qed.

Lemma nap_hour_band (s : session) :
  nap_hour s = true
  <-> exists t, sleep_start_local s = Some t /\ (10 <= hour_of t <= 17)%Z.
Proof.
  unfold nap_hour. destruct (sleep_start_local s) as [t|].
  - rewrite andb_true_iff, !Z.leb_le. split.
    + intros H. exists t. split; [reflexivity | exact H].
    + intros (t' & [= <-] & H). exact H.
  - split; [discriminate | intros (t & H & _); discriminate].
Qed.

End SessionGroups.

Section SessionClaims.
Import PyFloat Frame SleepSessions.

(** C5, as the code has it.  [_classify_session_type] raises when the table
    has the total-sleep column and either lacks the [night_date] column or
    has a night of several sessions without any total sleep time; otherwise
    it returns the tags.  It tags as nap
    every session whose local start hour lies in 10..17; among sessions
    sharing a [night_date] it tags as nap every session that has a strictly
    longer companion, and of any two distinct sessions of one night at least
    one is a nap, so that only the one with the largest total sleep time can
    stay primary.  Two same-night sessions of 400 and 90 minutes are
    classified primary and nap when the longer one does not start in the
    hours 10..17. *)
Theorem classify_session_type_naps :
  (forall df : frame,
      _classify_session_type df = None
      <-> has_total_sleep_time_min df = true
          /\ (has_night_date df = false
              \/ exists i s,
                   rows df !! i = Some s
                   /\ (1 < length (night_of df s))%nat
                   /\ (forall j s', rows df !! j = Some s' ->
                                    night_date s' = night_date s ->
                                    total_sleep_time_min s' = NaN)))
  /\ (forall (df : frame) (types : list string) (i : nat) (s : session) (t : Z),
        _classify_session_type df = Some types ->
        has_sleep_start_local df = true ->
        rows df !! i = Some s -> sleep_start_local s = Some t ->
        (10 <= hour_of t <= 17)%Z ->
        types !! i = Some "nap")
  /\ (forall (df : frame) (types : list string) (i j : nat) (s s' : session) (t t' : Q),
        _classify_session_type df = Some types ->
        has_total_sleep_time_min df = true ->
        rows df !! i = Some s -> rows df !! j = Some s' ->
        night_date s' = night_date s ->
        total_sleep_time_min s = Fin t -> total_sleep_time_min s' = Fin t' ->
        (t < t')%Q ->
        types !! i = Some "nap")
  /\ (forall (df : frame) (types : list string) (i j : nat) (s s' : session),
        _classify_session_type df = Some types ->
        has_total_sleep_time_min df = true ->
        rows df !! i = Some s -> rows df !! j = Some s' ->
        i <> j -> night_date s' = night_date s ->
        types !! i = Some "nap" \/ types !! j = Some "nap")
  /\ (forall (df : frame) (s1 s2 : session),
        rows df = [s1; s2] ->
        has_total_sleep_time_min df = true -> has_night_date df = true ->
        night_date s1 = night_date s2 ->
        total_sleep_time_min s1 = Fin 400 -> total_sleep_time_min s2 = Fin 90 ->
        (has_sleep_start_local df = true ->
         forall t, sleep_start_local s1 = Some t -> (hour_of t < 10 \/ 17 < hour_of t)%Z) ->
        _classify_session_type df = Some ["primary"; "nap"]).
Proof.
  split; [|split; [|split; [|split]]].
  - intros df. unfold _classify_session_type.
    destruct (has_total_sleep_time_min df);
      [|split; [discriminate | intros [H _]; discriminate]].
    destruct (has_night_date df); [|split; auto].
    rewrite mark_groups_raises. split.
    + intros (g & Hg & Hlen & Hmax). split; [reflexivity|]. right.
      destruct (nights_night_of df g Hg) as (i & s & Hi & ->).
      exists i, s. split; [exact Hi|]. split; [exact Hlen|].
      intros j s' Hj Hnight. apply idxmax_none in Hmax.
      rewrite List.Forall_forall in Hmax.
      apply (Hmax (j, s')). apply night_of_In. auto.
    + intros (_ & [Hno | (i & s & Hi & Hlen & Hall)]); [discriminate|].
      exists (night_of df s).
      split; [eapply night_of_nights, Hi|]. split; [exact Hlen|].
      apply idxmax_none. apply List.Forall_forall. intros [j s'] Hin.
      apply night_of_In in Hin. destruct Hin as [Hj Hnight].
      simpl. now apply (Hall j s').
  - intros df types i s t Hret Hcol Hi Hstart Hband.
    unfold _classify_session_type in Hret. rewrite Hcol in Hret.
    assert (Hmarked :
      mark_naps (List.map fst (List.filter (fun r => nap_hour (snd r)) (labelled (rows df))))
                (repeat "primary" (length (rows df))) !! i = Some "nap").
    { apply mark_naps_marks.
      - apply in_map_iff. exists (i, s). split; [reflexivity|].
        apply filter_In. split; [now apply labelled_lookup|].
        apply nap_hour_band. exists t. auto.
      - rewrite repeat_length. apply lookup_lt_Some in Hi. exact Hi. }
    destruct (has_total_sleep_time_min df).
    + destruct (has_night_date df); [|discriminate].
      eapply mark_groups_keeps; eauto.
    + injection Hret as <-. exact Hmarked.
  - intros df types i j s s' t t' Hret Htot Hi Hj Hnight Ht Ht' Hlt.
    assert (Hij : i <> j).
    { intros ->. rewrite Hi in Hj. injection Hj as <-.
      rewrite Ht in Ht'. injection Ht' as <-. exact (Qlt_irrefl _ Hlt). }
    apply (classify_marks_not_longest df types i j s s'); auto.
    unfold idxmax. intros Hmax.
    destruct (idxmax_from None (night_of df s)) as [[l tm]|] eqn:E; [|discriminate].
    simpl in Hmax. injection Hmax as ->.
    destruct (idxmax_from_spec _ _ _ _ E) as (Hall & _ & [Hnone | (s0 & Hin & Hs0)]);
      [discriminate|].
    apply night_of_In in Hin. destruct Hin as [Hi0 _].
    rewrite Hi in Hi0. injection Hi0 as <-.
    rewrite Ht in Hs0. injection Hs0 as <-.
    assert (Hle : (t' <= t)%Q).
    { apply (Hall j s' t'); [|exact Ht']. apply night_of_In. auto. }
    exact (Qlt_not_le _ _ Hlt Hle).
  - intros df types i j s s' Hret Htot Hi Hj Hij Hnight.
    destruct (decide (idxmax (night_of df s) = Some i)) as [Hmax | Hmax].
    + right. apply (classify_marks_not_longest df types j i s' s); auto.
      replace (night_of df s') with (night_of df s)
        by (unfold night_of; now rewrite Hnight).
      rewrite Hmax. congruence.
    + left. apply (classify_marks_not_longest df types i j s s'); auto.
  - intros df s1 s2 Hrows Htot Hdate Hnight H400 H90 Hstart.
    assert (Hnot : has_sleep_start_local df = true -> nap_hour s1 = false).
    { intros Hcol. destruct (nap_hour s1) eqn:E; [|reflexivity].
      apply nap_hour_band in E. destruct E as (t & Ht & Hband).
      destruct (Hstart Hcol t Ht); lia. }
    unfold _classify_session_type, nights, groupby, labelled, sorted_keys.
    rewrite Htot, Hdate, Hrows. simpl. rewrite Hnight.
    rewrite Z.ltb_irrefl, Z.eqb_refl. simpl. rewrite !Z.eqb_refl. simpl.
    unfold mark_group, idxmax. simpl. rewrite H400, H90. simpl.
    destruct (has_sleep_start_local df).
    + rewrite (Hnot eq_refl). destruct (nap_hour s2); reflexivity.
    + reflexivity.
Qed.

Lemma classify_session_type_naps_witness :
  let night (start : Z) (total : Q) :=
    {| night_date := 19700; sleep_start_local := Some start;
       total_sleep_time_min := Fin total; sleep_needed_min := Fin 480;
       sleep_debt_min := NaN; recovery_score := NaN |} in
  let df :=
    {| has_night_date := true;
       has_sleep_start_local := true; has_total_sleep_time_min := true;
       has_sleep_needed_min := true; has_sleep_debt_min := true;
       has_recovery_score := true;
       rows := [night 1702162800%Z 400%Q; night 1702130400%Z 90%Q] |} in
  _classify_session_type df = Some ["primary"; "nap"]
  /\ forall types, _classify_session_type df = Some types -> types !! 1%nat = Some "nap".
Proof.
  intros night df.
  destruct classify_session_type_naps as (_ & Hhour & _ & _ & Hexample).
  split.
  - apply (Hexample df (night 1702162800%Z 400%Q) (night 1702130400%Z 90%Q));
      try reflexivity.
    intros _ t [= <-]. right. vm_compute. reflexivity.
  - intros types Hret.
    apply (Hhour df types 1%nat (night 1702130400%Z 90%Q) 1702130400%Z);
      try reflexivity; [exact Hret|].
    vm_compute. split; discriminate.
Defined.

(** C5, the example as the specification has it.  A 400-minute session that
    starts at 14:00 and a 90-minute session at 23:00 of the same night date
    are both classified nap: the longer one by its start hour, the shorter
    one because it is not the longest of its night. *)
Lemma classify_session_type_long_nap :
  let night (start : Z) (total : Q) :=
    {| night_date := 19700; sleep_start_local := Some start;
       total_sleep_time_min := Fin total; sleep_needed_min := Fin 480;
       sleep_debt_min := NaN; recovery_score := NaN |} in
  let df :=
    {| has_night_date := true;
       has_sleep_start_local := true; has_total_sleep_time_min := true;
       has_sleep_needed_min := true; has_sleep_debt_min := true;
       has_recovery_score := true;
       rows := [night 1702130400%Z 400%Q; night 1702162800%Z 90%Q] |} in
  hour_of 1702130400 = 14%Z
  /\ hour_of 1702162800 = 23%Z
  /\ _classify_session_type df = Some ["nap"; "nap"]
  /\ _classify_session_type df <> Some ["primary"; "nap"].
Proof.
  intros night df.
  split; [reflexivity|]. split; [reflexivity|].
  split; [vm_compute; reflexivity | vm_compute; discriminate].
Qed.

End SessionClaims.

(** ** The sleep detector *)

Section SleepFacts.
Import PyFloat Frame Sleep.

Lemma run_from_short (a k : nat) (l : list nat) :
  (length l < k)%nat -> run_from a k l = false.
Proof.
  revert a l. induction k as [|k IH]; intros a l Hlen; [lia|].
  destruct l as [|b rest]; [reflexivity|]. simpl in *.
  rewrite IH by lia. apply andb_false_r.
Qed.

Lemma first_run5_short (l : list nat) : (length l < 5)%nat -> first_run5 l = None.
Proof.
  induction l as [|a rest IH]; intros Hlen; [reflexivity|].
  simpl in Hlen. cbn [first_run5 starts_run5].
  rewrite run_from_short by lia. apply IH. lia.
Qed.

Lemma run_from_broken (a k m x : nat) (r : list nat) :
  (m < k)%nat -> x <> (S a + m)%nat ->
  run_from a k (seq (S a) m ++ x :: r)%list = false.
Proof.
  revert a k. induction m as [|m IH]; intros a k Hlt Hx.
  - destruct k as [|k]; [lia|]. simpl.
    replace (x =? S a)%nat with false; [reflexivity|].
    symmetry. apply Nat.eqb_neq. lia.
  - destruct k as [|k]; [lia|]. simpl. rewrite Nat.eqb_refl. simpl.
    apply IH; lia.
Qed.

Lemma first_run5_broken (start c x : nat) (r : list nat) :
  (c <= 4)%nat -> x <> (start + c)%nat ->
  first_run5 (seq start c ++ x :: r)%list = first_run5 (x :: r).
Proof.
  revert start. induction c as [|c IH]; intros start Hc Hx; [reflexivity|].
  change (seq start (S c) ++ x :: r)%list with (start :: (seq (S start) c ++ x :: r))%list.
  cbn [first_run5 starts_run5].
  rewrite run_from_broken by lia. apply IH; lia.
Qed.

Lemma scan_first_run5 (rest : list nat) (prev start c : nat) :
  (1 <= c <= 4)%nat -> (prev + 1 = start + c)%nat ->
  scan prev start c rest = first_run5 (seq start c ++ rest)%list.
Proof.
  revert prev start c. induction rest as [|x r IH]; intros prev start c Hc Hprev.
  - rewrite app_nil_r. symmetry. apply first_run5_short. rewrite length_seq. lia.
  - cbn [scan]. destruct (x =? prev + 1)%nat eqn:Hx.
    + apply Nat.eqb_eq in Hx.
      destruct (5 <=? S c)%nat eqn:H5.
      * apply Nat.leb_le in H5. assert (c = 4%nat) by lia. subst c.
        assert (Hx' : x = S (S (S (S start)))) by lia. clear Hx Hprev.
        subst x. cbn [seq app first_run5 starts_run5 run_from].
        rewrite !Nat.eqb_refl. reflexivity.
      * apply Nat.leb_gt in H5. rewrite IH by lia.
        rewrite seq_S, <- app_assoc. simpl.
        replace (start + c)%nat with x by lia. reflexivity.
    + apply Nat.eqb_neq in Hx. rewrite IH by lia.
      rewrite first_run5_broken by lia. reflexivity.
Qed.

Lemma wake_loop_scan (w : list nat) (k i c : nat) :
  (i + k = length w)%nat -> (1 <= c <= i)%nat ->
  wake_loop w (seq i k) c
  = scan (nth (i - 1) w 0%nat) (nth (i - c) w 0%nat) c (skipn i w).
Proof.
  revert i c. induction k as [|k IH]; intros i c Hlen Hc.
  - rewrite skipn_all2 by lia. reflexivity.
  - assert (Hi : (i < length w)%nat) by lia.
    destruct (lookup_lt_is_Some_2 w i Hi) as [x Hx].
    rewrite (drop_S w x i Hx), <- (nth_lookup_Some w i 0%nat x Hx).
    cbn [seq wake_loop scan].
    destruct (nth i w 0 =? nth (i - 1) w 0 + 1)%nat.
    + destruct (5 <=? S c)%nat.
      * replace (S i - S c)%nat with (i - c)%nat by lia. reflexivity.
      * rewrite IH by lia.
        replace (S i - 1)%nat with i by lia.
        replace (S i - S c)%nat with (i - c)%nat by lia. reflexivity.
    + rewrite IH by lia.
      replace (S i - 1)%nat with i by lia. reflexivity.
Qed.

Lemma sleep_offset_idx_first_run (w : list nat) :
  sleep_offset_idx w
  = match first_run5 w with Some x => x | None => nth 0 w 0%nat end.
Proof.
  unfold sleep_offset_idx. destruct w as [|w0 rest]; [reflexivity|].
  replace (length (w0 :: rest) - 1)%nat with (length rest) by (simpl; lia).
  rewrite wake_loop_scan by (simpl; lia).
  simpl nth. simpl skipn.
  rewrite scan_first_run5 by lia. reflexivity.
Qed.

End SleepFacts.

Section SleepTotal.
Import PyFloat Frame Sleep.

Lemma first_run5_In (l : list nat) (x : nat) : first_run5 l = Some x -> In x l.
Proof.
  induction l as [|a rest IH]; [discriminate|].
  cbn [first_run5]. destruct (starts_run5 (a :: rest)).
  - intros [= <-]. now left.
  - intros H. right. auto.
Qed.

Lemma sleep_offset_idx_In (w0 : nat) (rest : list nat) :
  In (sleep_offset_idx (w0 :: rest)) (w0 :: rest).
Proof.
  rewrite sleep_offset_idx_first_run.
  destruct (first_run5 (w0 :: rest)) as [x|] eqn:E.
  - now apply first_run5_In.
  - now left.
Qed.

Lemma loc_found (x : nat) (rs : list row) :
  In x (List.map fst rs) -> exists t, loc x rs = Some t.
Proof.
  induction rs as [|r rest IH]; [intros []|].
  simpl. destruct (fst r =? x)%nat eqn:E; [eauto|].
  intros [H | H]; [|auto]. apply Nat.eqb_neq in E. congruence.
Qed.

Lemma wake_index_labels (post : list row) (x : nat) :
  In x (wake_index post) -> In x (List.map fst post).
Proof.
  unfold wake_index. rewrite !in_map_iff.
  intros (r & Hr & Hin). apply filter_In in Hin. exists r. tauto.
Qed.

Lemma sleep_offset_of_total (post : list row) : exists t, sleep_offset_of post = Some t.
Proof.
  unfold sleep_offset_of. destruct (wake_index post) as [|w0 rest] eqn:E; [eauto|].
  apply loc_found, wake_index_labels. rewrite E. apply sleep_offset_idx_In.
Qed.

Lemma analyse_night_no_raise (has_rmssd : bool) (d : Z) (night_df : list row) :
  analyse_night has_rmssd d night_df <> Raised.
Proof.
  unfold analyse_night. destruct (List.filter in_sleep_window night_df); [discriminate|].
  destruct (sleep_onset_of has_rmssd night_df) as [onset|]; [|discriminate].
  destruct (sleep_offset_of_total (post_onset_of night_df onset)) as [t ->].
  destruct (Qlt_bool _ 60); discriminate.
Qed.

Lemma collect_total (os : list outcome) :
  Forall (fun o => o <> Raised) os -> exists nights, collect os = Some nights.
Proof.
  induction 1 as [|o rest Ho _ IH]; [simpl; eauto|].
  destruct IH as [nights Hn]. destruct o; simpl; [eauto | | congruence].
  rewrite Hn. simpl. eauto.
Qed.

Lemma analyse_sleep_total (df : frame) :
  has_wear_mode df = true -> exists nights, analyse_sleep df = Some nights.
Proof.
  unfold analyse_sleep. intros ->. cbn [negb]. apply collect_total. unfold outcomes.
  destruct (List.filter _ (rows df)); [constructor|].
  destruct (negb _); [constructor|].
  apply List.Forall_forall. intros o Ho. apply in_map_iff in Ho.
  destruct Ho as (g & <- & _). apply analyse_night_no_raise.
Qed.

End SleepTotal.

Section SleepClaims.
Import PyFloat Frame Sleep.

(** C3. The offset is to be the start of the first run of five epochs with
    heart rate >= 70 and, without such a run, the last available epoch.  The
    detector misses the second case when some epoch has heart rate >= 70: in
    a night with a single such epoch at 00:30:30 there is no run of five, yet
    the offset is that epoch (a 90.5-minute night), not the last epoch of the
    night at 06:00. *)
Lemma sleep_offset_not_last_epoch :
  let night_df := reset_index (sort_values (rows isolated_wake_night)) in
  exists n,
    analyse_sleep isolated_wake_night = Some [n]
    /\ first_run5 (wake_index (post_onset_of night_df (sleep_onset n))) = None
    /\ sleep_offset n = 1702168230%Z
    /\ last_time (post_onset_of night_df (sleep_onset n)) = 1702188000%Z
    /\ sleep_offset n <> last_time (post_onset_of night_df (sleep_onset n)).
Proof.
  eexists. split; [vm_compute; reflexivity|].
  split; [vm_compute; reflexivity|].
  split; [reflexivity|].
  split; [vm_compute; reflexivity|].
  vm_compute. discriminate.
Qed.

(** X26. What the detector computes.  For every night with a detected onset
    it does not fail, and a reported night has that onset and this offset: with
    no epoch of heart rate >= 70 at or after onset, the last available epoch;
    with such epochs, the first of them that starts a run of five consecutive
    epochs of heart rate >= 70 when there is such a run, and the first of
    them otherwise.  A night with heart rate 60 from 23:00 and 75 from 06:00
    to 06:05 is reported with onset 23:00, offset 06:00 and 420 minutes. *)
Theorem sleep_offset_rule :
  (forall (has_rmssd : bool) (d : Z) (night_df : list row) (onset : Z),
      sleep_onset_of has_rmssd night_df = Some onset ->
      analyse_night has_rmssd d night_df <> Raised
      /\ forall n, analyse_night has_rmssd d night_df = Reported n ->
           let post := post_onset_of night_df onset in
           sleep_onset n = onset
           /\ (wake_index post = [] -> sleep_offset n = last_time post)
           /\ (forall x, first_run5 (wake_index post) = Some x ->
                 loc x post = Some (sleep_offset n))
           /\ (forall w0 rest, wake_index post = w0 :: rest ->
                 first_run5 (wake_index post) = None ->
                 loc w0 post = Some (sleep_offset n)))
  /\ (exists n,
        analyse_sleep sustained_wake_night = Some [n]
        /\ hour_of (sleep_onset n) = 23%Z /\ (sleep_onset n mod 3600 = 0)%Z
        /\ hour_of (sleep_offset n) = 6%Z /\ (sleep_offset n mod 3600 = 0)%Z
        /\ (duration_min n == 420)%Q).
Proof.
  split.
  - intros has_rmssd d night_df onset Honset.
    split; [apply analyse_night_no_raise|].
    intros n. unfold analyse_night. rewrite Honset.
    destruct (List.filter in_sleep_window night_df); [discriminate|].
    destruct (sleep_offset_of (post_onset_of night_df onset)) as [offset|] eqn:Hoff;
      [|discriminate].
    destruct (Qlt_bool _ 60); [discriminate|].
    intros [= <-]. cbn [sleep_onset sleep_offset].
    unfold sleep_offset_of in Hoff.
    split; [reflexivity|]. split; [|split].
    + intros Hw. rewrite Hw in Hoff. now injection Hoff as <-.
    + intros x Hx.
      destruct (wake_index (post_onset_of night_df onset)) as [|w0 rest] eqn:Hw;
        [discriminate|].
      rewrite sleep_offset_idx_first_run, Hx in Hoff. exact Hoff.
    + intros w0 rest Hw Hnone. rewrite Hw in Hoff, Hnone.
      rewrite sleep_offset_idx_first_run, Hnone in Hoff. exact Hoff.
  - eexists. split; [vm_compute; reflexivity|].
    repeat split; vm_compute; reflexivity.
Qed.

Lemma sleep_offset_rule_witness :
  let night_df := reset_index (sort_values (rows sustained_wake_night)) in
  exists n,
    analyse_night false 19700 night_df = Reported n
    /\ sleep_onset n = 1702162800%Z
    /\ loc 840 (post_onset_of night_df 1702162800) = Some (sleep_offset n).
Proof.
  intros night_df.
  destruct sleep_offset_rule as [Hrule _].
  assert (Honset : sleep_onset_of false night_df = Some 1702162800%Z)
    by (vm_compute; reflexivity).
  destruct (Hrule false 19700%Z night_df 1702162800%Z Honset) as [_ Hn].
  eexists. split; [vm_compute; reflexivity|].
  edestruct Hn as (Hon & _ & Hrun & _); [vm_compute; reflexivity|].
  split; [exact Hon|].
  apply Hrun. vm_compute. reflexivity.
Defined.

End SleepClaims.

(** ** Pattern rules *)

Section PatternFacts.
Import PyFloat Readiness Patterns.

Lemma Qlt_bool_sub_0 (x y : Q) : Qlt_bool (x - y) 0 = Qlt_bool x y.
Proof.
  assert (H : (x - y < 0)%Q <-> (x < y)%Q).
  { rewrite (Qlt_minus_iff (x - y) 0), (Qlt_minus_iff x y).
    assert (E : (0 + - (x - y) == y + - x)%Q) by ring.
    rewrite E. tauto. }
  destruct (Qlt_bool x y) eqn:E1.
  - apply Qlt_bool_iff. apply H. now apply Qlt_bool_iff.
  - destruct (Qlt_bool (x - y) 0) eqn:E2; [|reflexivity].
    apply Qlt_bool_iff in E2. apply H in E2. apply Qlt_bool_iff in E2. congruence.
Qed.

Lemma flt_fsub_0 (a b : pyfloat) : flt (fsub b a) (Fin 0) = flt b a.
Proof.
  destruct a as [x|], b as [y|]; try reflexivity. apply Qlt_bool_sub_0.
Qed.

Lemma declining_days_drops (means : list pyfloat) :
  declining_days means = day_over_day_drops means.
Proof.
  unfold declining_days.
  induction means as [|a [|b rest] IH]; try reflexivity.
  change (deltas (a :: b :: rest)) with (fsub b a :: deltas (b :: rest)).
  cbn [List.filter day_over_day_drops]. rewrite flt_fsub_0.
  destruct (flt b a); cbn [length]; rewrite IH; reflexivity.
Qed.

End PatternFacts.

Section PatternClaims.
Import PyFloat Readiness Patterns.

(** C4 as stated fails: the four-day series 160, 155, 148, 140 has three
    negative day-over-day deltas, and no pattern is emitted. *)
Lemma readiness_debt_needs_five_days :
  day_over_day_drops
    (means_of (last7 (daily_ready (res_performance (ready_only [160; 155; 148; 140]%Q)))))
  = 3%nat
  /\ forall format_0f format_1f str_nat,
       detect_patterns format_0f format_1f str_nat []
                       (ready_only [160; 155; 148; 140]%Q) = [].
Proof.
  split; [reflexivity|]. intros. reflexivity.
Qed.

(** C4, amended. For every daily Ready series of at least 5 days whose last
    at most 7 days carry at least 5 means, at least 3 of the deltas between
    consecutive such means being negative, [detect_patterns] emits a pattern
    with id compounding_readiness_debt and severity warning; it fires for
    the 5-day series of daily means 160, 155, 148, 140, 135. *)
Theorem readiness_debt_fires :
  (forall format_0f format_1f str_nat (later : list pattern_record) (r : results),
      let days := daily_ready (res_performance r) in
      let means := means_of (last7 days) in
      (5 <= length days)%nat ->
      (5 <= length means)%nat ->
      (3 <= day_over_day_drops means)%nat ->
      exists p,
        In p (detect_patterns format_0f format_1f str_nat later r)
        /\ pattern p = "compounding_readiness_debt"
        /\ severity p = "warning")
  /\ (forall format_0f format_1f str_nat (later : list pattern_record),
        exists p,
          In p (detect_patterns format_0f format_1f str_nat later
                                (ready_only [160; 155; 148; 140; 135]%Q))
          /\ pattern p = "compounding_readiness_debt"
          /\ severity p = "warning").
Proof.
  assert (Hgen :
    forall format_0f format_1f str_nat (later : list pattern_record) (r : results),
      (5 <= length (daily_ready (res_performance r)))%nat ->
      (5 <= length (means_of (last7 (daily_ready (res_performance r)))))%nat ->
      (3 <= day_over_day_drops (means_of (last7 (daily_ready (res_performance r)))))%nat ->
      exists p,
        In p (detect_patterns format_0f format_1f str_nat later r)
        /\ pattern p = "compounding_readiness_debt"
        /\ severity p = "warning").
  { intros f0 f1 sn later r Hdays Hmeans Hdrops.
    unfold detect_patterns, readiness_debt_rule.
    apply Nat.leb_le in Hdays, Hmeans. rewrite Hdays, Hmeans.
    rewrite declining_days_drops. apply Nat.leb_le in Hdrops. rewrite Hdrops.
    eexists. split; [apply in_or_app; left; left; reflexivity|].
    split; reflexivity. }
  split.
  - intros f0 f1 sn later r days means. apply Hgen.
  - intros f0 f1 sn later. apply Hgen; vm_compute; lia.
Qed.

Lemma readiness_debt_fires_witness :
  exists p,
    In p (detect_patterns (fun _ => "") (fun _ => "") (fun _ => "") []
                          (ready_only [160; 155; 148; 140; 135]%Q))
    /\ pattern p = "compounding_readiness_debt"
    /\ severity p = "warning".
Proof.
  apply (proj1 readiness_debt_fires (fun _ => "") (fun _ => "") (fun _ => "") []
               (ready_only [160; 155; 148; 140; 135]%Q));
    vm_compute; lia.
Defined.

End PatternClaims.

(** ** Insufficient data *)

Section InsufficientData.
Import PyFloat Frame.

Lemma sorted_keys_one_day (k : Z) (ks : list Z) :
  (forall x, In x ks -> x = k) -> sorted_keys ks = [] \/ sorted_keys ks = [k].
Proof.
  unfold sorted_keys. induction ks as [|x rest IH]; intros Hall; [now left|].
  right. simpl.
  assert (Hx : x = k) by (apply Hall; now left). subst x.
  destruct IH as [-> | ->]; [intros y Hy; apply Hall; now right | reflexivity |].
  simpl. now rewrite Z.ltb_irrefl, Z.eqb_refl.
Qed.

Lemma groupby_one_day {A : Type} (key : A -> Z) (rows : list A) :
  (forall a b, In a rows -> In b rows -> key a = key b) ->
  (length (groupby key rows) < 2)%nat.
Proof.
  intros Hsame. unfold groupby. rewrite length_map.
  destruct rows as [|a rest]; [simpl; lia|].
  destruct (sorted_keys_one_day (key a) (List.map key (a :: rest))) as [-> | ->].
  - intros x Hx. apply in_map_iff in Hx. destruct Hx as (b & <- & Hb).
    apply Hsame; [exact Hb | now left].
  - simpl. lia.
  - simpl. lia.
Qed.

End InsufficientData.

Section InsufficientDataClaims.
Import PyFloat Frame Circadian.

Lemma Series_mean_nan (xs : list pyfloat) :
  Series_mean xs = NaN <-> Forall (fun x => x = NaN) xs.
Proof.
  unfold Series_mean.
  assert (H : dropna xs = [] <-> Forall (fun x => x = NaN) xs).
  { induction xs as [|[q|] rest IH]; simpl.
    - split; [constructor | reflexivity].
    - split; [discriminate|]. intros H. apply Forall_cons_iff in H.
      destruct H as [H _]. discriminate.
    - rewrite IH. split; [now constructor|]. intros H.
      apply Forall_cons_iff in H. tauto. }
  destruct (dropna xs) as [|y ys].
  - split; [intros _; now apply H | reflexivity].
  - split; [discriminate|]. intros Hall. apply H in Hall. discriminate.
Qed.

Lemma clock_hours_nan (t : option Z) : clock_hours t = NaN <-> t = None.
Proof. destruct t; simpl; split; congruence. Qed.

Lemma adjust_nan (h : pyfloat) : adjust h = NaN <-> h = NaN.
Proof.
  unfold adjust. destruct h as [x|]; simpl; [|tauto].
  destruct (Qlt_bool 12 x); simpl; split; discriminate.
Qed.

Lemma bedtime_of_raises (Series_std : list pyfloat -> pyfloat) (log : sleep_frame)
      (df : list session) :
  bedtime_of Series_std log df = None
  <-> has_sleep_start_local log = true
      /\ Forall (fun s => sleep_start_local s = None) df.
Proof.
  unfold bedtime_of. destruct (has_sleep_start_local log).
  - destruct (Series_mean _) as [m|] eqn:E.
    + split; [discriminate|]. intros [_ Hall]. exfalso.
      assert (E' : Series_mean
                     (List.map (fun s => adjust (clock_hours (sleep_start_local s))) df) = NaN).
      { apply Series_mean_nan. apply Forall_map. cbn.
        eapply List.Forall_impl; [|exact Hall]. cbn. intros s Hs.
        apply adjust_nan, clock_hours_nan, Hs. }
      congruence.
    + split; [|reflexivity]. intros _. split; [reflexivity|].
      apply Series_mean_nan in E. apply Forall_map in E.
      eapply List.Forall_impl; [|exact E]. cbn. intros s Hs.
      now apply clock_hours_nan, adjust_nan.
  - split; [discriminate | intros [H _]; discriminate].
Qed.

Lemma wake_of_raises (log : sleep_frame) (df : list session) :
  wake_of log df = None
  <-> has_sleep_end_local log = true
      /\ Forall (fun s => sleep_end_local s = None) df.
Proof.
  unfold wake_of. destruct (has_sleep_end_local log).
  - destruct (Series_mean _) as [m|] eqn:E.
    + split; [discriminate|]. intros [_ Hall]. exfalso.
      assert (E' : Series_mean
                     (List.map (fun s => clock_hours (sleep_end_local s)) df) = NaN).
      { apply Series_mean_nan. apply Forall_map. cbn.
        eapply List.Forall_impl; [|exact Hall]. cbn. intros s Hs.
        apply clock_hours_nan, Hs. }
      congruence.
    + split; [|reflexivity]. intros _. split; [reflexivity|].
      apply Series_mean_nan in E. apply Forall_map in E.
      eapply List.Forall_impl; [|exact E]. cbn. intros s Hs.
      now apply clock_hours_nan.
  - split; [discriminate | intros [H _]; discriminate].
Qed.

(** [_add_sleep_timing] raises exactly when a session is kept and no kept
    session has a start time (with the start column), or none has an end
    time (with the end column). *)
Lemma add_sleep_timing_raises (Series_std : list pyfloat -> pyfloat)
      (result : circadian_result) (sleep_df : option sleep_frame) :
  _add_sleep_timing Series_std result sleep_df = None
  <-> exists log,
        sleep_df = Some log /\ kept_sessions log <> []
        /\ ((has_sleep_start_local log = true
             /\ Forall (fun s => sleep_start_local s = None) (kept_sessions log))
            \/ (has_sleep_end_local log = true
                /\ Forall (fun s => sleep_end_local s = None) (kept_sessions log))).
Proof.
  unfold _add_sleep_timing. destruct sleep_df as [log|].
  2:{ split; [discriminate | intros (log & H & _); discriminate]. }
  assert (Hempty : sessions log = [] -> kept_sessions log = []).
  { unfold kept_sessions. intros ->. now destruct (has_sleep_start_local log). }
  destruct (sessions log) as [|s0 ss] eqn:Hs.
  { split; [discriminate|]. intros (log' & [= <-] & Hne & _).
    elim Hne. now apply Hempty. }
  clear Hempty.
  destruct (kept_sessions log) as [|k ks] eqn:Hk.
  { split; [discriminate|]. intros (log' & [= <-] & Hne & _). congruence. }
  pose proof (bedtime_of_raises Series_std log (k :: ks)) as Hb.
  pose proof (wake_of_raises log (k :: ks)) as Hw.
  destruct (bedtime_of Series_std log (k :: ks)) as [[onset variance]|].
  - destruct (wake_of log (k :: ks)) as [wake|].
    + split; [discriminate|]. intros (log' & [= <-] & _ & [H | H]).
      * rewrite Hk in H. apply Hb in H. discriminate.
      * rewrite Hk in H. apply Hw in H. discriminate.
    + split; [|reflexivity]. intros _. exists log.
      split; [reflexivity|]. split; [congruence|]. right.
      rewrite Hk. now apply Hw.
  - split; [|reflexivity]. intros _. exists log.
    split; [reflexivity|]. split; [congruence|]. left.
    rewrite Hk. now apply Hb.
Qed.

(** When it returns, it has written the three timing keys only. *)
Lemma add_sleep_timing_fields (Series_std : list pyfloat -> pyfloat)
      (result res : circadian_result) (sleep_df : option sleep_frame) :
  _add_sleep_timing Series_std result sleep_df = Some res ->
  exists onset wake variance, res = with_timing result onset wake variance.
Proof.
  unfold _add_sleep_timing. destruct sleep_df as [log|]; [|intros [= <-]; eauto].
  destruct (sessions log); [intros [= <-]; eauto|].
  destruct (kept_sessions log) as [|k ks]; [intros [= <-]; eauto|].
  destruct (bedtime_of Series_std log (k :: ks)) as [[onset variance]|]; [|discriminate].
  destruct (wake_of log (k :: ks)) as [wake|]; [|discriminate].
  intros [= <-]. eauto.
Qed.

(** With fewer than 6 valid circadian samples [analyse_circadian], when it
    returns, reports [cosinor_fit = false], the mean of the samples as mesor
    (null when there is no sample) and null amplitude, acrophase hour, peak
    window, worst window and chronotype, whatever the fitting routines would
    do; it does return when there is no session log and the frame has the
    type and score columns.  When all valid HRV
    readings fall on one day, or there is none, [analyse_hrv] returns a null
    [rmssd_7d_slope]. *)
Lemma insufficient_data_gives_nulls :
  (forall hourly_table curve_fit peak_window_of worst_window_of peak_variance_of
          Series_std (df : frame) (sleep_df : option sleep_frame),
      (length (valid_samples df) < 6)%nat ->
      let run := analyse_circadian hourly_table curve_fit peak_window_of
                                   worst_window_of peak_variance_of Series_std
                                   df sleep_df in
      (has_type df = true -> has_score df = true -> sleep_df = None -> run <> None)
      /\ forall res, run = Some res ->
           cosinor_fit res = false
           /\ mesor res = match List.map snd (valid_samples df) with
                          | [] => None
                          | ys => Some (Qmean ys)
                          end
           /\ amplitude res = None
           /\ acrophase_hour res = None
           /\ estimated_peak_window res = None
           /\ worst_window res = None
           /\ chronotype_estimate res = None)
  /\ (forall df : list Hrv.epoch,
        (forall e1 e2, In e1 (Hrv._valid_hrv df) -> In e2 (Hrv._valid_hrv df) ->
                       date_of (Hrv.datetime_et e1) = date_of (Hrv.datetime_et e2)) ->
        Hrv.rmssd_7d_slope (Hrv.analyse_hrv df) = None).
Proof.
  split.
  - intros ht cf pw ww pv sd df sleep_df Hfew run. subst run.
    unfold analyse_circadian, valid_samples in *.
    destruct (has_type df); cbn [negb];
      [|split; [discriminate | intros res; discriminate]].
    destruct (ready_rows df) as [|r0 rest] eqn:Hready.
    + split; [discriminate|]. intros res [= <-].
      destruct (has_hour df); simpl; repeat split; reflexivity.
    + destruct (has_hour df); simpl negb; cbv iota.
      * destruct (has_score df); cbn [negb];
          [|split; [discriminate | intros res; discriminate]].
        apply Nat.ltb_lt in Hfew. rewrite Hfew. split.
        -- intros _ _ ->. discriminate.
        -- intros res Hres. apply add_sleep_timing_fields in Hres.
           destruct Hres as (onset & wake & variance & ->).
           cbn [with_timing mean_only cosinor_fit mesor amplitude acrophase_hour
                estimated_peak_window worst_window chronotype_estimate].
           repeat split; try reflexivity.
           destruct (List.map snd (fit_samples (r0 :: rest))); reflexivity.
      * split; [discriminate|]. intros res [= <-].
        simpl. repeat split; reflexivity.
  - intros df Hsame. unfold Hrv.analyse_hrv.
    destruct (Hrv._valid_hrv df) as [|e0 rest] eqn:Hvalid; [reflexivity|].
    cbn [Hrv.rmssd_7d_slope].
    replace (2 <=? length (Hrv.daily_rmssd (e0 :: rest)))%nat with false; [reflexivity|].
    symmetry. apply Nat.leb_gt. unfold Hrv.daily_rmssd. rewrite length_map.
    apply groupby_one_day. intros a b Ha Hb. now apply Hsame.
Qed.

(** C8.  With fewer than 6 valid samples the component is to return partial
    output with nulls rather than fail.  [analyse_circadian] does so when
    there is no session log, but with a log whose only night session has no
    end time it fails: [_add_sleep_timing], called in the branch for fewer
    than 6 samples, takes [int] of the NaN mean wake hour, a [ValueError]
    that nothing catches.  The function guards the absent log, the empty log
    and the log of naps only by writing nulls; the log without times slips
    through. *)
Theorem insufficient_data_can_raise :
  forall hourly_table curve_fit peak_window_of worst_window_of peak_variance_of Series_std,
    let df := {| has_type := true; has_hour := true; has_score := true;
                 rows := [ {| type := "READY"; hour := Fin 9; score := Fin 150 |};
                           {| type := "READY"; hour := Fin 14; score := Fin 170 |} ] |} in
    let log := {| has_sleep_start_local := true; has_sleep_end_local := true;
                  sessions := [ {| sleep_start_local := Some 1702162800%Z;
                                   sleep_end_local := None |} ] |} in
    let run := analyse_circadian hourly_table curve_fit peak_window_of
                                 worst_window_of peak_variance_of Series_std df in
    length (valid_samples df) = 2%nat
    /\ run (Some log) = None
    /\ (exists res, run None = Some res
                    /\ cosinor_fit res = false /\ amplitude res = None
                    /\ natural_wake_local res = None)
    /\ (exists res, run (Some {| has_sleep_start_local := true;
                                 has_sleep_end_local := true;
                                 sessions := [] |}) = Some res
                    /\ cosinor_fit res = false /\ natural_wake_local res = None).
Proof.
  intros ht cf pw ww pv sd df log run.
  split; [reflexivity|]. split; [vm_compute; reflexivity|].
  split; eexists; (split; [reflexivity|]); repeat split; reflexivity.
Qed.

End InsufficientDataClaims.

(** ** The agent payload *)

Section StripFacts.
Import AgentPayload.

Lemma json_nested_ind (P : json -> Prop) :
  P JNull -> (forall b, P (JBool b)) -> (forall q, P (JNum q)) -> (forall s, P (JStr s)) ->
  (forall items, List.Forall P items -> P (JList items)) ->
  (forall entries, List.Forall (fun kv => P (snd kv)) entries -> P (JDict entries)) ->
  forall j, P j.
Proof.
  intros HNull HBool HNum HStr HList HDict.
  fix IH 1. intros [ | b | q | s | items | entries].
  - exact HNull.
  - apply HBool.
  - apply HNum.
  - apply HStr.
  - apply HList. induction items as [|x rest IHrest]; constructor; [apply IH | exact IHrest].
  - apply HDict. induction entries as [|[k v] rest IHrest]; constructor;
      [apply IH | exact IHrest].
Qed.

Lemma strip_nulls_dict (entries : list (string * json)) :
  _strip_nulls (JDict entries)
  = match List.filter keep_entry (List.map strip_entry entries) with
    | [] => JNull
    | cleaned => JDict cleaned
    end.
Proof.
  cbn [_strip_nulls].
  match goal with
  | |- match ?c with _ => _ end = _ =>
      assert (E : c = List.filter keep_entry (List.map strip_entry entries))
  end.
  { induction entries as [|[k v] rest IH]; [reflexivity|].
    cbn [List.map List.filter]. rewrite <- IH.
    unfold keep_entry, strip_entry. cbn [fst snd].
    destruct (is_null (_strip_nulls v)); [reflexivity|].
    destruct (is_empty_dict (_strip_nulls v)); reflexivity. }
  rewrite E. destruct (List.filter keep_entry (List.map strip_entry entries)); reflexivity.
Qed.

Lemma no_null_entries_dict (entries : list (string * json)) :
  no_null_entries (JDict entries)
  = forallb (fun kv => keep_entry kv && no_null_entries (snd kv)) entries.
Proof.
  cbn [no_null_entries].
  induction entries as [|[k v] rest IH]; [reflexivity|].
  cbn [forallb]. rewrite <- IH. unfold keep_entry. reflexivity.
Qed.

Lemma no_null_entries_list (items : list json) :
  no_null_entries (JList items) = forallb no_null_entries items.
Proof.
  cbn [no_null_entries].
  induction items as [|x rest IH]; [reflexivity|].
  cbn [forallb]. rewrite <- IH. reflexivity.
Qed.

Lemma no_empty_entries_dict (entries : list (string * json)) :
  no_empty_entries (JDict entries)
  = forallb (fun kv => keep_entry kv && negb (is_empty_list (snd kv))
                       && no_empty_entries (snd kv)) entries.
Proof.
  cbn [no_empty_entries].
  induction entries as [|[k v] rest IH]; [reflexivity|].
  cbn [forallb]. rewrite <- IH. unfold keep_entry. reflexivity.
Qed.

(** The part of the promise that holds: after stripping, no dict entry at any
    depth has a null or an empty dict as its value. *)
Lemma strip_nulls_no_null_entries (j : json) : no_null_entries (_strip_nulls j) = true.
Proof.
  induction j as [ | b | q | s | items IH | entries IH] using json_nested_ind;
    try reflexivity.
  - cbn [_strip_nulls]. rewrite no_null_entries_list.
    apply forallb_forall. intros x Hx. apply filter_In in Hx. destruct Hx as [Hx _].
    apply in_map_iff in Hx. destruct Hx as (y & <- & Hy).
    rewrite List.Forall_forall in IH. now apply IH.
  - rewrite strip_nulls_dict.
    destruct (List.filter keep_entry (List.map strip_entry entries)) as [|c cs] eqn:E;
      [reflexivity|].
    rewrite <- E, no_null_entries_dict.
    apply forallb_forall. intros kv Hkv. apply filter_In in Hkv.
    destruct Hkv as [Hin Hkeep]. rewrite Hkeep. simpl.
    apply in_map_iff in Hin. destruct Hin as (kv0 & <- & Hin0).
    rewrite List.Forall_forall in IH. exact (IH kv0 Hin0).
Qed.

(** An entry whose stripped value is an empty list survives the stripping of
    its dict. *)
Lemma strip_nulls_keeps_empty_list (entries : list (string * json)) (k : string) (v : json) :
  In (k, v) entries -> _strip_nulls v = JList [] ->
  exists cleaned,
    _strip_nulls (JDict entries) = JDict cleaned
    /\ In (k, JList []) cleaned
    /\ no_empty_entries (JDict cleaned) = false.
Proof.
  intros Hin Hv. rewrite strip_nulls_dict.
  assert (Hkept : In (k, JList []) (List.filter keep_entry (List.map strip_entry entries))).
  { apply filter_In. split; [|reflexivity].
    apply in_map_iff. exists (k, v). split; [|exact Hin].
    unfold strip_entry. simpl. now rewrite Hv. }
  destruct (List.filter keep_entry (List.map strip_entry entries)) as [|c cs] eqn:E;
    [destruct Hkept|].
  eexists. split; [reflexivity|]. split; [exact Hkept|].
  rewrite no_empty_entries_dict.
  destruct (forallb _ (c :: cs)) eqn:Hall; [|reflexivity].
  rewrite forallb_forall in Hall. specialize (Hall _ Hkept). simpl in Hall. discriminate.
Qed.

End StripFacts.

Section PayloadClaims.
Import AgentPayload.

(** C9. The payload is to hold, at no depth, a dict entry whose value is
    null, an empty dict or an empty list, as the docstring of [_strip_nulls]
    also says.  The stripping keeps entries whose value is an empty list: for
    the empty packet and empty results no alert fires, [_build_alerts]
    returns [[]], and the payload holds the entry "alerts": [], whatever the
    other builders return. *)
Theorem agent_payload_keeps_empty_alerts :
  forall fmt _build_agent_state _build_data_quality _build_baseline
         _build_recovery _build_sleep_debt _build_strain,
    let payload :=
      build_agent_payload fmt _build_agent_state _build_data_quality _build_baseline
                          _build_recovery _build_sleep_debt _build_strain
                          (JDict []) (JDict []) in
    _build_alerts fmt (JDict []) (JDict []) = []
    /\ (exists entries, payload = JDict entries /\ In ("alerts", JList []) entries)
    /\ no_empty_entries payload = false
    /\ no_null_entries payload = true.
Proof.
  intros fmt b1 b2 b3 b4 b5 b6 payload. subst payload.
  split; [reflexivity|].
  unfold build_agent_payload.
  destruct (strip_nulls_keeps_empty_list
              (match payload_of fmt b1 b2 b3 b4 b5 b6 (JDict []) (JDict []) with
               | JDict es => es
               | _ => []
               end) "alerts" (JList []))
    as (cleaned & Hstrip & Hin & Hbad).
  - simpl. tauto.
  - reflexivity.
  - change (_strip_nulls (payload_of fmt b1 b2 b3 b4 b5 b6 (JDict []) (JDict []))
            = JDict cleaned) in Hstrip.
    rewrite Hstrip. split; [eauto|]. split; [exact Hbad|].
    rewrite <- Hstrip. apply strip_nulls_no_null_entries.
Qed.

End PayloadClaims.

(** * Further properties of the code *)

(** ** Grouping *)

Section GroupFacts.
Import Frame.

Lemma insert_uniq_sorted (k : Z) (ks : list Z) :
  StronglySorted Z.lt ks -> StronglySorted Z.lt (insert_uniq k ks).
Proof.
  induction 1 as [|k' rest Hsorted IH Hall]; simpl.
  - repeat constructor.
  - destruct (k <? k')%Z eqn:Hlt.
    + apply Z.ltb_lt in Hlt. constructor; [constructor; assumption|].
      constructor; [exact Hlt|].
      apply List.Forall_forall. intros x Hx.
      rewrite List.Forall_forall in Hall. specialize (Hall x Hx). lia.
    + destruct (k =? k')%Z eqn:Heq; [constructor; assumption|].
      apply Z.ltb_ge in Hlt. apply Z.eqb_neq in Heq.
      constructor; [exact IH|].
      apply List.Forall_forall. intros x Hx. apply insert_uniq_In in Hx.
      destruct Hx as [-> | Hx]; [lia|].
      rewrite List.Forall_forall in Hall. now apply Hall.
Qed.

Lemma sorted_keys_sorted (ks : list Z) : StronglySorted Z.lt (sorted_keys ks).
Proof.
  unfold sorted_keys. induction ks as [|k rest IH]; simpl; [constructor|].
  now apply insert_uniq_sorted.
Qed.

Lemma groupby_keys {A : Type} (key : A -> Z) (rows : list A) :
  List.map fst (groupby key rows) = sorted_keys (List.map key rows).
Proof.
  unfold groupby. rewrite List.map_map. simpl. apply map_id.
Qed.

End GroupFacts.

(** ** strain.py *)

Section StrainExtras.
Import PyFloat Frame Strain.

(** The wear-on rows [analyse_strain] works on. *)
Lemma analyse_strain_dates (f : frame) :
  has_heart_rate_mean f = true ->
  let wear := if has_wear_mode f
              then List.filter (fun e => String.eqb (wear_mode e) "wear_on") (rows f)
              else rows f in
  List.map date (daily_strain (analyse_strain (Some f)))
  = sorted_keys (List.map (fun e => date_of (datetime_et e)) wear).
Proof.
  intros Hhr wear. subst wear. unfold analyse_strain. rewrite Hhr. simpl negb. cbv iota.
  destruct (rows f) as [|r0 rest] eqn:Hrows.
  - destruct (has_wear_mode f); reflexivity.
  - destruct (if has_wear_mode f then _ else _) as [|w0 ws] eqn:Hwear; [reflexivity|].
    cbn [daily_strain]. rewrite List.map_map. cbn [date analyse_day].
    rewrite <- groupby_keys. reflexivity.
Qed.


Lemma first_zone_range (pct : pyfloat) (bounds : list Q) (i : nat) :
  (i + length bounds <= 5)%nat ->
  (i <= first_zone pct bounds i <= 5)%nat.
Proof.
  revert i. induction bounds as [|b rest IH]; intros i Hlen; simpl in *; [lia|].
  destruct (flt pct (Fin b)); [lia|].
  specialize (IH (S i)). lia.
Qed.

Lemma first_zone_mono (p1 p2 : Q) (bounds : list Q) (i : nat) :
  (p1 <= p2)%Q -> (i + length bounds <= 5)%nat ->
  (first_zone (Fin p1) bounds i <= first_zone (Fin p2) bounds i)%nat.
Proof.
  intros Hle. revert i. induction bounds as [|b rest IH]; intros i Hlen; simpl in *; [lia|].
  destruct (Qlt_bool p1 b) eqn:H1, (Qlt_bool p2 b) eqn:H2.
  - lia.
  - pose proof (first_zone_range (Fin p2) rest (S i)). lia.
  - apply Qlt_bool_iff in H2. apply Qlt_bool_false_iff in H1.
    exfalso. apply (Qlt_not_le _ _ H2). eapply Qle_trans; eauto.
  - apply IH. lia.
Qed.

Lemma estimate_max_hr_floor (df : list epoch) : (150 <= _estimate_max_hr df)%Q.
Proof.
  unfold _estimate_max_hr.
  destruct (List.filter _ _); [apply Qle_bool_iff; reflexivity|].
  destruct (Qlt_bool _ 150) eqn:E; [apply Qle_refl|].
  now apply Qlt_bool_false_iff in E.
Qed.

(** X1. The estimated maximum heart rate is never below 150, whatever the
    readings (190 when no reading is positive), so the zone of a reading is
    always taken from its fraction of a positive maximum. *)
Theorem estimate_max_hr_at_least_150 (df : list epoch) :
  (150 <= _estimate_max_hr df)%Q
  /\ (List.filter (fun h => Qlt_bool 0 h) (dropna (List.map heart_rate_mean df)) = [] ->
      _estimate_max_hr df = 190%Q)
  /\ forall hr : Q,
       _classify_zone (Fin hr) (_estimate_max_hr df)
       = first_zone (Fin (hr / _estimate_max_hr df)) (removelast _ZONE_BOUNDS) 0.
Proof.
  split; [apply estimate_max_hr_floor|]. split.
  - intros Hnone. unfold _estimate_max_hr. now rewrite Hnone.
  - intros hr. unfold _classify_zone.
    replace (Qlt_bool 0 (_estimate_max_hr df)) with true; [reflexivity|].
    symmetry. apply Qlt_bool_iff.
    eapply Qlt_le_trans; [|apply estimate_max_hr_floor]. reflexivity.
Qed.

Lemma estimate_max_hr_at_least_150_witness :
  _estimate_max_hr
    [ {| wear_mode := "wear_on"; heart_rate_mean := Fin 0; datetime_et := 0;
         energy_cols := [] |};
      {| wear_mode := "wear_on"; heart_rate_mean := NaN; datetime_et := 30;
         energy_cols := [] |} ] = 190%Q.
Proof.
  apply (proj1 (proj2 (estimate_max_hr_at_least_150 _))). reflexivity.
Defined.

(** X2. Heart-rate zones are between 0 and 5 and never decrease with the
    heart rate: of two readings of one frame the higher one lies in the same
    or a higher zone; a missing reading falls in zone 5. *)
Theorem classify_zone_monotone (df : list epoch) (h1 h2 : Q) :
  (h1 <= h2)%Q ->
  (_classify_zone (Fin h1) (_estimate_max_hr df)
   <= _classify_zone (Fin h2) (_estimate_max_hr df) <= 5)%nat
  /\ _classify_zone NaN (_estimate_max_hr df) = 5%nat.
Proof.
  intros Hle.
  assert (Hpos : (0 < _estimate_max_hr df)%Q).
  { eapply Qlt_le_trans; [|apply estimate_max_hr_floor]. reflexivity. }
  unfold _classify_zone.
  replace (Qlt_bool 0 (_estimate_max_hr df)) with true
    by (symmetry; now apply Qlt_bool_iff).
  split; [split|reflexivity].
  - apply first_zone_mono; [|simpl; lia].
    unfold Qdiv. apply Qmult_le_compat_r; [exact Hle|].
    apply Qlt_le_weak, Qinv_lt_0_compat, Hpos.
  - apply first_zone_range. simpl. lia.
Qed.

Lemma classify_zone_monotone_witness :
  (_classify_zone (Fin 100) (_estimate_max_hr []) <= _classify_zone (Fin 160) (_estimate_max_hr []))%nat.
Proof.
  apply (classify_zone_monotone [] 100 160). apply Qle_bool_iff. reflexivity.
Defined.


(** X3. In every daily record the recommended sleep-need adjustment and the
    strain label agree: 45 minutes goes with overreaching, 30 with high, 15
    with moderate, and no adjustment with minimal, light or moderate. *)
Theorem strain_adjustment_matches_level (df : option frame) :
  Forall (fun d =>
            (sleep_need_adjustment_min d = 45%Z /\ strain_level d = "overreaching")
            \/ (sleep_need_adjustment_min d = 30%Z /\ strain_level d = "high")
            \/ (sleep_need_adjustment_min d = 15%Z /\ strain_level d = "moderate")
            \/ (sleep_need_adjustment_min d = 0%Z
                /\ In (strain_level d) ["minimal"; "light"; "moderate"]))
         (daily_strain (analyse_strain df)).
Proof.
  assert (Hday : forall max_hr d day,
    let r := analyse_day max_hr d day in
    (sleep_need_adjustment_min r = 45%Z /\ strain_level r = "overreaching")
    \/ (sleep_need_adjustment_min r = 30%Z /\ strain_level r = "high")
    \/ (sleep_need_adjustment_min r = 15%Z /\ strain_level r = "moderate")
    \/ (sleep_need_adjustment_min r = 0%Z
        /\ In (strain_level r) ["minimal"; "light"; "moderate"])).
  { intros max_hr d day. unfold analyse_day.
    cbn [sleep_need_adjustment_min strain_level].
    set (c := pymin _STRAIN_CAP _). clearbody c. unfold _strain_label.
    destruct (Rle_dec 18 c), (Rle_dec 14 c), (Rle_dec 10 c),
             (Rlt_dec c 4), (Rlt_dec c 8), (Rlt_dec c 14), (Rlt_dec c 18);
      try lra; simpl; tauto. }
  unfold analyse_strain.
  destruct df as [f|]; [|constructor].
  destruct (rows f); [constructor|].
  destruct (negb _); [constructor|].
  destruct (if has_wear_mode f then _ else _); [constructor|].
  cbn [daily_strain]. apply List.Forall_forall. intros r Hr.
  apply in_map_iff in Hr. destruct Hr as (g & <- & _). apply Hday.
Qed.

(** X4. [analyse_strain] reports the dates in strictly increasing order, so
    no date twice; with a heart-rate column the dates are exactly those of
    the wear-on rows. *)
Theorem analyse_strain_one_record_per_date :
  (forall df : option frame,
      StronglySorted Z.lt (List.map date (daily_strain (analyse_strain df))))
  /\ (forall (f : frame) (d : Z),
        has_heart_rate_mean f = true ->
        has_wear_mode f = true ->
        (In d (List.map date (daily_strain (analyse_strain (Some f))))
         <-> exists e, In e (rows f) /\ wear_mode e = "wear_on"
                       /\ date_of (datetime_et e) = d)).
Proof.
  split.
  - intros [f|]; [|constructor].
    destruct (has_heart_rate_mean f) eqn:Hhr.
    + rewrite (analyse_strain_dates f Hhr). apply sorted_keys_sorted.
    + unfold analyse_strain. rewrite Hhr.
      destruct (rows f); constructor.
  - intros f d Hhr Hwm. rewrite (analyse_strain_dates f Hhr), Hwm.
    rewrite sorted_keys_In, in_map_iff. split.
    + intros (e & <- & He). apply filter_In in He. destruct He as [He Hw].
      apply String.eqb_eq in Hw. eauto.
    + intros (e & He & Hw & <-). exists e. split; [reflexivity|].
      apply filter_In. split; [exact He|]. now apply String.eqb_eq.
Qed.

Lemma analyse_strain_one_record_per_date_witness :
  let e (t : Z) := {| wear_mode := "wear_on"; heart_rate_mean := Fin 120;
                      datetime_et := t; energy_cols := [] |} in
  let f := {| has_heart_rate_mean := true; has_wear_mode := true;
              rows := [e 86400%Z; e 30%Z; e 86430%Z] |} in
  In 1%Z (List.map date (daily_strain (analyse_strain (Some f)))).
Proof.
  intros e f.
  apply (proj2 analyse_strain_one_record_per_date f 1%Z eq_refl eq_refl).
  exists (e 86400%Z). split; [now left|]. split; reflexivity.
Defined.

End StrainExtras.

(** ** readiness.py *)

Section ReadinessExtras.
Import PyFloat Readiness.

Lemma list_index_head_ne (x y : string) (l : list string) (i : nat) :
  x <> y -> list_index l y = Some i -> list_index (x :: l) y = Some (S i).
Proof.
  intros Hne Hi. simpl. apply String.eqb_neq in Hne. now rewrite Hne, Hi.
Qed.

(** When every floor met by one pair of signals is met by another, the scan
    stops for the second pair at the same tier or an earlier one. *)
Lemma scan_tiers_earlier (ts : list tier_def) (r r' : pyfloat) (p p' : option pyfloat) :
  List.NoDup (List.map name ts) ->
  (forall t, In t ts ->
     match p with
     | Some q => fge q (Fin (rmssd_min t)) && fge r (Fin (ready_min t))
     | None => fge r (Fin (ready_min t))
     end = true ->
     match p' with
     | Some q => fge q (Fin (rmssd_min t)) && fge r' (Fin (ready_min t))
     | None => fge r' (Fin (ready_min t))
     end = true) ->
  forall n, scan_tiers r p ts = Some n ->
  exists n' i i',
    scan_tiers r' p' ts = Some n'
    /\ list_index (List.map name ts) n = Some i
    /\ list_index (List.map name ts) n' = Some i'
    /\ (i' <= i)%nat.
Proof.
  induction ts as [|t rest IH]; intros Hnodup Himp n Hscan; [discriminate|].
  simpl in Hnodup. apply List.NoDup_cons_iff in Hnodup. destruct Hnodup as [Hfresh Hnodup].
  cbn [scan_tiers] in *. cbn [List.map].
  destruct (match p with Some _ => _ | None => _ end) eqn:Hmet.
  - injection Hscan as <-.
    rewrite (Himp t (or_introl eq_refl) Hmet).
    exists (name t), 0%nat, 0%nat. simpl. rewrite String.eqb_refl. auto.
  - destruct (IH Hnodup (fun t' Ht' => Himp t' (or_intror Ht')) n Hscan)
      as (n' & i & i' & Hscan' & Hi & Hi' & Hle).
    assert (Hn : name t <> n).
    { intros <-. apply Hfresh. eapply scan_tiers_name; eauto. }
    destruct (match p' with Some _ => _ | None => _ end).
    + exists (name t), (S i), 0%nat. repeat split; try lia.
      * now apply list_index_head_ne.
      * simpl. now rewrite String.eqb_refl.
    + assert (Hn' : name t <> n').
      { intros <-. apply Hfresh. eapply scan_tiers_name; eauto. }
      exists n', (S i), (S i'). repeat split; try lia; auto using list_index_head_ne.
Qed.

Lemma tier_names_nodup : List.NoDup (List.map name _TIERS).
Proof.
  repeat constructor; simpl; intuition discriminate.
Qed.

Lemma tier_rank_bound (t : string) :
  In t tier_order -> exists i, rank t = Some i /\ (i <= 4)%nat.
Proof.
  simpl. intros [<- | [<- | [<- | [<- | [<- | []]]]]]; eexists; split;
    try reflexivity; lia.
Qed.

(** The ranks of the score tiers of two pairs of signals, the second meeting
    every floor the first meets. *)
Lemma score_tier_earlier (r r' : pyfloat) (p p' : option pyfloat) :
  (forall t, In t _TIERS ->
     match p with
     | Some q => fge q (Fin (rmssd_min t)) && fge r (Fin (ready_min t))
     | None => fge r (Fin (ready_min t))
     end = true ->
     match p' with
     | Some q => fge q (Fin (rmssd_min t)) && fge r' (Fin (ready_min t))
     | None => fge r' (Fin (ready_min t))
     end = true) ->
  exists i i',
    rank (score_tier (Some r) p) = Some i
    /\ rank (score_tier (Some r') p') = Some i'
    /\ (i' <= i)%nat.
Proof.
  intros Himp. unfold score_tier.
  destruct (scan_tiers r p _TIERS) as [n|] eqn:Hscan.
  - destruct (scan_tiers_earlier _TIERS r r' p p' tier_names_nodup Himp n Hscan)
      as (n' & i & i' & -> & Hi & Hi' & Hle).
    exists i, i'. auto.
  - destruct (tier_rank_bound (score_tier (Some r') p') (score_tier_known _ _))
      as (i' & Hi' & Hle).
    unfold score_tier in Hi'. exists 4%nat, i'. split; [reflexivity|]. auto.
Qed.

(** Applying the cap keeps the order of two ranks. *)
Lemma classify_tier_from_score (ready_score rmssd_pct stress sleepiness : option pyfloat)
      (i : nat) :
  rank (score_tier ready_score rmssd_pct) = Some i ->
  exists t j,
    _classify_tier ready_score rmssd_pct stress sleepiness = Some t
    /\ rank t = Some j
    /\ j = match self_report_cap stress sleepiness with
           | Some "Recovery" => 4%nat
           | Some _ => Nat.max i 3
           | None => i
           end.
Proof.
  intros Hi. unfold _classify_tier.
  pose proof (score_tier_known ready_score rmssd_pct) as Hin.
  remember (score_tier ready_score rmssd_pct) as base eqn:Hbase. clear Hbase.
  destruct (self_report_cap_cases stress sleepiness) as [-> | [-> | ->]].
  - eauto.
  - simpl in Hin. destruct Hin as [<- | [<- | [<- | [<- | [<- | []]]]]];
      vm_compute in Hi; injection Hi as <-; vm_compute; eauto.
  - simpl in Hin. destruct Hin as [<- | [<- | [<- | [<- | [<- | []]]]]];
      vm_compute in Hi; injection Hi as <-; vm_compute; eauto.
Qed.

Lemma classify_tier_earlier (r r' : pyfloat) (p p' stress sleepiness : option pyfloat) :
  (forall t, In t _TIERS ->
     match p with
     | Some q => fge q (Fin (rmssd_min t)) && fge r (Fin (ready_min t))
     | None => fge r (Fin (ready_min t))
     end = true ->
     match p' with
     | Some q => fge q (Fin (rmssd_min t)) && fge r' (Fin (ready_min t))
     | None => fge r' (Fin (ready_min t))
     end = true) ->
  exists t t' i i',
    _classify_tier (Some r) p stress sleepiness = Some t
    /\ _classify_tier (Some r') p' stress sleepiness = Some t'
    /\ rank t = Some i /\ rank t' = Some i' /\ (i' <= i)%nat.
Proof.
  intros Himp.
  destruct (score_tier_earlier r r' p p' Himp) as (i & i' & Hi & Hi' & Hle).
  destruct (classify_tier_from_score (Some r) p stress sleepiness i Hi)
    as (t & j & Ht & Hj & ->).
  destruct (classify_tier_from_score (Some r') p' stress sleepiness i' Hi')
    as (t' & j' & Ht' & Hj' & ->).
  exists t, t'. do 2 eexists. repeat split; eauto.
  destruct (self_report_cap stress sleepiness) as [c|]; [|exact Hle].
  destruct (String.eqb c "Recovery") eqn:E.
  - apply String.eqb_eq in E. subst c. lia.
  - assert (Hc : match c with "Recovery" => 4%nat | _ => Nat.max i' 3 end = Nat.max i' 3
                 /\ match c with "Recovery" => 4%nat | _ => Nat.max i 3 end = Nat.max i 3).
    { apply String.eqb_neq in E. clear -E.
      split; repeat (match goal with
                     | |- context [match ?s with EmptyString => _ | String _ _ => _ end] =>
                         destruct s
                     | |- context [match ?a with Ascii.Ascii _ _ _ _ _ _ _ _ => _ end] =>
                         destruct a
                     | |- context [if ?b then _ else _] => destruct b
                     end; try reflexivity; try congruence). }
    destruct Hc as [-> ->]. lia.
Qed.

Lemma Qle_bool_trans (a b c : Q) :
  Qle_bool a b = true -> (b <= c)%Q -> Qle_bool a c = true.
Proof.
  intros Hab Hbc. apply Qle_bool_iff. apply Qle_bool_iff in Hab.
  eapply Qle_trans; eauto.
Qed.

(** X5. A higher Ready score and a higher HRV percentage never give a lower
    tier: with the same self-report, [_classify_tier] ranks the day with the
    larger score and the larger (or equal) percentage of baseline at the
    same place or higher in Peak > Good > Moderate > Low > Recovery. *)
Theorem classify_tier_monotone (r1 r2 p1 p2 : Q) (stress sleepiness : option pyfloat) :
  (r1 <= r2)%Q -> (p1 <= p2)%Q ->
  exists t1 t2 i1 i2,
    _classify_tier (Some (Fin r1)) (Some (Fin p1)) stress sleepiness = Some t1
    /\ _classify_tier (Some (Fin r2)) (Some (Fin p2)) stress sleepiness = Some t2
    /\ rank t1 = Some i1 /\ rank t2 = Some i2 /\ (i2 <= i1)%nat.
Proof.
  intros Hr Hp.
  apply classify_tier_earlier.
  intros t _ Hmet. apply andb_true_iff in Hmet. destruct Hmet as [H1 H2].
  apply andb_true_iff. unfold fge, fle in *.
  split; eapply Qle_bool_trans; eauto.
Qed.

Lemma classify_tier_monotone_witness :
  exists t1 t2 i1 i2,
    _classify_tier (Some (Fin 150)) (Some (Fin 80)) None None = Some t1
    /\ _classify_tier (Some (Fin 180)) (Some (Fin 95)) None None = Some t2
    /\ rank t1 = Some i1 /\ rank t2 = Some i2 /\ (i2 <= i1)%nat.
Proof.
  apply (classify_tier_monotone 150 180 80 95 None None);
    unfold Qle; simpl; lia.
Defined.

(** X6. Without an HRV percentage only the Ready-score floors are tested, so
    a day classified without HRV is never ranked below the same day
    classified with any HRV percentage; and with an HRV percentage of at
    least 90 the two agree. *)
Theorem classify_tier_without_hrv_not_lower
        (r p : pyfloat) (stress sleepiness : option pyfloat) :
  (exists t t0 i i0,
     _classify_tier (Some r) (Some p) stress sleepiness = Some t
     /\ _classify_tier (Some r) None stress sleepiness = Some t0
     /\ rank t = Some i /\ rank t0 = Some i0 /\ (i0 <= i)%nat)
  /\ (fge p (Fin 90) = true ->
      _classify_tier (Some r) (Some p) stress sleepiness
      = _classify_tier (Some r) None stress sleepiness).
Proof.
  split.
  - apply classify_tier_earlier.
    intros t _ Hmet. apply andb_true_iff in Hmet. tauto.
  - intros Hp. unfold _classify_tier, score_tier.
    assert (Hscan : scan_tiers r (Some p) _TIERS = scan_tiers r None _TIERS).
    { destruct p as [q|]; [|discriminate].
      unfold fge, fle in Hp.
      assert (Hq : forall c, (c <= 90)%Q -> fge (Fin q) (Fin c) = true).
      { intros c Hc. unfold fge, fle. apply Qle_bool_iff.
        apply Qle_bool_iff in Hp. eapply Qle_trans; eauto. }
      cbn [scan_tiers _TIERS rmssd_min ready_min name].
      rewrite !Hq by (unfold Qle; simpl; lia).
      reflexivity. }
    now rewrite Hscan.
Qed.

Lemma classify_tier_without_hrv_not_lower_witness :
  _classify_tier (Some (Fin 180)) (Some (Fin 95)) None None
  = _classify_tier (Some (Fin 180)) None None None.
Proof.
  apply (classify_tier_without_hrv_not_lower (Fin 180) (Fin 95) None None).
  reflexivity.
Defined.

(** The loop leaves alone the dates none of its days has. *)
Lemma assign_loop_other_dates (p : option pyfloat) (sr : list self_report_day)
      (days : list ready_day) (acc out : gmap string tier_entry) (date : string) :
  assign_loop p sr days acc = Some out ->
  (forall d, In d days -> date_key (rd_date d) <> date) ->
  out !! date = acc !! date.
Proof.
  revert acc. induction days as [|day rest IH]; intros acc Hout Hnone; simpl in Hout.
  - now injection Hout as <-.
  - destruct (classify_day_total p sr day) as (e0 & He0 & _).
    rewrite He0 in Hout.
    rewrite (IH _ Hout (fun d Hd => Hnone d (or_intror Hd))).
    apply lookup_insert_ne. apply Hnone. now left.
Qed.

(** The entry of a date is the one written for the last day with that date. *)
Lemma assign_loop_last_wins (p : option pyfloat) (sr : list self_report_day)
      (pre post : list ready_day) (day : ready_day) (acc : gmap string tier_entry) :
  (forall d, In d post -> date_key (rd_date d) <> date_key (rd_date day)) ->
  exists out e,
    assign_loop p sr (pre ++ day :: post)%list acc = Some out
    /\ classify_day p sr day = Some (date_key (rd_date day), e)
    /\ out !! date_key (rd_date day) = Some e.
Proof.
  intros Hpost. revert acc. induction pre as [|d0 pre IH]; intros acc.
  - cbn [app assign_loop].
    destruct (classify_day_total p sr day) as (e & He & _). rewrite He.
    destruct (assign_loop_entries p sr post (<[date_key (rd_date day) := e]> acc))
      as (out & Hout & _).
    exists out, e. split; [exact Hout|]. split; [reflexivity|].
    rewrite (assign_loop_other_dates _ _ _ _ _ _ Hout Hpost).
    apply lookup_insert_eq.
  - cbn [app assign_loop].
    destruct (classify_day_total p sr d0) as (e0 & He0 & _). rewrite He0.
    apply IH.
Qed.

Lemma assign_loop_keys (p : option pyfloat) (sr : list self_report_day)
      (days : list ready_day) (acc out : gmap string tier_entry) (date : string) :
  assign_loop p sr days acc = Some out ->
  is_Some (out !! date)
  <-> is_Some (acc !! date) \/ exists d, In d days /\ date_key (rd_date d) = date.
Proof.
  revert acc. induction days as [|day rest IH]; intros acc Hout; simpl in Hout.
  - injection Hout as <-. split; [auto|]. intros [H | (d & [] & _)]. exact H.
  - destruct (classify_day_total p sr day) as (e0 & He0 & _).
    rewrite He0 in Hout. rewrite (IH _ Hout). clear IH Hout.
    destruct (decide (date_key (rd_date day) = date)) as [Heq | Hne].
    + subst date. rewrite lookup_insert_eq. split; intros _.
      * right. exists day. split; [now left | reflexivity].
      * left. eauto.
    + rewrite lookup_insert_ne by exact Hne. split.
      * intros [H | (d & Hd & Hk)]; [now left|].
        right. exists d. split; [now right | exact Hk].
      * intros [H | (d & [<- | Hd] & Hk)]; [now left | contradiction |].
        right. exists d. auto.
Qed.

(** The colour and the task row of an entry are those of its tier. *)
Lemma classify_day_entry (p : option pyfloat) (sr : list self_report_day)
      (day : ready_day) (k : string) (e : tier_entry) :
  classify_day p sr day = Some (k, e) ->
  color_of _TIERS (tier e) = Some (tier_color e)
  /\ task_suitability e = assoc_get (tier e) _TASK_MATRIX [].
Proof.
  unfold classify_day.
  destruct (_classify_tier _ _ _ _) as [t|]; [|discriminate].
  destruct (color_of _TIERS t) as [c|] eqn:Hc; [|discriminate].
  intros [= <- <-]. cbn [tier tier_color task_suitability]. auto.
Qed.

(** X7. [tiers_by_date] is keyed by the first ten characters of the day's
    date, and a later day overwrites an earlier one with the same key: the
    entry stored for a day that no later day shares its key with is that
    day's own classification (its score, its tier with the run's HRV
    percentage and the first self-report of that date, the tier's colour and
    its row of the task matrix); and [latest_tier] is the entry of the last
    day of [daily_ready]. *)
Theorem tiers_by_date_last_day_wins (r : results) (pre post : list ready_day)
        (day : ready_day) :
  daily_ready (res_performance r) = (pre ++ day :: post)%list ->
  (forall d, In d post -> date_key (rd_date d) <> date_key (rd_date day)) ->
  exists out e,
    assign_readiness_tiers r = Some out
    /\ tiers_by_date out !! date_key (rd_date day) = Some e
    /\ ready_score e = rd_mean day
    /\ _classify_tier (rd_mean day)
         (option_map Fin (Hrv.rmssd_pct_baseline (res_hrv r)))
         (fst (find_self_report (date_key (rd_date day))
                 (daily_self_report (res_performance r))))
         (snd (find_self_report (date_key (rd_date day))
                 (daily_self_report (res_performance r))))
       = Some (tier e)
    /\ color_of _TIERS (tier e) = Some (tier_color e)
    /\ task_suitability e = assoc_get (tier e) _TASK_MATRIX []
    /\ (post = [] -> latest_tier out = Some e).
Proof.
  intros Hdays Hpost. unfold assign_readiness_tiers. rewrite Hdays.
  destruct (assign_loop_last_wins
              (option_map Fin (Hrv.rmssd_pct_baseline (res_hrv r)))
              (daily_self_report (res_performance r)) pre post day ∅ Hpost)
    as (out & e & -> & Hday & Hlook).
  destruct (classify_day_total
              (option_map Fin (Hrv.rmssd_pct_baseline (res_hrv r)))
              (daily_self_report (res_performance r)) day)
    as (e' & He' & _ & Hscore & Htier).
  rewrite He' in Hday. injection Hday as <-.
  eexists. exists e'. split; [reflexivity|]. cbn [tiers_by_date latest_tier].
  split; [exact Hlook|]. split; [exact Hscore|]. split; [exact Htier|].
  destruct (classify_day_entry _ _ _ _ _ He') as [Hcol Htask].
  split; [exact Hcol|]. split; [exact Htask|].
  intros ->. rewrite List.last_last.
  destruct (pre ++ [day])%list eqn:E; [now destruct pre|]. exact Hlook.
Qed.

Lemma tiers_by_date_last_day_wins_witness :
  let r := {| res_performance :=
                {| ready_baseline := None;
                   daily_ready := [ {| rd_date := "2024-01-05 08:00:00";
                                       rd_mean := Some (Fin 120) |};
                                    {| rd_date := "2024-01-05 20:00:00";
                                       rd_mean := Some (Fin 180) |} ];
                   daily_self_report := [] |};
              res_hrv := {| Hrv.rmssd_baseline := None;
                            Hrv.morning_rmssd := None;
                            Hrv.rmssd_pct_baseline := None;
                            Hrv.rmssd_7d_slope := None |} |} in
  exists out e,
    assign_readiness_tiers r = Some out
    /\ tiers_by_date out !! "2024-01-05" = Some e
    /\ tier e = "Peak"
    /\ latest_tier out = Some e.
Proof.
  intros r.
  destruct (tiers_by_date_last_day_wins r
              [ {| rd_date := "2024-01-05 08:00:00"; rd_mean := Some (Fin 120) |} ]
              []
              {| rd_date := "2024-01-05 20:00:00"; rd_mean := Some (Fin 180) |}
              eq_refl (fun d (H : In d []) => match H with end))
    as (out & e & Hout & Hlook & _ & Htier & _ & _ & Hlatest).
  exists out, e. split; [exact Hout|]. split; [exact Hlook|].
  split; [|exact (Hlatest eq_refl)].
  vm_compute in Htier. injection Htier as Ht. symmetry. exact Ht.
Defined.

(** X8. [assign_readiness_tiers] never raises; the dates of [tiers_by_date]
    are exactly the date keys of the days of [daily_ready]; every entry's
    tier is one of the five tiers and its colour and task row are those of
    that tier; and [latest_tier] is absent exactly when [daily_ready] is
    empty. *)
Theorem tiers_by_date_keys (r : results) :
  exists out,
    assign_readiness_tiers r = Some out
    /\ (forall date,
          is_Some (tiers_by_date out !! date)
          <-> exists d, In d (daily_ready (res_performance r))
                        /\ date_key (rd_date d) = date)
    /\ (forall date e, tiers_by_date out !! date = Some e ->
          In (tier e) tier_order
          /\ color_of _TIERS (tier e) = Some (tier_color e)
          /\ task_suitability e = assoc_get (tier e) _TASK_MATRIX [])
    /\ (latest_tier out = None <-> daily_ready (res_performance r) = [])
    /\ task_matrix out = _TASK_MATRIX.
Proof.
  unfold assign_readiness_tiers.
  set (p := option_map Fin (Hrv.rmssd_pct_baseline (res_hrv r))).
  set (sr := daily_self_report (res_performance r)).
  set (days := daily_ready (res_performance r)).
  destruct (assign_loop_entries p sr days ∅) as (tiers & Hloop & Hent).
  rewrite Hloop. eexists. split; [reflexivity|].
  cbn [tiers_by_date latest_tier task_matrix].
  split; [|split; [|split; [|reflexivity]]].
  - intros date. rewrite (assign_loop_keys _ _ _ _ _ date Hloop).
    rewrite lookup_empty. split.
    + intros [[x Hx] | H]; [discriminate | exact H].
    + auto.
  - intros date e Hlook.
    destruct (Hent date e Hlook) as [Hempty | (d & _ & Hd)].
    { rewrite lookup_empty in Hempty. discriminate. }
    destruct (classify_day_total p sr d) as (e' & He' & Hin & _ & Htier).
    rewrite He' in Hd. injection Hd as _ <-.
    split; [exact Hin|]. exact (classify_day_entry _ _ _ _ _ He').
  - destruct days as [|d0 rest] eqn:Edays; [tauto|].
    split; [|discriminate]. intros Hnone. exfalso.
    assert (Hsome : is_Some (tiers !! date_key (rd_date
              (List.last (d0 :: rest) {| rd_date := ""; rd_mean := None |})))).
    { apply (assign_loop_keys _ _ _ _ _ _ Hloop). right.
      eexists. split; [|reflexivity].
      destruct (@exists_last _ (d0 :: rest) ltac:(discriminate)) as (l' & a & ->).
      rewrite List.last_last. apply in_or_app. right. now left. }
    rewrite Hnone in Hsome. destruct Hsome. discriminate.
Qed.

End ReadinessExtras.

(** ** sleep.py *)

Section SleepExtras.
Import PyFloat Frame Sleep.

Lemma round_half_even_lower (n : Z) (x : Q) :
  (inject_Z n <= x)%Q -> (n <= round_half_even x)%Z.
Proof.
  intros Hle. unfold round_half_even.
  assert (Hf : (n <= Qfloor x)%Z).
  { rewrite <- (Qfloor_Z n). now apply Qfloor_resp_le. }
  destruct (Qlt_bool _ _); [exact Hf|].
  destruct (Qlt_bool _ _); [lia|]. destruct (Z.even _); lia.
Qed.

Lemma round1_lower (n : Z) (x : Q) :
  (inject_Z n <= x)%Q -> (inject_Z n <= round1 x)%Q.
Proof.
  intros Hle. unfold round1.
  apply Qle_shift_div_l; [reflexivity|].
  assert (H10 : (inject_Z (n * 10) <= x * 10)%Q).
  { rewrite inject_Z_mult. apply Qmult_le_compat_r; [exact Hle | discriminate]. }
  apply round_half_even_lower in H10.
  change (inject_Z n * inject_Z 10 <= inject_Z (round_half_even (x * 10)))%Q.
  rewrite <- inject_Z_mult, <- Zle_Qle. exact H10.
Qed.

Lemma insert_by_datetime_In (e x : epoch) (l : list epoch) :
  In x (insert_by_datetime e l) <-> x = e \/ In x l.
Proof.
  induction l as [|y rest IH]; simpl.
  - intuition congruence.
  - destruct (datetime e <=? datetime y)%Z; simpl; [intuition congruence|].
    rewrite IH. intuition congruence.
Qed.

Lemma sort_values_In (x : epoch) (l : list epoch) : In x (sort_values l) <-> In x l.
Proof.
  unfold sort_values. induction l as [|e rest IH]; simpl; [tauto|].
  rewrite insert_by_datetime_In, IH. intuition congruence.
Qed.

Lemma reset_index_In (r : row) (l : list epoch) : In r (reset_index l) -> In (snd r) l.
Proof.
  unfold reset_index. destruct r as [i e]. intros H. simpl.
  eapply in_combine_r; eauto.
Qed.

Lemma groupby_rows {A : Type} (key : A -> Z) (rs : list A) (g : Z * list A) (r : A) :
  In g (groupby key rs) -> In r (snd g) -> In r rs /\ key r = fst g.
Proof.
  unfold groupby. intros Hg Hr. apply in_map_iff in Hg.
  destruct Hg as (k & <- & _). simpl in *.
  apply filter_In in Hr. destruct Hr as [Hin Hk]. apply Z.eqb_eq in Hk. auto.
Qed.

Lemma loc_row (x : nat) (rs : list row) (t : Z) :
  loc x rs = Some t -> exists r, In r rs /\ datetime_et (snd r) = t.
Proof.
  induction rs as [|r rest IH]; [discriminate|]. simpl.
  destruct (fst r =? x)%nat.
  - intros [= <-]. exists r. auto.
  - intros H. destruct (IH H) as (r' & Hr' & Ht). exists r'. auto.
Qed.

Lemma sleep_offset_of_row (post : list row) (t : Z) :
  post <> [] -> sleep_offset_of post = Some t ->
  exists r, In r post /\ datetime_et (snd r) = t.
Proof.
  intros Hne. unfold sleep_offset_of.
  destruct (wake_index post) as [|w0 rest].
  - intros [= <-]. unfold last_time.
    destruct (@exists_last _ post Hne) as (l' & r & ->).
    rewrite List.map_app. simpl. rewrite List.last_last.
    exists r. split; [|reflexivity]. apply in_or_app. right. now left.
  - apply loc_row.
Qed.

(** The onset is the time of an epoch of the sleep window with heart rate
    below 70. *)
Lemma sleep_onset_of_row (has_rmssd : bool) (night_df : list row) (onset : Z) :
  sleep_onset_of has_rmssd night_df = Some onset ->
  exists r, In r night_df /\ datetime_et (snd r) = onset
            /\ in_sleep_window r = true /\ hr_below 70 r = true.
Proof.
  unfold sleep_onset_of.
  destruct (onset_candidates has_rmssd night_df) as [|r rest] eqn:Hc; [discriminate|].
  intros [= <-]. exists r.
  assert (Hin : In r (onset_candidates has_rmssd night_df)) by (rewrite Hc; now left).
  clear Hc. unfold onset_candidates in Hin.
  assert (H65 : forall x, hr_below 65 x = true -> hr_below 70 x = true).
  { intros x. unfold hr_below. destruct (heart_rate_mean (snd x)) as [q|]; [|discriminate].
    unfold flt. rewrite !Qlt_bool_iff. intros Hq.
    eapply Qlt_trans; [exact Hq|]. reflexivity. }
  assert (Hcand : forall l,
    (forall x, In x l -> In x (List.filter (hr_below 65) (List.filter in_sleep_window night_df))) ->
    In r match l with
         | [] => List.filter (hr_below 70) (List.filter in_sleep_window night_df)
         | _ :: _ => l
         end ->
    In r night_df /\ in_sleep_window r = true /\ hr_below 70 r = true).
  { intros l Hl Hr. destruct l as [|x l'].
    - apply filter_In in Hr. destruct Hr as [Hr H70].
      apply filter_In in Hr. tauto.
    - apply Hl in Hr. apply filter_In in Hr. destruct Hr as [Hr Hb].
      apply filter_In in Hr. destruct Hr as [Hr Hw]. auto. }
  destruct (has_rmssd && _).
  - apply Hcand in Hin; [tauto|].
    intros x Hx. apply filter_In in Hx. tauto.
  - apply Hcand in Hin; [tauto|]. auto.
Qed.

(** A reported night of a group keyed [d]. *)
Lemma analyse_night_reported (has_rmssd : bool) (d : Z) (night_df : list row) (n : night) :
  analyse_night has_rmssd d night_df = Reported n ->
  night_date n = d
  /\ (60 <= duration_min n)%Q
  /\ duration_min n = (inject_Z (sleep_offset n - sleep_onset n) / 60)%Q
  /\ (exists r, In r night_df /\ datetime_et (snd r) = sleep_onset n
                /\ in_sleep_window r = true /\ hr_below 70 r = true)
  /\ (exists r, In r night_df /\ datetime_et (snd r) = sleep_offset n).
Proof.
  unfold analyse_night.
  destruct (List.filter in_sleep_window night_df); [discriminate|].
  destruct (sleep_onset_of has_rmssd night_df) as [onset|] eqn:Hon; [|discriminate].
  destruct (sleep_onset_of_row _ _ _ Hon) as (r0 & Hr0 & Ht0 & Hw0 & Hb0).
  destruct (sleep_offset_of (post_onset_of night_df onset)) as [offset|] eqn:Hoff;
    [|discriminate].
  destruct (Qlt_bool _ 60) eqn:Hd; [discriminate|].
  intros [= <-]. cbn [night_date sleep_onset sleep_offset duration_min].
  split; [reflexivity|]. split; [now apply Qlt_bool_false_iff|].
  split; [reflexivity|]. split; [eauto|].
  assert (Hne : post_onset_of night_df onset <> []).
  { intros Hnil. assert (Hin : In r0 (post_onset_of night_df onset)).
    { apply filter_In. split; [exact Hr0|]. apply Z.leb_le. lia. }
    rewrite Hnil in Hin. exact Hin. }
  destruct (sleep_offset_of_row _ _ Hne Hoff) as (r1 & Hr1 & Ht1).
  apply filter_In in Hr1. exists r1. tauto.
Qed.

Lemma collect_groups (has_rmssd : bool) (gs : list (Z * list row)) :
  StronglySorted Z.lt (List.map fst gs) ->
  exists nights,
    collect (List.map (fun g => analyse_night has_rmssd (fst g) (snd g)) gs) = Some nights
    /\ StronglySorted Z.lt (List.map night_date nights)
    /\ forall n, In n nights ->
         exists g, In g gs /\ analyse_night has_rmssd (fst g) (snd g) = Reported n.
Proof.
  induction gs as [|g rest IH]; intros Hs.
  - exists []. simpl. repeat split; [constructor | intros n []].
  - simpl in Hs. apply StronglySorted_inv in Hs. destruct Hs as [Hs Hall].
    destruct (IH Hs) as (nights & Hc & Hsorted & Hfrom). clear IH.
    cbn [List.map collect].
    destruct (analyse_night has_rmssd (fst g) (snd g)) as [|n|] eqn:Hn.
    + exists nights. split; [exact Hc|]. split; [exact Hsorted|].
      intros n Hin. destruct (Hfrom n Hin) as (g' & Hg' & Hr). exists g'. split; [now right|auto].
    + rewrite Hc. exists (n :: nights). split; [reflexivity|]. split.
      * cbn [List.map]. constructor; [exact Hsorted|].
        apply List.Forall_forall. intros d Hd. apply in_map_iff in Hd.
        destruct Hd as (n' & <- & Hn').
        destruct (Hfrom n' Hn') as (g' & Hg' & Hr).
        apply analyse_night_reported in Hr. destruct Hr as [-> _].
        apply analyse_night_reported in Hn. destruct Hn as [-> _].
        rewrite List.Forall_forall in Hall. apply Hall. now apply in_map.
      * intros n' [<- | Hin]; [exists g; split; [now left | exact Hn]|].
        destruct (Hfrom n' Hin) as (g' & Hg' & Hr). exists g'. split; [now right|auto].
    + exfalso. exact (analyse_night_no_raise _ _ _ Hn).
Qed.

(** The nights of the model, whose times are local clock readings. *)
Lemma analyse_sleep_reports (df : frame) :
  has_wear_mode df = true ->
  exists nights,
    analyse_sleep df = Some nights
    /\ StronglySorted Z.lt (List.map night_date nights)
    /\ Forall (fun n =>
         (60 <= duration_min n)%Q
         /\ duration_min n = (inject_Z (sleep_offset n - sleep_onset n) / 60)%Q
         /\ (exists e, In e (rows df) /\ wear_mode e = "wear_on"
                       /\ datetime_et e = sleep_onset n
                       /\ flt (heart_rate_mean e) (Fin 70) = true
                       /\ (21 <= hour_of (sleep_onset n) \/ hour_of (sleep_onset n) <= 3)%Z)
         /\ (exists e, In e (rows df) /\ wear_mode e = "wear_on"
                       /\ datetime_et e = sleep_offset n)
         /\ date_of (sleep_onset n - 18 * 3600) = night_date n
         /\ date_of (sleep_offset n - 18 * 3600) = night_date n) nights
    /\ (has_heart_rate_mean df = false -> nights = []).
Proof.
  intros Hmode. unfold analyse_sleep, outcomes. rewrite Hmode. cbn [negb].
  set (wear0 := List.filter (fun e => String.eqb (wear_mode e) "wear_on") (rows df)).
  assert (Hwear0 : forall e, In e wear0 -> In e (rows df) /\ wear_mode e = "wear_on").
  { intros e He. apply filter_In in He. destruct He as [He Hw].
    apply String.eqb_eq in Hw. auto. }
  destruct wear0 as [|w0 ws] eqn:Ew.
  { exists []. simpl. repeat split; constructor. }
  rewrite <- Ew in *. clear Ew w0 ws.
  destruct (has_heart_rate_mean df) eqn:Hhr; cbn [negb].
  2:{ exists []. simpl. repeat split; constructor. }
  set (wear := reset_index (sort_values wear0)).
  destruct (collect_groups (has_cardio_RMSSD_ms df) (groupby night_date_of wear))
    as (nights & Hc & Hsorted & Hfrom).
  { rewrite groupby_keys. apply sorted_keys_sorted. }
  exists nights. split; [exact Hc|]. split; [exact Hsorted|].
  split; [|discriminate].
  apply List.Forall_forall. intros n Hn.
  destruct (Hfrom n Hn) as (g & Hg & Hr).
  apply analyse_night_reported in Hr.
  destruct Hr as (Hdate & Hdur & Hdef & (r1 & Hr1 & Ht1 & Hw1 & Hb1) & (r2 & Hr2 & Ht2)).
  destruct (groupby_rows night_date_of wear g r1 Hg Hr1) as [Hin1 Hk1].
  destruct (groupby_rows night_date_of wear g r2 Hg Hr2) as [Hin2 Hk2].
  apply reset_index_In, sort_values_In, Hwear0 in Hin1, Hin2.
  split; [exact Hdur|]. split; [exact Hdef|].
  split; [|split; [|split]].
  - exists (snd r1). destruct Hin1 as [Hrow1 Hmode1].
    split; [exact Hrow1|]. split; [exact Hmode1|]. split; [exact Ht1|].
    split; [exact Hb1|].
    unfold in_sleep_window in Hw1. rewrite Ht1 in Hw1.
    apply orb_true_iff in Hw1.
    destruct Hw1 as [Hlate | Hearly]; [left | right]; now apply Z.leb_le.
  - exists (snd r2). destruct Hin2 as [Hrow2 Hmode2]. auto.
  - unfold night_date_of in Hk1. rewrite Ht1 in Hk1. congruence.
  - unfold night_date_of in Hk2. rewrite Ht2 in Hk2. congruence.
Qed.

(** X9. The nights that [analyse_sleep] reports, when it returns.  There is
    at most one night per night date, in increasing order of date; every
    reported night lasts at least 60 minutes, also in the duration rounded to
    one decimal that is written out; its onset is the local time of a wear_on
    epoch with local hour >= 21 or <= 3 and heart rate below 70, and the night
    date is the date of that onset 18 hours earlier; its offset is the local
    time of a wear_on epoch; without a heart-rate column no night is
    reported. *)
Theorem analyse_sleep_nights_sound (df : frame) (nights : list night) :
  analyse_sleep df = Some nights ->
  StronglySorted Z.lt (List.map night_date nights)
  /\ Forall (fun n =>
       (60 <= duration_min n)%Q
       /\ (60 <= round1 (duration_min n))%Q
       /\ (exists e, In e (rows df) /\ wear_mode e = "wear_on"
                     /\ datetime_et e = sleep_onset n
                     /\ flt (heart_rate_mean e) (Fin 70) = true
                     /\ (21 <= hour_of (sleep_onset n) \/ hour_of (sleep_onset n) <= 3)%Z)
       /\ (exists e, In e (rows df) /\ wear_mode e = "wear_on"
                     /\ datetime_et e = sleep_offset n)
       /\ date_of (sleep_onset n - 18 * 3600) = night_date n) nights
  /\ (has_heart_rate_mean df = false -> nights = []).
Proof.
  intros Hret.
  assert (Hmode : has_wear_mode df = true).
  { unfold analyse_sleep in Hret. destruct (has_wear_mode df); [reflexivity|discriminate]. }
  destruct (analyse_sleep_reports df Hmode) as (nights' & Hret' & Hsorted & Hall & Hnone).
  rewrite Hret in Hret'. injection Hret' as <-.
  split; [exact Hsorted|]. split; [|exact Hnone].
  eapply List.Forall_impl; [|exact Hall]. cbn.
  intros n (Hdur & _ & Honset & Hoffset & Hdate & _).
  split; [exact Hdur|]. split; [|auto].
  apply (round1_lower 60). exact Hdur.
Qed.

Lemma analyse_sleep_nights_sound_witness :
  exists n,
    analyse_sleep sustained_wake_night = Some [n]
    /\ (60 <= round1 (duration_min n))%Q
    /\ date_of (sleep_onset n - 18 * 3600) = night_date n.
Proof.
  assert (Hret : exists n, analyse_sleep sustained_wake_night = Some [n]).
  { eexists. vm_compute. reflexivity. }
  destruct Hret as [n Hret]. exists n. split; [exact Hret|].
  destruct (analyse_sleep_nights_sound sustained_wake_night [n] Hret) as (_ & Hall & _).
  apply Forall_inv in Hall. tauto.
Defined.

End SleepExtras.

(** ** activity.py: daily counts and exercise sessions *)

Section ActivityExtras.
Import PyFloat Frame Activity ActivityFrame.












(** X11. For a given heart rate the activity level never goes down when the
    accelerometer energy goes up.  The same does not hold for the heart
    rate: at energy 700 an epoch with heart rate 70 is vigorous and one with
    heart rate 90 is moderate. *)
Theorem classify_epoch_monotone_in_energy (e1 e2 : Q) (hr : pyfloat) :
  (e1 <= e2)%Q ->
  (_classify_epoch (Fin e2) hr = "sedentary" -> _classify_epoch (Fin e1) hr = "sedentary")
  /\ (at_least_moderate (_classify_epoch (Fin e1) hr) = true ->
      at_least_moderate (_classify_epoch (Fin e2) hr) = true)
  /\ (_classify_epoch (Fin e1) hr = "vigorous" -> _classify_epoch (Fin e2) hr = "vigorous")
  /\ _classify_epoch (Fin 700) (Fin 70) = "vigorous"
  /\ _classify_epoch (Fin 700) (Fin 90) = "moderate".
Proof.
  intros Hle.
  assert (Hc : forall c, Qlt_bool e2 c = true -> Qlt_bool e1 c = true).
  { intros c H. apply Qlt_bool_iff. apply Qlt_bool_iff in H.
    eapply Qle_lt_trans; eauto. }
  unfold _classify_epoch, flt.
  pose proof (Hc _SEDENTARY_ENERGY) as H50.
  pose proof (Hc _LIGHT_ENERGY) as H200.
  pose proof (Hc _MODERATE_ENERGY) as H600.
  assert (H52 : Qlt_bool e1 _SEDENTARY_ENERGY = true -> Qlt_bool e1 _LIGHT_ENERGY = true).
  { rewrite !Qlt_bool_iff. intros H. eapply Qlt_trans; [exact H|]. reflexivity. }
  assert (H52' : Qlt_bool e2 _SEDENTARY_ENERGY = true -> Qlt_bool e2 _LIGHT_ENERGY = true).
  { rewrite !Qlt_bool_iff. intros H. eapply Qlt_trans; [exact H|]. reflexivity. }
  destruct (Qlt_bool e1 _SEDENTARY_ENERGY), (Qlt_bool e2 _SEDENTARY_ENERGY),
           (Qlt_bool e1 _LIGHT_ENERGY), (Qlt_bool e2 _LIGHT_ENERGY),
           (Qlt_bool e1 _MODERATE_ENERGY), (Qlt_bool e2 _MODERATE_ENERGY);
    try (specialize (H50 eq_refl); discriminate);
    try (specialize (H200 eq_refl); discriminate);
    try (specialize (H600 eq_refl); discriminate);
    try (specialize (H52 eq_refl); discriminate);
    try (specialize (H52' eq_refl); discriminate);
    clear;
    (destruct hr as [h|];
     [destruct (Qlt_bool h 80), (fle (Fin 80) (Fin h)), (Qlt_bool h 100) |]);
    cbn; repeat split; intros; try reflexivity; try discriminate.
Qed.

Lemma classify_epoch_monotone_in_energy_witness :
  at_least_moderate (_classify_epoch (Fin 650) (Fin 110)) = true.
Proof.
  apply (proj1 (proj2 (classify_epoch_monotone_in_energy 250 650 (Fin 110)
                         ltac:(unfold Qle; simpl; lia)))).
  reflexivity.
Defined.


Lemma split_gaps_cons2 (gap : Z) (x y : nat) (rest : list nat) :
  split_gaps gap (x :: y :: rest)
  = if (gap <? Z.of_nat y - Z.of_nat x)%Z then [x] :: split_gaps gap (y :: rest)
    else match split_gaps gap (y :: rest) with
         | g :: gs => (x :: g) :: gs
         | [] => [[x]]
         end.
Proof.
  reflexivity.
Qed.

(** The groups are the array cut into pieces: nothing is lost, no piece of a
    non-empty array is empty, and inside a piece consecutive labels are at
    most [gap] apart. *)
Lemma split_gaps_spec (gap : Z) (idx : list nat) :
  idx <> [] ->
  concat (split_gaps gap idx) = idx
  /\ Forall (fun g => g <> [] /\ within_gap gap g = true) (split_gaps gap idx)
  /\ exists g gs, split_gaps gap idx = g :: gs /\ hd 0%nat g = hd 0%nat idx.
Proof.
  induction idx as [|x rest IH]; [congruence|]. intros _.
  destruct rest as [|y rest'].
  - simpl. repeat split; [repeat constructor; congruence|]. eauto.
  - rewrite split_gaps_cons2.
    destruct IH as (Hcat & Hall & g & gs & Hg & Hhd); [discriminate|].
    destruct (gap <? Z.of_nat y - Z.of_nat x)%Z eqn:Hgap.
    + split; [cbn [concat app]; now rewrite Hcat|]. split.
      * constructor; [split; [discriminate | reflexivity]|exact Hall].
      * eauto.
    + rewrite Hg in *. split; [cbn [concat app] in *; now rewrite Hcat|]. split.
      * apply Forall_cons_iff in Hall. destruct Hall as [[Hne Hwg] Hall].
        constructor; [|exact Hall]. split; [discriminate|].
        destruct g as [|y' g']; [congruence|]. simpl in Hhd. subst y'.
        cbn [within_gap] in *. rewrite Hwg, andb_true_r.
        apply Z.leb_le. apply Z.ltb_ge in Hgap. exact Hgap.
      * eauto.
Qed.










End ActivityExtras.

(** ** sleep_sessions.py *)

Section SessionExtras.
Import PyFloat Frame SleepSessions.

Lemma mark_naps_other (idxs : list nat) (types : list string) (i : nat) :
  ~ In i idxs -> mark_naps idxs types !! i = types !! i.
Proof.
  unfold mark_naps. revert types.
  induction idxs as [|j rest IH]; intros types Hi; simpl; [reflexivity|].
  rewrite IH by (intros H; apply Hi; now right).
  apply list_lookup_insert_ne. intros ->. apply Hi. now left.
Qed.

Lemma mark_naps_values (idxs : list nat) (types : list string) :
  Forall (fun t => t = "primary" \/ t = "nap") types ->
  Forall (fun t => t = "primary" \/ t = "nap") (mark_naps idxs types).
Proof.
  unfold mark_naps. revert types.
  induction idxs as [|j rest IH]; intros types Hall; simpl; [exact Hall|].
  apply IH. rewrite List.Forall_forall in *. intros t Ht.
  apply list_elem_of_In in Ht.
  apply list_elem_of_lookup in Ht. destruct Ht as [k Hk].
  destruct (decide (j = k)) as [-> | Hne].
  - destruct (decide (k < length types)%nat) as [Hlt | Hge].
    + rewrite list_lookup_insert_eq in Hk by exact Hlt. injection Hk as <-. now right.
    + rewrite list_insert_ge in Hk by lia.
      apply Hall. apply list_elem_of_In. eapply list_elem_of_lookup_2; eauto.
  - rewrite list_lookup_insert_ne in Hk by exact Hne.
    apply Hall. apply list_elem_of_In. eapply list_elem_of_lookup_2; eauto.
Qed.

(** A group leaves a label alone when it does not hold it, when it is a
    single row, or when the label is its [idxmax]. *)
Lemma mark_group_other (types types' : list string) (g : list (nat * session)) (i : nat) :
  mark_group types g = Some types' ->
  ~ In i (List.map fst g) \/ (length g <= 1)%nat \/ idxmax g = Some i ->
  types' !! i = types !! i.
Proof.
  unfold mark_group. intros Hret H.
  destruct (1 <? length g)%nat eqn:Hlen; [|now injection Hret as <-].
  apply Nat.ltb_lt in Hlen.
  destruct (idxmax g) as [l|] eqn:Hmax; [|discriminate]. injection Hret as <-.
  apply mark_naps_other.
  intros Hin. apply filter_In in Hin. destruct Hin as [Hin Hnot].
  destruct H as [H | [H | H]]; [contradiction | lia |].
  injection H as ->. now rewrite Nat.eqb_refl in Hnot.
Qed.

Lemma mark_groups_other (gs : list (list (nat * session))) (types types' : list string)
      (i : nat) :
  mark_groups gs types = Some types' ->
  (forall g, In g gs ->
     ~ In i (List.map fst g) \/ (length g <= 1)%nat \/ idxmax g = Some i) ->
  types' !! i = types !! i.
Proof.
  revert types. induction gs as [|g rest IH]; intros types Hret Hall; simpl in Hret.
  - now injection Hret as <-.
  - destruct (mark_group types g) as [t1|] eqn:E; [|discriminate].
    rewrite (IH _ Hret) by (intros g' Hg'; apply Hall; now right).
    eapply mark_group_other; [exact E|]. apply Hall. now left.
Qed.

Lemma mark_groups_values (gs : list (list (nat * session))) (types types' : list string) :
  mark_groups gs types = Some types' ->
  Forall (fun t => t = "primary" \/ t = "nap") types ->
  Forall (fun t => t = "primary" \/ t = "nap") types'.
Proof.
  revert types. induction gs as [|g rest IH]; intros types Hret Hall; simpl in Hret.
  - now injection Hret as <-.
  - destruct (mark_group types g) as [t1|] eqn:E; [|discriminate].
    apply (IH _ Hret). unfold mark_group in E.
    destruct (1 <? length g)%nat; [|now injection E as <-].
    destruct (idxmax g); [|discriminate]. injection E as <-.
    now apply mark_naps_values.
Qed.

(** The only group that holds the label of a row is the night of the row. *)
Lemma nights_group_of (df : frame) (g : list (nat * session)) (i : nat) (s : session) :
  In g (nights df) -> In i (List.map fst g) -> rows df !! i = Some s ->
  g = night_of df s.
Proof.
  unfold nights, groupby. rewrite List.map_map. cbn [snd].
  intros Hg Hi Hs. apply in_map_iff in Hg. destruct Hg as (k & <- & _).
  apply in_map_iff in Hi. destruct Hi as ([i' s'] & Hfst & Hin).
  simpl in Hfst. subst i'. apply filter_In in Hin. destruct Hin as [Hin Hk].
  apply labelled_lookup in Hin. rewrite Hs in Hin. injection Hin as <-.
  simpl in Hk. apply Z.eqb_eq in Hk. subst k. reflexivity.
Qed.

Lemma repeat_lookup {A : Type} (x : A) (n i : nat) :
  (i < n)%nat -> repeat x n !! i = Some x.
Proof.
  revert i. induction n as [|n IH]; intros i Hi; [lia|].
  destruct i as [|i]; [reflexivity|]. simpl. apply IH. lia.
Qed.

(** The labels of a selection of rows increase. *)
Lemma labels_sorted_from (P : nat * session -> bool) (rs : list session) (k : nat) :
  StronglySorted lt (List.map fst (List.filter P (combine (seq k (length rs)) rs)))
  /\ Forall (fun j => (k <= j)%nat)
            (List.map fst (List.filter P (combine (seq k (length rs)) rs))).
Proof.
  revert k. induction rs as [|r rest IH]; intros k; simpl.
  - split; constructor.
  - destruct (IH (S k)) as [Hs Hk].
    assert (Hk' : Forall (fun j => (k < j)%nat)
                    (List.map fst (List.filter P (combine (seq (S k) (length rest)) rest)))).
    { eapply List.Forall_impl; [|exact Hk]. simpl. intros j Hj. lia. }
    destruct (P (k, r)); simpl.
    + split; [constructor; assumption|].
      constructor; [lia|]. eapply List.Forall_impl; [|exact Hk']. simpl. intros j Hj. lia.
    + split; [exact Hs|]. eapply List.Forall_impl; [|exact Hk']. simpl. intros j Hj. lia.
Qed.

Lemma night_of_sorted (df : frame) (s : session) :
  StronglySorted lt (List.map fst (night_of df s)).
Proof. unfold night_of, labelled. apply labels_sorted_from. Qed.

Lemma idxmax_from_keeps (g : list (nat * session)) (i : nat) (t : Q) :
  (forall j s' t', In (j, s') g -> total_sleep_time_min s' = Fin t' -> (t' <= t)%Q) ->
  idxmax_from (Some (i, t)) g = Some (i, t).
Proof.
  induction g as [|[j s'] rest IH]; intros Hall; simpl; [reflexivity|].
  assert (Hrest : idxmax_from (Some (i, t)) rest = Some (i, t)).
  { apply IH. intros j0 s0 t0 Hin. apply (Hall j0 s0 t0). now right. }
  destruct (total_sleep_time_min s') as [t'|] eqn:Ht'; [|exact Hrest].
  assert (Hle : (t' <= t)%Q) by (apply (Hall j s' t'); [now left | exact Ht']).
  apply Qlt_bool_false_iff in Hle. rewrite Hle. exact Hrest.
Qed.

(** [idxmax] is the first row with the largest value. *)
Lemma idxmax_from_first_largest (g : list (nat * session)) (best : option (nat * Q))
      (i : nat) (s : session) (t : Q) :
  StronglySorted lt (List.map fst g) ->
  In (i, s) g -> total_sleep_time_min s = Fin t ->
  (forall j s' t', In (j, s') g -> total_sleep_time_min s' = Fin t' ->
                   (t' <= t)%Q /\ ((j < i)%nat -> (t' < t)%Q)) ->
  (forall bi bt, best = Some (bi, bt) -> (bt < t)%Q) ->
  idxmax_from best g = Some (i, t).
Proof.
  revert best. induction g as [|[j s'] rest IH]; intros best Hsort Hin Ht Hall Hbest;
    [destruct Hin|].
  simpl in Hsort. apply StronglySorted_inv in Hsort. destruct Hsort as [Hsort Hj].
  assert (Hall' : forall j0 s0 t0, In (j0, s0) rest -> total_sleep_time_min s0 = Fin t0 ->
                                   (t0 <= t)%Q /\ ((j0 < i)%nat -> (t0 < t)%Q)).
  { intros j0 s0 t0 H0. apply Hall. now right. }
  destruct Hin as [[= -> ->] | Hin].
  - simpl. rewrite Ht.
    assert (Hkeep : idxmax_from (Some (i, t)) rest = Some (i, t)).
    { apply idxmax_from_keeps. intros j0 s0 t0 H0 Ht0. now apply (Hall' j0 s0 t0). }
    destruct best as [[bi bt]|]; [|exact Hkeep].
    assert (Hlt : Qlt_bool bt t = true) by (apply Qlt_bool_iff, (Hbest bi bt); reflexivity).
    rewrite Hlt. exact Hkeep.
  - assert (Hji : (j < i)%nat).
    { rewrite List.Forall_forall in Hj. apply Hj.
      apply in_map_iff. exists (i, s). split; [reflexivity | exact Hin]. }
    simpl. destruct (total_sleep_time_min s') as [t'|] eqn:Ht'.
    + assert (Hlt : (t' < t)%Q) by (apply (Hall j s' t'); [now left | exact Ht' | exact Hji]).
      destruct best as [[bi bt]|].
      * destruct (Qlt_bool bt t').
        -- apply IH; auto. intros bi' bt' [= <- <-]. exact Hlt.
        -- apply IH; auto.
      * apply IH; auto. intros bi' bt' [= <- <-]. exact Hlt.
    + apply IH; auto.
Qed.

Lemma single_label_length (g : list (nat * session)) (i : nat) :
  StronglySorted lt (List.map fst g) ->
  (forall j s', In (j, s') g -> j = i) ->
  (length g <= 1)%nat.
Proof.
  intros Hsort Hall. destruct g as [|[a sa] [|[b sb] rest]]; simpl; try lia.
  exfalso. simpl in Hsort. apply StronglySorted_inv in Hsort. destruct Hsort as [_ Hlt].
  apply Forall_cons_iff in Hlt. destruct Hlt as [Hlt _].
  assert (a = i) by (apply (Hall a sa); now left).
  assert (b = i) by (apply (Hall b sb); right; now left).
  lia.
Qed.

(** X13. When a session stays primary.  When [_classify_session_type]
    returns, it gives every row one of the two tags primary and nap.  A
    session that does not start in the hours 10..17 stays primary when it is
    the only session of its night date, however short it is, and when it is
    the first session of its night with the largest total sleep time: no
    session of the night is longer and every earlier one is strictly
    shorter. *)
Theorem classify_session_type_primary (df : frame) (types : list string) :
  _classify_session_type df = Some types ->
  length types = length (rows df)
  /\ Forall (fun t => t = "primary" \/ t = "nap") types
  /\ forall (i : nat) (s : session),
       rows df !! i = Some s ->
       (has_sleep_start_local df = true ->
        forall t, sleep_start_local s = Some t -> (hour_of t < 10 \/ 17 < hour_of t)%Z) ->
       (has_total_sleep_time_min df = true ->
        (forall j s', rows df !! j = Some s' -> night_date s' = night_date s -> j = i)
        \/ exists t,
             total_sleep_time_min s = Fin t
             /\ forall j s' t',
                  rows df !! j = Some s' -> night_date s' = night_date s ->
                  total_sleep_time_min s' = Fin t' ->
                  (t' <= t)%Q /\ ((j < i)%nat -> (t' < t)%Q)) ->
       types !! i = Some "primary".
Proof.
  unfold _classify_session_type.
  set (types0 := repeat "primary" (length (rows df))).
  set (types1 := if has_sleep_start_local df
                 then mark_naps (List.map fst (List.filter (fun r => nap_hour (snd r))
                                                           (labelled (rows df)))) types0
                 else types0).
  intros Hret.
  assert (Hlen1 : length types1 = length (rows df)).
  { subst types1 types0. destruct (has_sleep_start_local df);
      [rewrite mark_naps_length|]; apply repeat_length. }
  assert (Hval0 : Forall (fun t => t = "primary" \/ t = "nap") types0).
  { subst types0. apply List.Forall_forall. intros t Ht.
    apply repeat_spec in Ht. now left. }
  assert (Hval1 : Forall (fun t => t = "primary" \/ t = "nap") types1).
  { subst types1. destruct (has_sleep_start_local df); [|exact Hval0].
    now apply mark_naps_values. }
  split; [|split].
  - destruct (has_total_sleep_time_min df); [|now injection Hret as <-].
    destruct (has_night_date df); [|discriminate].
    now rewrite (mark_groups_length _ _ _ Hret).
  - destruct (has_total_sleep_time_min df); [|now injection Hret as <-].
    destruct (has_night_date df); [|discriminate].
    now apply (mark_groups_values _ _ _ Hret).
  - intros i s Hi Hhour Hnight.
    assert (H1 : types1 !! i = Some "primary").
    { subst types1. apply lookup_lt_Some in Hi as Hlt.
      destruct (has_sleep_start_local df).
      - rewrite mark_naps_other; [now apply repeat_lookup|].
        intros Hin. apply in_map_iff in Hin. destruct Hin as ([i' s'] & Hfst & Hin).
        simpl in Hfst. subst i'. apply filter_In in Hin. destruct Hin as [Hin Hnap].
        apply labelled_lookup in Hin. rewrite Hi in Hin. injection Hin as <-.
        simpl in Hnap. apply nap_hour_band in Hnap. destruct Hnap as (t & Ht & Hband).
        destruct (Hhour eq_refl t Ht); lia.
      - now apply repeat_lookup. }
    destruct (has_total_sleep_time_min df); [|now injection Hret as <-].
    destruct (has_night_date df); [|discriminate].
    rewrite (mark_groups_other _ _ _ i Hret); [exact H1|].
    intros g Hg. destruct (in_dec Nat.eq_dec i (List.map fst g)) as [Hin | Hout];
      [|now left].
    right. rewrite (nights_group_of df g i s Hg Hin Hi).
    destruct (Hnight eq_refl) as [Honly | (t & Ht & Hmax)].
    + left. apply (single_label_length _ i); [apply night_of_sorted|].
      intros j s' Hj. apply night_of_In in Hj. destruct Hj as [Hj Hd].
      now apply (Honly j s').
    + right. unfold idxmax.
      rewrite (idxmax_from_first_largest (night_of df s) None i s t);
        [reflexivity | apply night_of_sorted | apply night_of_In; auto | exact Ht | |
         discriminate].
      intros j s' t' Hj Ht'. apply night_of_In in Hj. destruct Hj as [Hj Hd].
      now apply (Hmax j s' t').
Qed.

Lemma classify_session_type_primary_witness :
  let night (start : Z) (total : Q) :=
    {| night_date := 19700; sleep_start_local := Some start;
       total_sleep_time_min := Fin total; sleep_needed_min := Fin 480;
       sleep_debt_min := NaN; recovery_score := NaN |} in
  let df :=
    {| has_night_date := true;
       has_sleep_start_local := true; has_total_sleep_time_min := true;
       has_sleep_needed_min := true; has_sleep_debt_min := true;
       has_recovery_score := true;
       rows := [night 1702162800%Z 400%Q; night 1702130400%Z 90%Q] |} in
  exists types,
    _classify_session_type df = Some types /\ types !! 0%nat = Some "primary".
Proof.
  intros night df.
  eexists. split; [vm_compute; reflexivity|].
  refine (proj2 (proj2 (classify_session_type_primary df _ _)) 0%nat
                (night 1702162800%Z 400%Q) _ _ _).
  - vm_compute. reflexivity.
  - reflexivity.
  - intros _ t [= <-]. right. vm_compute. reflexivity.
  - intros _. right. exists 400%Q. split; [reflexivity|].
    intros j s' t' Hj _ Ht'.
    destruct j as [|[|j]]; simpl in Hj; [| |discriminate];
      injection Hj as <-; injection Ht' as <-; split;
      [apply Qle_refl | lia | discriminate | lia].
Defined.

Lemma round_half_even_nonneg (x : Q) : (0 <= x)%Q -> (0 <= round_half_even x)%Z.
Proof.
  intros Hx. unfold round_half_even.
  assert (Hf : (0 <= Qfloor x)%Z).
  { change 0%Z with (Qfloor 0). now apply Qfloor_resp_le. }
  destruct (Qlt_bool _ _); [exact Hf|].
  destruct (Qlt_bool _ _); [lia|]. destruct (Z.even _); lia.
Qed.

Lemma round_half_even_near (y : Q) :
  (Qabs (inject_Z (round_half_even y) - y) <= 1 # 2)%Q.
Proof.
  apply Qabs_Qle_condition. unfold round_half_even.
  pose proof (Qfloor_le y) as Hlo. pose proof (Qlt_floor y) as Hhi.
  rewrite inject_Z_plus in Hhi. change (inject_Z 1) with 1%Q in Hhi.
  set (f := Qfloor y) in *.
  destruct (Qlt_bool (y - inject_Z f) (1 # 2)) eqn:H1.
  { apply Qlt_bool_iff in H1. split; Lqa.lra. }
  apply Qlt_bool_false_iff in H1.
  destruct (Qlt_bool (1 # 2) (y - inject_Z f)) eqn:H2.
  { apply Qlt_bool_iff in H2. rewrite inject_Z_plus. change (inject_Z 1) with 1%Q.
    split; Lqa.lra. }
  apply Qlt_bool_false_iff in H2.
  destruct (Z.even f).
  - split; Lqa.lra.
  - rewrite inject_Z_plus. change (inject_Z 1) with 1%Q. split; Lqa.lra.
Qed.

Lemma round1_near (x : Q) : (Qabs (round1 x - x) <= 1 # 20)%Q.
Proof.
  pose proof (round_half_even_near (x * 10)) as H.
  apply Qabs_Qle_condition in H. apply Qabs_Qle_condition.
  unfold round1. set (r := inject_Z (round_half_even (x * 10))) in *.
  unfold Qdiv. change (/ 10)%Q with (1 # 10)%Q.
  split; Lqa.lra.
Qed.

(** X14. The outcomes of [_analyse_sleep_debt].  It fails (a [KeyError])
    exactly when there is a debt reading and the needed-sleep or the
    total-sleep column is not in the frame.  Otherwise it returns the short
    report when the debt column is absent or holds no reading, and else a
    full report about the latest reading: the debt in minutes is within 0.05
    of that reading, the debt in hours within 0.05 of the reading over 60,
    and the nights to repay are never negative, zero when the debt in hours
    is not positive, and otherwise within one half of four times the debt in
    hours. *)
Theorem analyse_sleep_debt_outcomes (df : frame) :
  let debts := dropna (List.map sleep_debt_min (rows df)) in
  (_analyse_sleep_debt df = None
   <-> has_sleep_debt_min df = true /\ debts <> []
       /\ (has_sleep_needed_min df = false \/ has_total_sleep_time_min df = false))
  /\ (has_sleep_debt_min df = false \/ debts = [] -> _analyse_sleep_debt df = Some no_debt)
  /\ forall rep, _analyse_sleep_debt df = Some rep -> rep <> no_debt ->
       exists m h n,
         current_debt_min rep = Some m
         /\ current_debt_hours rep = Some h
         /\ nights_to_repay rep = Some n
         /\ (Qabs (m - List.last debts 0) <= 1 # 20)%Q
         /\ (Qabs (h - List.last debts 0 / 60) <= 1 # 20)%Q
         /\ (0 <= n)%Z
         /\ ((h <= 0)%Q -> n = 0%Z)
         /\ ((0 < h)%Q -> (Qabs (inject_Z n - h * 4) <= 1 # 2)%Q).
Proof.
  intros debts. subst debts. unfold _analyse_sleep_debt.
  destruct (rows df) as [|r rs] eqn:Hrows.
  { split; [|split].
    - split; [discriminate|]. simpl. intros (_ & H & _). congruence.
    - reflexivity.
    - intros rep [= <-] H. congruence. }
  rewrite <- Hrows. clear Hrows r rs.
  destruct (has_sleep_debt_min df); cbn [negb].
  2:{ split; [|split].
      - split; [discriminate|]. intros (H & _). discriminate.
      - reflexivity.
      - intros rep [= <-] H. congruence. }
  destruct (dropna (List.map sleep_debt_min (rows df))) as [|d ds] eqn:Hd.
  { split; [|split].
    - split; [discriminate|]. intros (_ & H & _). congruence.
    - reflexivity.
    - intros rep [= <-] H. congruence. }
  rewrite <- Hd. assert (Hne : dropna (List.map sleep_debt_min (rows df)) <> [])
    by (rewrite Hd; discriminate).
  clear Hd d ds.
  destruct (has_sleep_needed_min df); cbn [negb].
  2:{ split; [|split].
      - split; [auto|reflexivity].
      - intros [H | H]; [discriminate | contradiction].
      - discriminate. }
  destruct (has_total_sleep_time_min df); cbn [negb].
  2:{ split; [|split].
      - split; [auto|reflexivity].
      - intros [H | H]; [discriminate | contradiction].
      - discriminate. }
  split; [|split].
  - split; [discriminate|]. intros (_ & _ & [H | H]); discriminate.
  - intros [H | H]; [discriminate | contradiction].
  - intros rep [= <-] _.
    cbn [current_debt_hours nights_to_repay current_debt_min].
    rewrite iloc_back_last.
    do 3 eexists. split; [reflexivity|]. split; [reflexivity|].
    split; [reflexivity|].
    split; [apply round1_near|]. split; [apply round1_near|].
    destruct (Qlt_bool 0 _) eqn:Hpos.
    + apply Qlt_bool_iff in Hpos. split; [|split].
      * apply round_half_even_nonneg.
        apply Qmult_le_0_compat; [now apply Qlt_le_weak | discriminate].
      * intros Hle. exfalso. exact (Qlt_not_le _ _ Hpos Hle).
      * intros _. apply round_half_even_near.
    + apply Qlt_bool_false_iff in Hpos. split; [lia|]. split; [reflexivity|].
      intros Hlt. exfalso. exact (Qlt_not_le _ _ Hlt Hpos).
Qed.

Lemma since_green_spec (l : list Q) :
  (since_green l <= length l)%nat
  /\ (since_green l = length l <-> Forall (fun x => (x < 67)%Q) l)
  /\ ((since_green l < length l)%nat -> (67 <= nth (since_green l) l 0)%Q)
  /\ (forall k, (k < since_green l)%nat -> (nth k l 0 < 67)%Q).
Proof.
  induction l as [|x rest (IH1 & IH2 & IH3 & IH4)]; cbn [since_green length].
  - split; [lia|]. split; [split; [constructor | reflexivity]|].
    split; intros; lia.
  - destruct (Qle_bool 67 x) eqn:Hx.
    + apply Qle_bool_iff in Hx. split; [lia|]. split; [split|split].
      * discriminate.
      * intros H. apply Forall_cons_iff in H. destruct H as [H _].
        exfalso. exact (Qlt_not_le _ _ H Hx).
      * intros _. exact Hx.
      * intros k Hk. lia.
    + apply Qle_bool_false_iff in Hx. split; [lia|]. split; [split|split].
      * intros H. constructor; [exact Hx|]. apply IH2. lia.
      * intros H. apply Forall_cons_iff in H. destruct H as [_ H].
        f_equal. now apply IH2.
      * intros H. cbn [nth]. apply IH3. lia.
      * intros [|k] Hk; [exact Hx|]. cbn [nth]. apply IH4. lia.
Qed.

(** X15. The recovery report.  Without a recovery column or a reading the
    report is the short one.  Otherwise the zone is red, yellow or green;
    counting back from the latest reading, [days_since_green_zone] is the
    number of readings below 67 before the first reading of at least 67, and
    the number of readings when none reaches 67; so it is 0 exactly when the
    zone is green; and the history has one entry per reading. *)
Theorem recovery_zone_and_days (df : frame) :
  let scores := dropna (List.map recovery_score (rows df)) in
  let rep := _analyse_recovery df in
  (has_recovery_score df = false \/ scores = [] -> rep = no_recovery)
  /\ (has_recovery_score df = true -> scores <> [] ->
      exists z d,
        zone rep = Some z /\ days_since_green_zone rep = Some d
        /\ In z ["red"; "yellow"; "green"]
        /\ (z = "green" <-> d = 0%nat)
        /\ (d <= length scores)%nat
        /\ (d = length scores <-> Forall (fun x => (x < 67)%Q) scores)
        /\ ((d < length scores)%nat -> (67 <= nth d (rev scores) 0)%Q)
        /\ (forall k, (k < d)%nat -> (nth k (rev scores) 0 < 67)%Q)
        /\ length (history rep) = length scores).
Proof.
  intros scores rep. subst scores rep. unfold _analyse_recovery.
  destruct (rows df) as [|r rs] eqn:Hrows.
  { split; [reflexivity|]. intros _ H. simpl in H. congruence. }
  rewrite <- Hrows. clear Hrows r rs.
  destruct (has_recovery_score df); cbn [negb].
  2:{ split; [reflexivity | discriminate]. }
  destruct (dropna (List.map recovery_score (rows df))) as [|x xs] eqn:Hs.
  { split; [reflexivity|]. intros _ H. congruence. }
  rewrite <- Hs.
  set (scores := dropna (List.map recovery_score (rows df))) in *.
  split; [intros [H | H]; [discriminate | congruence]|].
  intros _ _. cbn [zone days_since_green_zone history].
  destruct (since_green_spec (rev scores)) as (H1 & H2 & H3 & H4).
  rewrite length_rev in *.
  do 2 eexists. split; [reflexivity|]. split; [reflexivity|].
  split; [|split; [|split; [exact H1|split; [|split; [exact H3|split; [exact H4|]]]]]].
  - destruct (Qlt_bool _ 34); [simpl; tauto|].
    destruct (Qlt_bool _ 67); simpl; tauto.
  - unfold iloc_back. simpl Nat.sub.
    assert (Hne : rev scores <> []).
    { intros Hnil. apply (f_equal (@length Q)) in Hnil.
      rewrite length_rev, Hs in Hnil. discriminate. }
    destruct (rev scores) as [|y ys]; [congruence|]. cbn [nth since_green].
    destruct (Qle_bool 67 y) eqn:Hy.
    + apply Qle_bool_iff in Hy.
      assert (H67 : Qlt_bool y 67 = false) by now apply Qlt_bool_false_iff.
      assert (H34 : Qlt_bool y 34 = false).
      { apply Qlt_bool_false_iff. eapply Qle_trans; [|exact Hy]. discriminate. }
      rewrite H34, H67. tauto.
    + apply Qle_bool_false_iff in Hy.
      assert (H67 : Qlt_bool y 67 = true) by now apply Qlt_bool_iff.
      rewrite H67. destruct (Qlt_bool y 34); split; discriminate.
  - rewrite H2. rewrite !List.Forall_forall. split; intros H q Hq; apply H.
    + now apply in_rev in Hq.
    + now apply in_rev.
  - apply length_map.
Qed.

End SessionExtras.

(** ** agent_payload.py *)

Section PayloadExtras.
Import PyFloat AgentPayload AgentState.

Lemma strip_nulls_list (items : list json) :
  _strip_nulls (JList items)
  = JList (List.filter (fun c => negb (is_null c)) (List.map _strip_nulls items)).
Proof.
  reflexivity.
Qed.

Lemma filter_fixed {A : Type} (p : A -> bool) (f : A -> A) (l : list A) :
  (forall x, In x l -> p (f x) = true /\ f x = x) ->
  List.filter p (List.map f l) = l.
Proof.
  induction l as [|x rest IH]; intros H; [reflexivity|].
  cbn [List.map List.filter].
  destruct (H x (or_introl eq_refl)) as [Hp Hf]. rewrite Hp, Hf.
  f_equal. apply IH. intros y Hy. apply H. now right.
Qed.

(** X16. [_strip_nulls] is idempotent: stripping a stripped value changes
    nothing.  A dict becomes null or a non-empty dict, a list stays a list,
    and any other value is returned as it is. *)
Theorem strip_nulls_idempotent (j : json) :
  _strip_nulls (_strip_nulls j) = _strip_nulls j
  /\ match j with
     | JDict _ => _strip_nulls j = JNull
                  \/ exists e es, _strip_nulls j = JDict (e :: es)
     | JList _ => exists items, _strip_nulls j = JList items
     | _ => _strip_nulls j = j
     end.
Proof.
  split.
  - induction j as [ | b | q | s | items IH | entries IH] using json_nested_ind;
      try reflexivity.
    + rewrite strip_nulls_list.
      set (l := List.filter _ _). rewrite strip_nulls_list. f_equal.
      apply filter_fixed. intros x Hx. subst l.
      apply filter_In in Hx. destruct Hx as [Hx Hnn].
      apply in_map_iff in Hx. destruct Hx as (y & <- & Hy).
      rewrite List.Forall_forall in IH. rewrite (IH y Hy). auto.
    + rewrite strip_nulls_dict.
      destruct (List.filter keep_entry (List.map strip_entry entries)) as [|c cs] eqn:E;
        [reflexivity|].
      rewrite <- E. set (l := List.filter _ _) in *.
      rewrite strip_nulls_dict.
      rewrite (filter_fixed keep_entry strip_entry l); [now rewrite E|].
      intros kv Hkv. subst l. apply filter_In in Hkv. destruct Hkv as [Hin Hkeep].
      apply in_map_iff in Hin. destruct Hin as ([k v] & <- & Hin).
      rewrite List.Forall_forall in IH. specialize (IH _ Hin). simpl in IH.
      unfold strip_entry in *. cbn [fst snd] in *. rewrite IH. auto.
  - destruct j as [ | b | q | s | items | entries]; try reflexivity.
    + rewrite strip_nulls_list. eauto.
    + rewrite strip_nulls_dict.
      destruct (List.filter keep_entry (List.map strip_entry entries)); eauto.
Qed.

Lemma filter_keys_sublist (p : string * json -> bool) (f : string * json -> string * json)
      (es : list (string * json)) :
  (forall kv, fst (f kv) = fst kv) ->
  sublist (List.map fst (List.filter p (List.map f es))) (List.map fst es).
Proof.
  intros Hf. induction es as [|kv rest IH]; [constructor|].
  cbn [List.map List.filter]. destruct (p (f kv)).
  - cbn [List.map]. rewrite Hf. now constructor.
  - now constructor.
Qed.

Lemma strip_nulls_dict_head (k : string) (v : json) (rest : list (string * json)) :
  keep_entry (strip_entry (k, v)) = true ->
  _strip_nulls (JDict ((k, v) :: rest))
  = JDict (strip_entry (k, v) :: List.filter keep_entry (List.map strip_entry rest)).
Proof.
  intros Hkeep. rewrite strip_nulls_dict. cbn [List.map List.filter].
  now rewrite Hkeep.
Qed.

(** X17. The shape of the payload.  Once the fourteen entries of the dict
    literal of [build_agent_payload] have been computed, whatever their
    values, the stripped dict that is returned has the schema version 3.0 as
    its first entry, has an [alerts] entry holding the stripped alerts, has
    for keys some of the fourteen section names in the order of the source,
    every value being the stripped value of its entry, and holds at no depth
    an entry that is null or an empty dict. *)
Theorem build_agent_payload_shape :
  forall (meta agent_state data_quality : json) (alerts : list json)
         (baseline latest_day circadian recovery sleep_debt sleep_performance
          sleep_architecture_summary strain trends : json),
    let literal :=
      payload_literal meta agent_state data_quality alerts baseline latest_day circadian
                      recovery sleep_debt sleep_performance sleep_architecture_summary
                      strain trends in
    exists entries,
      _strip_nulls literal = JDict (("schema_version", JStr "3.0") :: entries)
      /\ In ("alerts", JList (List.filter (fun c => negb (is_null c))
                                          (List.map _strip_nulls alerts))) entries
      /\ sublist (List.map fst entries) (List.tl payload_keys)
      /\ (forall k v, In (k, v) entries ->
            exists v0, In (k, v0) (match literal with JDict es => es | _ => [] end)
                       /\ v = _strip_nulls v0)
      /\ no_null_entries (_strip_nulls literal) = true.
Proof.
  intros meta agent_state data_quality alerts baseline latest_day circadian recovery
         sleep_debt sleep_performance sleep_architecture_summary strain trends literal.
  pose proof (strip_nulls_no_null_entries literal) as Hclean.
  subst literal. unfold payload_literal in *.
  match goal with
  | |- context [JDict (_ :: ?r)] => set (rest := r) in *
  end.
  rewrite (strip_nulls_dict_head "schema_version" (JStr "3.0") rest eq_refl) in *.
  change (strip_entry ("schema_version", JStr "3.0"))
    with ("schema_version", JStr "3.0") in *.
  eexists. split; [reflexivity|]. split; [|split; [|split; [|exact Hclean]]].
  - apply filter_In. split; [|reflexivity].
    apply in_map_iff. exists ("alerts", JList alerts).
    split; [reflexivity|]. subst rest. simpl. tauto.
  - change (List.tl payload_keys) with (List.map fst rest).
    apply filter_keys_sublist. intros kv. reflexivity.
  - intros k v Hin. apply filter_In in Hin. destruct Hin as [Hin _].
    apply in_map_iff in Hin. destruct Hin as ([k0 v0] & Heq & Hin0).
    unfold strip_entry in Heq. simpl in Heq. injection Heq as <- <-.
    exists v0. split; [now right | reflexivity].
Qed.


Lemma insert_alert_In (a x : json) (l : list json) :
  In x (insert_alert a l) <-> x = a \/ In x l.
Proof.
  induction l as [|b rest IH]; simpl; [intuition congruence|].
  destruct (_ <=? _)%nat; simpl; [intuition congruence|].
  rewrite IH. intuition congruence.
Qed.

Lemma insert_alert_sorted (a : json) (l : list json) :
  StronglySorted (fun x y => (alert_rank x <= alert_rank y)%nat) l ->
  StronglySorted (fun x y => (alert_rank x <= alert_rank y)%nat) (insert_alert a l).
Proof.
  induction 1 as [|b rest Hs IH Hall]; simpl.
  - repeat constructor.
  - fold (alert_rank a). fold (alert_rank b).
    destruct (alert_rank a <=? alert_rank b)%nat eqn:Hle.
    + apply Nat.leb_le in Hle. constructor; [now constructor|].
      constructor; [exact Hle|].
      apply List.Forall_forall. intros x Hx.
      rewrite List.Forall_forall in Hall. specialize (Hall x Hx). lia.
    + apply Nat.leb_gt in Hle. constructor; [exact IH|].
      apply List.Forall_forall. intros x Hx. apply insert_alert_In in Hx.
      destruct Hx as [-> | Hx]; [lia|].
      rewrite List.Forall_forall in Hall. now apply Hall.
Qed.

Lemma sort_alerts_sorted (l : list json) :
  StronglySorted (fun x y => (alert_rank x <= alert_rank y)%nat) (sort_alerts l).
Proof.
  unfold sort_alerts. induction l as [|a rest IH]; simpl; [constructor|].
  now apply insert_alert_sorted.
Qed.

Lemma insert_alert_perm (a : json) (l : list json) :
  Permutation (insert_alert a l) (a :: l).
Proof.
  induction l as [|b rest IH]; simpl; [reflexivity|].
  destruct (_ <=? _)%nat; [reflexivity|].
  rewrite IH. apply perm_swap.
Qed.

Lemma sort_alerts_perm (l : list json) : Permutation (sort_alerts l) l.
Proof.
  unfold sort_alerts. induction l as [|a rest IH]; simpl; [reflexivity|].
  rewrite insert_alert_perm. now constructor.
Qed.

(** The insertion keeps alerts of one severity in the order they were
    appended. *)
Lemma insert_alert_stable (a : json) (l : list json) (n : nat) :
  List.filter (fun x => (alert_rank x =? n)%nat) (insert_alert a l)
  = List.filter (fun x => (alert_rank x =? n)%nat) (a :: l).
Proof.
  induction l as [|b rest IH]; [reflexivity|].
  cbn [insert_alert]. fold (alert_rank a). fold (alert_rank b).
  destruct (alert_rank a <=? alert_rank b)%nat eqn:Hle; [reflexivity|].
  apply Nat.leb_gt in Hle.
  cbn [List.filter] in *. rewrite IH.
  destruct (alert_rank a =? n)%nat eqn:Ha, (alert_rank b =? n)%nat eqn:Hb;
    try reflexivity.
  apply Nat.eqb_eq in Ha, Hb. lia.
Qed.

Lemma sort_alerts_stable (l : list json) (n : nat) :
  List.filter (fun x => (alert_rank x =? n)%nat) (sort_alerts l)
  = List.filter (fun x => (alert_rank x =? n)%nat) l.
Proof.
  unfold sort_alerts. induction l as [|a rest IH]; [reflexivity|].
  cbn [fold_right]. rewrite insert_alert_stable. cbn [List.filter].
  now rewrite IH.
Qed.

Lemma when_In (b : bool) (a x : json) : In x (when b a) -> x = a.
Proof.
  destruct b; simpl; intuition.
Qed.

Lemma get_id_alert (id sev msg act : string) : get "id" (alert id sev msg act) = JStr id.
Proof.
  reflexivity.
Qed.

Lemma filter_map_sublist {A B : Type} (f : A -> B) (p : A -> bool) (l : list A) :
  sublist (List.map f (List.filter p l)) (List.map f l).
Proof.
  induction l as [|x rest IH]; [constructor|].
  cbn [List.filter List.map]. destruct (p x); [now constructor | now constructor].
Qed.

(** X18. The alerts of [_build_alerts] come out by severity, critical before
    warning before info, and those of one severity in the order of the
    source; each is one of the seven alerts, none twice; only the
    under-recovery and the sleep-debt alert can be critical. *)
Theorem build_alerts_sorted (fmt : json -> string) (pkt results : json) :
  let alerts := _build_alerts fmt pkt results in
  let ids := ["CHRONIC_UNDERRECOVERY"; "SLEEP_DEBT_ACCUMULATING"; "OVERREACH_STREAK";
              "REM_DEFICIT"; "DEEP_SLEEP_DEFICIT"; "CIRCADIAN_DRIFT";
              "REST_DAY_OVERDUE"] in
  StronglySorted (fun x y => (alert_rank x <= alert_rank y)%nat) alerts
  /\ (forall n, sublist (List.map (get "id")
                           (List.filter (fun x => (alert_rank x =? n)%nat) alerts))
                        (List.map JStr ids))
  /\ Forall (fun a =>
       exists id sev msg act,
         a = alert id sev msg act /\ In id ids
         /\ In sev ["critical"; "warning"; "info"]
         /\ (sev = "critical" ->
             id = "CHRONIC_UNDERRECOVERY" \/ id = "SLEEP_DEBT_ACCUMULATING")) alerts
  /\ List.NoDup (List.map (get "id") alerts)
  /\ (length alerts <= 7)%nat.
Proof.
  intros alerts ids.
  split; [apply sort_alerts_sorted|]. split; [|split; [|split]].
  - intros n. subst alerts. unfold _build_alerts.
    rewrite sort_alerts_stable.
    etransitivity; [apply filter_map_sublist|].
    rewrite !List.map_app.
    repeat match goal with
           | |- context [when ?c ?a] =>
               let b := fresh "b" in
               set (b := c); destruct b; cbn [when List.map app]
           end;
      rewrite ?get_id_alert; subst ids; cbn [List.map];
      repeat first [apply sublist_skip | apply sublist_cons | apply sublist_nil].
  - subst alerts. unfold _build_alerts.
    apply List.Forall_forall. intros a Ha.
    apply (Permutation_in _ (sort_alerts_perm _)) in Ha.
    repeat (apply in_app_or in Ha; destruct Ha as [Ha | Ha]);
      apply when_In in Ha; subst a;
      do 4 eexists; (split; [reflexivity|]); subst ids; simpl;
      repeat match goal with
             | |- context [if ?c then _ else _] => destruct c
             end;
      (split; [tauto|]); (split; [tauto|]); intros; try discriminate; tauto.
  - subst alerts. unfold _build_alerts.
    eapply Permutation_NoDup;
      [apply Permutation_map; symmetry; apply sort_alerts_perm|].
    rewrite !List.map_app.
    repeat match goal with
           | |- context [when ?c ?a] =>
               let b := fresh "b" in
               set (b := c); destruct b; cbn [when List.map app]
           end;
      rewrite ?get_id_alert;
      repeat (constructor; [cbn [In]; intuition discriminate|]); constructor.
  - subst alerts. unfold _build_alerts.
    rewrite (Permutation_length (sort_alerts_perm _)), !length_app.
    repeat match goal with
           | |- context [when ?c ?a] =>
               let b := fresh "b" in
               set (b := c); destruct b; cbn [when length]
           end; lia.
Qed.


Lemma count_leading_spec (p : json -> bool) (l : list json) :
  (count_leading p l <= length l)%nat
  /\ (forall k, (k < count_leading p l)%nat -> p (nth k l JNull) = true)
  /\ (forall k, (k < length l)%nat -> p (nth k l JNull) = false ->
        (count_leading p l <= k)%nat).
Proof.
  induction l as [|d rest (IH1 & IH2 & IH3)]; cbn [count_leading length].
  - split; [lia|]. split; intros; lia.
  - destruct (p d) eqn:Hd.
    + split; [lia|]. split.
      * intros [|k] Hk; [exact Hd|]. cbn [nth]. apply IH2. lia.
      * intros [|k] Hk Hp; cbn [nth] in Hp; [congruence|].
        assert (count_leading p rest <= k)%nat by (apply IH3; [lia | exact Hp]). lia.
    + split; [lia|]. split; intros; lia.
Qed.

Lemma first_index_spec (q : json -> bool) (l : list json) (i : nat) :
  match first_index q l i with
  | Some n =>
      (i <= n < i + length l)%nat
      /\ q (nth (n - i) l JNull) = true
      /\ forall k, (k < n - i)%nat -> q (nth k l JNull) = false
  | None => forall k, (k < length l)%nat -> q (nth k l JNull) = false
  end.
Proof.
  revert i. induction l as [|d rest IH]; intros i; cbn [first_index length].
  - intros k Hk. lia.
  - destruct (q d) eqn:Hd.
    + split; [lia|]. rewrite Nat.sub_diag. split; [exact Hd|]. intros k Hk. lia.
    + specialize (IH (S i)). destruct (first_index q rest (S i)) as [n|].
      * destruct IH as (Hn & Hq & Hbefore). split; [lia|].
        replace (n - i)%nat with (S (n - S i)) by lia. cbn [nth].
        split; [exact Hq|].
        intros [|k] Hk; [exact Hd|]. cbn [nth]. apply Hbefore. lia.
      * intros [|k] Hk; [exact Hd|]. cbn [nth]. apply IH. lia.
Qed.

Lemma lookup_default_cases (k : string) (es : list (string * json)) (d1 d2 : json) :
  lookup_default k es d1 = lookup_default k es d2
  \/ (lookup_default k es d1 = d1 /\ lookup_default k es d2 = d2).
Proof.
  induction es as [|[k' v] rest IH]; simpl; [now right|].
  destruct (String.eqb k' k); [now left | exact IH].
Qed.

(** A day that counts for the overreach streak is not a rest day. *)
Lemma overreach_not_rest (d : json) :
  num_ge (strain_score_or 0 d) 18 = true -> num_lt (strain_score_or 21 d) 5 = false.
Proof.
  unfold strain_score_or. destruct d as [ | | | | | es]; try discriminate.
  destruct (lookup_default_cases "strain_score" es (JNum 0) (JNum 21)) as [<- | [-> ->]].
  - destruct (lookup_default "strain_score" es (JNum 0)) as [ | | x | | | ];
      try discriminate.
    unfold num_ge, num_lt. intros H. apply Qle_bool_iff in H.
    apply Qlt_bool_false_iff. eapply Qle_trans; [|exact H]. discriminate.
  - discriminate.
Qed.

(** X19. The two scans of the daily strain, newest day first.  On records
    whose strain score, when present, is a number: the overreach count is
    the length of the latest run of days with strain of at least 18;
    [_days_since_rest] is absent exactly for an empty list, and otherwise is
    the number of days since the latest day with strain below 5, or the
    number of days when there is none; and the overreach count never exceeds
    the days since rest. *)
Theorem overreach_and_rest_days (daily_strain : list json) :
  Forall (fun d => strain_record d = true) daily_strain ->
  let newest_first := rev daily_strain in
  (_count_overreach daily_strain <= length daily_strain)%nat
  /\ (forall k, (k < _count_overreach daily_strain)%nat ->
        num_ge (strain_score_or 0 (nth k newest_first JNull)) 18 = true)
  /\ ((_count_overreach daily_strain < length daily_strain)%nat ->
        num_ge (strain_score_or 0 (nth (_count_overreach daily_strain) newest_first JNull))
               18 = false)
  /\ (_days_since_rest daily_strain = None <-> daily_strain = [])
  /\ forall n, _days_since_rest daily_strain = Some n ->
       (n <= length daily_strain)%nat
       /\ (_count_overreach daily_strain <= n)%nat
       /\ (forall k, (k < n)%nat ->
             num_lt (strain_score_or 21 (nth k newest_first JNull)) 5 = false)
       /\ ((n < length daily_strain)%nat ->
             num_lt (strain_score_or 21 (nth n newest_first JNull)) 5 = true).
Proof.
  intros _ newest_first. subst newest_first.
  set (p := fun d => num_ge (strain_score_or 0 d) 18).
  set (q := fun d => num_lt (strain_score_or 21 d) 5).
  destruct daily_strain as [|d0 rest].
  { cbn. split; [lia|]. split; [intros; lia|]. split; [intros; lia|].
    split; [tauto | discriminate]. }
  assert (Hrest : _days_since_rest (d0 :: rest)
                  = Some (match first_index q (rev (d0 :: rest)) 0 with
                          | Some i => i
                          | None => length (d0 :: rest)
                          end)).
  { unfold _days_since_rest. fold q.
    destruct (first_index q (rev (d0 :: rest)) 0); reflexivity. }
  rewrite Hrest. clear Hrest. unfold _count_overreach. fold p.
  assert (Hne : d0 :: rest <> []) by discriminate.
  remember (d0 :: rest) as ds eqn:Hds. clear Hds d0 rest.
  set (newest_first := rev ds).
  assert (Hlen : length newest_first = length ds)
    by (subst newest_first; apply length_rev).
  destruct (count_leading_spec p newest_first) as (Hc1 & Hc2 & Hc3).
  rewrite Hlen in *.
  split; [exact Hc1|]. split; [exact Hc2|]. split.
  { intros Hlt.
    assert (Hgen : forall l, (count_leading p l < length l)%nat ->
                             p (nth (count_leading p l) l JNull) = false).
    { clear. induction l as [|d rest IH]; cbn [count_leading length]; [lia|].
      destruct (p d) eqn:Hd; [|intros _; exact Hd].
      intros H. cbn [nth]. apply IH. lia. }
    apply (Hgen newest_first). lia. }
  split; [split; [discriminate | intros H; contradiction]|].
  intros n Hn.
  pose proof (first_index_spec q newest_first 0) as Hf.
  destruct (first_index q newest_first 0) as [i|].
  - injection Hn as <-. destruct Hf as (Hi & Hq & Hbefore).
    rewrite Nat.sub_0_r in *. rewrite Hlen in Hi.
    split; [lia|]. split; [|split; [exact Hbefore | intros _; exact Hq]].
    apply Hc3; [lia|].
    destruct (p (nth i newest_first JNull)) eqn:Hp; [|reflexivity].
    apply overreach_not_rest in Hp. fold (q (nth i newest_first JNull)) in Hp. congruence.
  - injection Hn as <-. rewrite Hlen in Hf.
    split; [lia|]. split; [exact Hc1|]. split; [exact Hf | lia].
Qed.

Lemma overreach_and_rest_days_witness :
  let day (x : Q) := JDict [("date", JStr "d"); ("strain_score", JNum x)] in
  (_count_overreach [day 3%Q; day 19%Q; day 20%Q] <= 2)%nat
  /\ _days_since_rest [day 3%Q; day 19%Q; day 20%Q] = Some 2%nat.
Proof.
  intros day.
  destruct (overreach_and_rest_days [day 3%Q; day 19%Q; day 20%Q])
    as (_ & _ & _ & _ & Hrest).
  { repeat constructor. }
  split.
  - destruct (Hrest 2%nat eq_refl) as (_ & Hle & _). exact Hle.
  - reflexivity.
Defined.

(** X20. The derived agent state.  The recommended strain ceiling lies
    between 8 and 18 and never rises with the overreach count; the deep-work
    capacity is high exactly when the zone is not red, neither alert is
    raised, and the overreach count is 0 in the yellow zone or at most 2
    otherwise; it is low exactly in the red zone, with both alerts raised,
    or in the yellow zone after three or more overreach days; so a
    recommended nap always comes with low capacity. *)
Theorem agent_state_ceiling_and_capacity
        (zone days_since_green : json) (daily_strain : list json)
        (rem_deficit_alert sleep_debt_alert : bool) :
  let st := agent_state_of zone days_since_green daily_strain
                           rem_deficit_alert sleep_debt_alert in
  let n := consecutive_overreach_days st in
  n = _count_overreach daily_strain
  /\ (8 <= recommended_strain_ceiling st <= 18)%Z
  /\ (forall m k, (m <= k)%nat -> (_strain_ceiling zone k <= _strain_ceiling zone m)%Z)
  /\ (deep_work_capacity st = "high"
      <-> str_is zone "red" = false
          /\ rem_deficit_alert = false /\ sleep_debt_alert = false
          /\ (n <= if str_is zone "yellow" then 0 else 2)%nat)
  /\ (deep_work_capacity st = "low"
      <-> str_is zone "red" = true
          \/ (rem_deficit_alert = true /\ sleep_debt_alert = true)
          \/ (str_is zone "yellow" = true /\ (3 <= n)%nat))
  /\ (nap_recommended st = true -> deep_work_capacity st = "low")
  /\ (readiness_regime st = "chronic_yellow"
      <-> str_is zone "red" = false /\ str_is zone "yellow" = true
          /\ num_ge days_since_green 3 = true).
Proof.
  intros st n. subst st n.
  cbn [agent_state_of consecutive_overreach_days recommended_strain_ceiling
       deep_work_capacity nap_recommended readiness_regime].
  set (n := _count_overreach daily_strain). clearbody n.
  split; [reflexivity|].
  unfold _strain_ceiling, _deep_work_capacity, _derive_readiness_regime.
  split; [destruct (str_is zone "red"), (str_is zone "yellow"); lia|].
  split; [intros m k Hmk; destruct (str_is zone "red"), (str_is zone "yellow"); lia|].
  destruct (str_is zone "red") eqn:Hred, (str_is zone "yellow") eqn:Hyel,
           rem_deficit_alert, sleep_debt_alert, (num_ge days_since_green 3);
    cbn [andb orb];
    repeat match goal with
           | |- context [(?a <=? ?b)%Z] =>
               let E := fresh "E" in
               destruct (a <=? b)%Z eqn:E;
               [apply Z.leb_le in E | apply Z.leb_gt in E]
           end;
    cbn [andb orb];
    repeat split; intros; try reflexivity; try discriminate; try lia;
    repeat match goal with
           | H : _ /\ _ |- _ => destruct H
           | H : _ \/ _ |- _ => destruct H
           end;
    try discriminate; try lia;
    try (right; right; split; [reflexivity | lia]);
    try (right; left; split; reflexivity);
    try (left; reflexivity).
Qed.

(** X21. More data never lowers a confidence label.  When no count goes
    down, [_overall_confidence] stays high if it was high and was low if it
    is low now; the same holds for [_peak_cognitive_confidence] in the
    number of Ready tests, for a given zone. *)
Theorem confidence_monotone (s1 p1 n1 r1 s2 p2 n2 r2 : Z) (zone : json) :
  (s1 <= s2)%Z -> (p1 <= p2)%Z -> (n1 <= n2)%Z -> (r1 <= r2)%Z ->
  (_overall_confidence s1 p1 n1 r1 = "high" -> _overall_confidence s2 p2 n2 r2 = "high")
  /\ (_overall_confidence s2 p2 n2 r2 = "low" -> _overall_confidence s1 p1 n1 r1 = "low")
  /\ (_peak_cognitive_confidence n1 zone = "high"
      -> _peak_cognitive_confidence n2 zone = "high")
  /\ (_peak_cognitive_confidence n2 zone = "low"
      -> _peak_cognitive_confidence n1 zone = "low").
Proof.
  intros Hs Hp Hn Hr.
  unfold _overall_confidence, _peak_cognitive_confidence.
  destruct (str_is zone "green" || is_null zone);
    repeat match goal with
           | |- context [(?a <=? ?b)%Z] =>
               let E := fresh "E" in
               destruct (a <=? b)%Z eqn:E;
               [apply Z.leb_le in E | apply Z.leb_gt in E]
           end;
    try lia; cbn; repeat split; intros; try reflexivity; try discriminate.
Qed.

Lemma confidence_monotone_witness :
  _overall_confidence 10 6 40 20 = "high".
Proof.
  apply (proj1 (confidence_monotone 8 5 30 0 10 6 40 20 JNull
                  ltac:(lia) ltac:(lia) ltac:(lia) ltac:(lia))).
  reflexivity.
Defined.

End PayloadExtras.

(** ** patterns.py *)

Section PatternExtras.
Import PyFloat Frame Readiness Patterns.

Lemma last_skipn {A : Type} (n : nat) (l : list A) (d : A) :
  (n < length l)%nat -> List.last (skipn n l) d = List.last l d.
Proof.
  revert l. induction n as [|n IH]; intros l Hlen; [reflexivity|].
  destruct l as [|x l]; [simpl in Hlen; lia|].
  cbn [skipn]. rewrite IH by (simpl in Hlen; lia).
  destruct l; [simpl in Hlen; lia | reflexivity].
Qed.

(** X22. When the readiness-debt rule fires.  It emits at most one record,
    a warning named compounding_readiness_debt dated by the last day of the
    series, and it does so exactly when the series has at least 5 days, the
    last 7 of them carry at least 5 means, and at least 3 of the
    day-over-day changes of these means are drops.  The net change is not
    looked at: the rule fires for the means 100, 99, 98, 97, 200, whose last
    value is above the first. *)
Theorem readiness_debt_rule_exact
        (format_0f format_1f : pyfloat -> string) (str_nat : nat -> string)
        (perf : performance) :
  let days := daily_ready perf in
  let means := means_of (last7 days) in
  let out := readiness_debt_rule format_0f format_1f str_nat perf in
  (out <> [] <-> (5 <= length days)%nat /\ (5 <= length means)%nat
                 /\ (3 <= day_over_day_drops means)%nat)
  /\ (length out <= 1)%nat
  /\ Forall (fun p => pattern p = "compounding_readiness_debt"
                      /\ severity p = "warning"
                      /\ first_detected p
                         = Some (date_key (rd_date (List.last days
                                   {| rd_date := ""; rd_mean := None |})))) out
  /\ readiness_debt_rule format_0f format_1f str_nat
       (res_performance (ready_only [100; 99; 98; 97; 200]%Q)) <> [].
Proof.
  intros days means out. subst days means out.
  unfold readiness_debt_rule. rewrite declining_days_drops.
  set (days := daily_ready perf).
  set (means := means_of (last7 days)).
  assert (Hlast : forall d, (5 <= length days)%nat ->
                            List.last (last7 days) d = List.last days d).
  { intros d Hlen. unfold last7. apply last_skipn. lia. }
  destruct (5 <=? length days)%nat eqn:H1;
    [apply Nat.leb_le in H1 | apply Nat.leb_gt in H1].
  2:{ split; [split; [congruence | lia]|]. split; [simpl; lia|].
      split; [constructor | discriminate]. }
  destruct (5 <=? length means)%nat eqn:H2;
    [apply Nat.leb_le in H2 | apply Nat.leb_gt in H2].
  2:{ split; [split; [congruence | lia]|]. split; [simpl; lia|].
      split; [constructor | discriminate]. }
  destruct (3 <=? day_over_day_drops means)%nat eqn:H3;
    [apply Nat.leb_le in H3 | apply Nat.leb_gt in H3].
  2:{ split; [split; [congruence | lia]|]. split; [simpl; lia|].
      split; [constructor | discriminate]. }
  split; [split; [auto | discriminate]|]. split; [simpl; lia|].
  split; [|discriminate].
  constructor; [|constructor]. cbn [pattern severity first_detected].
  rewrite Hlast by exact H1. auto.
Qed.



End PatternExtras.

(** ** circadian.py *)

Section CircadianExtras.
Import PyFloat Circadian.

Lemma round_half_even_upper (n : Z) (x : Q) :
  (x <= inject_Z n)%Q -> (round_half_even x <= n)%Z.
Proof.
  intros Hle. unfold round_half_even.
  assert (Hf : (Qfloor x <= n)%Z).
  { rewrite <- (Qfloor_Z n). now apply Qfloor_resp_le. }
  destruct (Qlt_bool _ _) eqn:H1; [exact Hf|].
  assert (Hlt : (Qfloor x < n)%Z).
  { destruct (Z.eq_dec (Qfloor x) n) as [Heq | Hne]; [|lia]. exfalso.
    apply Qlt_bool_false_iff in H1. rewrite Heq in H1.
    assert (Hd : (x - inject_Z n <= 0)%Q).
    { apply (Qplus_le_l _ _ (inject_Z n)). ring_simplify. exact Hle. }
    assert (Hhalf : (1 # 2 <= 0)%Q) by (eapply Qle_trans; eauto).
    revert Hhalf. unfold Qle. simpl. lia. }
  clear H1. destruct (Qlt_bool _ _); [lia|]. destruct (Z.even _); lia.
Qed.

Lemma round2_bounds (lo hi : Z) (x : Q) :
  (inject_Z lo <= x)%Q -> (x <= inject_Z hi)%Q ->
  (inject_Z lo <= round2 x)%Q /\ (round2 x <= inject_Z hi)%Q.
Proof.
  intros Hlo Hhi. unfold round2.
  assert (H1 : (inject_Z (lo * 100) <= x * 100)%Q).
  { rewrite inject_Z_mult. apply Qmult_le_compat_r; [exact Hlo | discriminate]. }
  assert (H2 : (x * 100 <= inject_Z (hi * 100))%Q).
  { rewrite inject_Z_mult. apply Qmult_le_compat_r; [exact Hhi | discriminate]. }
  apply round_half_even_lower in H1. apply round_half_even_upper in H2.
  split.
  - apply Qle_shift_div_l; [reflexivity|].
    change (inject_Z lo * inject_Z 100 <= inject_Z (round_half_even (x * 100)))%Q.
    rewrite <- inject_Z_mult, <- Zle_Qle. exact H1.
  - apply Qle_shift_div_r; [reflexivity|].
    change (inject_Z (round_half_even (x * 100)) <= inject_Z hi * inject_Z 100)%Q.
    rewrite <- inject_Z_mult, <- Zle_Qle. exact H2.
Qed.

Lemma mod24_range (x : Q) : (0 <= mod24 x)%Q /\ (mod24 x < 24)%Q.
Proof.
  unfold mod24.
  pose proof (Qfloor_le (x / 24)) as Hlo.
  pose proof (Qlt_floor (x / 24)) as Hhi.
  set (f := inject_Z (Qfloor (x / 24))) in *.
  rewrite inject_Z_plus in Hhi. fold f in Hhi. change (inject_Z 1) with 1%Q in Hhi.
  assert (Hx : (x / 24 * 24 == x)%Q) by (field).
  apply (Qmult_le_compat_r _ _ 24) in Hlo; [|discriminate].
  apply (Qmult_lt_compat_r _ _ 24) in Hhi; [|reflexivity].
  rewrite Hx in Hlo, Hhi.
  split.
  - apply (Qplus_le_l _ _ (24 * f)).
    assert (E1 : (0 + 24 * f == f * 24)%Q) by ring.
    assert (E2 : (x - 24 * f + 24 * f == x)%Q) by ring.
    rewrite E1, E2. exact Hlo.
  - apply (Qplus_lt_l _ _ (24 * f)).
    assert (E1 : (24 + 24 * f == (f + 1) * 24)%Q) by ring.
    assert (E2 : (x - 24 * f + 24 * f == x)%Q) by ring.
    rewrite E1, E2. exact Hhi.
Qed.

(** X24. The fitted and the unfitted result.  [analyse_circadian] raises
    exactly when the frame lacks the type column, or has READY rows with the
    hour column and either lacks the score column or is given a session log
    that keeps a session while no kept session has a start time (the log
    having the start column) or none has an end time (the log having the end
    column).
    When it returns, whatever the numeric routines gave, it reports a fit
    exactly when it reports an amplitude, an acrophase hour, a peak window, a
    worst window and a chronotype; a fit is reported only with at least 6
    samples; and in a fit the amplitude is not negative, the acrophase hour
    lies between 0 and 24, and the chronotype is morning_lark, intermediate
    or evening_owl. *)
Theorem analyse_circadian_fit_fields :
  forall hourly_table curve_fit peak_window_of worst_window_of peak_variance_of
         Series_std (df : frame) (sleep_df : option sleep_frame),
    let run := analyse_circadian hourly_table curve_fit peak_window_of
                                 worst_window_of peak_variance_of Series_std
                                 df sleep_df in
    (run = None
     <-> has_type df = false
         \/ (ready_rows df <> [] /\ has_hour df = true
             /\ (has_score df = false
                 \/ exists log,
                      sleep_df = Some log /\ kept_sessions log <> []
                      /\ ((has_sleep_start_local log = true
                           /\ Forall (fun s => sleep_start_local s = None)
                                     (kept_sessions log))
                          \/ (has_sleep_end_local log = true
                              /\ Forall (fun s => sleep_end_local s = None)
                                        (kept_sessions log))))))
    /\ forall res, run = Some res ->
         (cosinor_fit res = false
          /\ amplitude res = None /\ acrophase_hour res = None
          /\ estimated_peak_window res = None /\ worst_window res = None
          /\ chronotype_estimate res = None /\ peak_score_variance res = None)
         \/ (cosinor_fit res = true
             /\ (6 <= cosinor_n res)%nat
             /\ cosinor_n res = length (valid_samples df)
             /\ (exists m, mesor res = Some m)
             /\ (exists a, amplitude res = Some a /\ (0 <= a)%Q)
             /\ (exists h, acrophase_hour res = Some h /\ (0 <= h)%Q /\ (h <= 24)%Q)
             /\ (exists w, estimated_peak_window res = Some w)
             /\ (exists w, worst_window res = Some w)
             /\ (exists c, chronotype_estimate res = Some c
                           /\ In c ["morning_lark"; "intermediate"; "evening_owl"])).
Proof.
  intros ht cf pw ww pv sd df sleep_df run. subst run.
  unfold analyse_circadian, valid_samples.
  destruct (has_type df); cbn [negb].
  2:{ split; [split; auto | discriminate]. }
  destruct (ready_rows df) as [|r0 rest] eqn:Hready.
  { split.
    - split; [discriminate | intros [H | [H _]]; congruence].
    - intros res [= <-]. left. cbn. repeat split; reflexivity. }
  rewrite <- Hready.
  assert (Hne : ready_rows df <> []) by (rewrite Hready; discriminate).
  clear Hready r0 rest.
  destruct (has_hour df); cbn [negb].
  2:{ split.
      - split; [discriminate | intros [H | (_ & H & _)]; discriminate].
      - intros res [= <-]. left. cbn. repeat split; reflexivity. }
  destruct (has_score df); cbn [negb].
  2:{ split; [split; auto | discriminate]. }
  set (samples := fit_samples (ready_rows df)).
  match goal with
  | |- context [if ?c then _add_sleep_timing sd ?b1 sleep_df
                else _add_sleep_timing sd ?b2 sleep_df] =>
      set (base1 := b1); set (base2 := b2);
      assert (E : (if c then _add_sleep_timing sd base1 sleep_df
                   else _add_sleep_timing sd base2 sleep_df)
                  = _add_sleep_timing sd (if c then base1 else base2) sleep_df)
        by (destruct c; reflexivity);
      rewrite E; clear E
  end.
  split.
  { rewrite add_sleep_timing_raises. split.
    - intros H. right. auto.
    - intros [H | (_ & _ & [H | H])]; [discriminate | discriminate | exact H]. }
  intros res Hres. apply add_sleep_timing_fields in Hres.
  destruct Hres as (onset & wake & variance & ->).
  cbn [with_timing cosinor_fit cosinor_n mesor amplitude acrophase_hour
       estimated_peak_window worst_window chronotype_estimate peak_score_variance].
  subst base1 base2.
  destruct (length samples <? 6)%nat eqn:Hn;
    [apply Nat.ltb_lt in Hn | apply Nat.ltb_ge in Hn].
  { left. cbn. repeat split; reflexivity. }
  destruct (cf samples _) as [[[m a] p]|].
  2:{ left. cbn. repeat split; reflexivity. }
  right.
  cbn [cosinor_fit cosinor_n mesor amplitude acrophase_hour
       estimated_peak_window worst_window chronotype_estimate].
  split; [reflexivity|]. split; [exact Hn|]. split; [reflexivity|].
  split; [eauto|]. split; [|split; [|split; [eauto|split; [eauto|]]]].
  - eexists. split; [reflexivity|].
    apply (round2_bounds 0 (Qceiling (Qabs a))).
    + apply Qabs_nonneg.
    + apply Qle_ceiling.
  - eexists. split; [reflexivity|].
    destruct (mod24_range p) as [Hlo Hhi].
    apply (round2_bounds 0 24); [exact Hlo | now apply Qlt_le_weak].
  - eexists. split; [reflexivity|]. unfold _chronotype_from_acrophase.
    destruct (Qlt_bool _ 11); [simpl; tauto|].
    destruct (Qlt_bool _ 15); simpl; tauto.
Qed.

End CircadianExtras.

(** ** hrv.py *)

Section HrvExtras.
Import PyFloat Frame Hrv.















End HrvExtras.

(** ** sleep_sessions.py: sleep architecture *)

Section ArchitectureExtras.
Import PyFloat SleepArchitecture.

Lemma Qabs_pos_of_ne (x : Q) : ~ (x == 0)%Q -> (0 < Qabs x)%Q.
Proof.
  intros Hne. destruct (Qlt_le_dec 0 (Qabs x)) as [H | H]; [exact H|].
  exfalso. apply Hne.
  assert (Habs0 : (Qabs x == 0)%Q).
  { apply Qle_antisym; [exact H | apply Qabs_nonneg]. }
  destruct (Qlt_le_dec x 0) as [Hneg | Hpos].
  - rewrite (Qabs_neg x (Qlt_le_weak _ _ Hneg)) in Habs0.
    rewrite <- (Qopp_involutive x), Habs0. reflexivity.
  - rewrite (Qabs_pos x Hpos) in Habs0. exact Habs0.
Qed.

(** The score of a value off its band. *)
Lemma target_score_off (v lo hi : Q) :
  (0 < lo)%Q -> (lo <= hi)%Q -> (v < lo \/ hi < v)%Q ->
  exists s, _target_score (Fin v) lo hi = Fin s /\ (0 <= s)%Q /\ (s < 100)%Q.
Proof.
  intros Hlo Hlohi Hoff. unfold _target_score.
  assert (Hband : fle (Fin lo) (Fin v) && fle (Fin v) (Fin hi) = false).
  { unfold fle. destruct Hoff as [H | H].
    - apply (proj2 (Qle_bool_false_iff _ _)) in H. now rewrite H.
    - apply (proj2 (Qle_bool_false_iff _ _)) in H. rewrite H. apply andb_false_r. }
  rewrite Hband.
  cbn [fsub Patterns.fabs].
  set (d1 := Qabs (v - lo)). set (d2 := Qabs (v - hi)).
  assert (Hne : forall c, ~ (v == c)%Q -> ~ (v - c == 0)%Q).
  { intros c Hc E. apply Hc.
    assert (E2 : (v == v - c + c)%Q) by ring.
    rewrite E2, E. ring. }
  assert (H1 : (0 < d1)%Q).
  { subst d1. apply Qabs_pos_of_ne, Hne. intros Ev.
    destruct Hoff as [H | H]; rewrite Ev in H.
    - exact (Qlt_irrefl _ H).
    - exact (Qlt_not_le _ _ H Hlohi). }
  assert (H2 : (0 < d2)%Q).
  { subst d2. apply Qabs_pos_of_ne, Hne. intros Ev.
    destruct Hoff as [H | H]; rewrite Ev in H.
    - exact (Qlt_not_le _ _ H Hlohi).
    - exact (Qlt_irrefl _ H). }
  assert (Hdist : exists d, fmin (Fin d1) (Fin d2) = Fin d /\ (0 < d)%Q).
  { unfold fmin, flt. destruct (Qlt_bool d2 d1); [exists d2 | exists d1]; split;
      first [reflexivity | assumption]. }
  destruct Hdist as (d & -> & Hd).
  cbn [Patterns.fmul fsub].
  assert (Hmid : (0 < (lo + hi) / 2)%Q).
  { apply Qlt_shift_div_l; [reflexivity|]. rewrite Qmult_0_l.
    apply (Qlt_le_trans _ (lo + 0)).
    - rewrite Qplus_0_r. exact Hlo.
    - apply Qplus_le_r. apply Qlt_le_weak. exact (Qlt_le_trans _ _ _ Hlo Hlohi). }
  assert (Hk : (0 < 100 / ((lo + hi) / 2))%Q).
  { apply Qlt_shift_div_l; [exact Hmid|]. rewrite Qmult_0_l. reflexivity. }
  set (k := (100 / ((lo + hi) / 2))%Q) in *.
  assert (Hx : (100 - d * k < 100)%Q).
  { apply (Qplus_lt_l _ _ (d * k)).
    assert (E : (100 - d * k + d * k == 100 + 0)%Q) by ring.
    rewrite E. apply Qplus_lt_r.
    apply Qmult_lt_0_compat; assumption. }
  unfold fmax, fgt, flt.
  destruct (Qlt_bool 0 (100 - d * k)) eqn:Hp.
  - apply Qlt_bool_iff in Hp. exists (100 - d * k)%Q.
    split; [reflexivity|]. split; [now apply Qlt_le_weak | exact Hx].
  - exists 0%Q. split; [reflexivity|]. split; [apply Qle_refl | reflexivity].
Qed.

Lemma target_score_spec (value : pyfloat) (lo hi : Q) :
  (0 < lo)%Q -> (lo <= hi)%Q ->
  exists s,
    _target_score value lo hi = Fin s
    /\ (0 <= s)%Q /\ (s <= 100)%Q
    /\ ((s == 100)%Q <-> on_target value (lo, hi) = true)
    /\ (value = NaN -> (s == 0)%Q).
Proof.
  intros Hlo Hlohi.
  destruct value as [v|].
  - destruct (on_target (Fin v) (lo, hi)) eqn:Hon.
    + exists 100%Q. unfold on_target in Hon. cbn [fst snd] in Hon.
      unfold _target_score. rewrite Hon.
      split; [reflexivity|]. split; [discriminate|]. split; [apply Qle_refl|].
      split; [split; reflexivity | discriminate].
    + assert (Hoff : (v < lo \/ hi < v)%Q).
      { unfold on_target, fle in Hon. cbn [fst snd] in Hon.
        apply andb_false_iff in Hon. destruct Hon as [H | H];
          apply Qle_bool_false_iff in H; auto. }
      destruct (target_score_off v lo hi Hlo Hlohi Hoff) as (s & Hs & H0 & H100).
      exists s. split; [exact Hs|]. split; [exact H0|].
      split; [now apply Qlt_le_weak|]. split; [|discriminate].
      split; [|discriminate]. intros E. rewrite E in H100.
      exfalso. exact (Qlt_irrefl _ H100).
  - exists 0%Q. split; [reflexivity|]. split; [apply Qle_refl|].
    split; [discriminate|]. split; [|reflexivity].
    split; [intros E; discriminate | discriminate].
Qed.

(** X27. [_target_score] and the target flags.  For a band [lo..hi] with
    [0 < lo <= hi] the score is a number between 0 and 100 whatever the
    value is; it is 100 exactly when the value lies in the band, and 0 for a
    missing value.  So the architecture score of a night summary, the mean
    of its deep and REM scores, lies between 0 and 100 and is 100 exactly
    when both [deep_on_target] and [rem_on_target] are set. *)
Theorem target_score_and_flags :
  (forall (value : pyfloat) (lo hi : Q),
      (0 < lo)%Q -> (lo <= hi)%Q ->
      exists s,
        _target_score value lo hi = Fin s
        /\ (0 <= s)%Q /\ (s <= 100)%Q
        /\ ((s == 100)%Q <-> on_target value (lo, hi) = true)
        /\ (value = NaN -> (s == 0)%Q))
  /\ (forall row : session_row,
        let n := night_summary_of row in
        exists a,
          architecture_score n = Fin a
          /\ (0 <= a)%Q /\ (a <= 100)%Q
          /\ ((a == 100)%Q <-> deep_on_target n = true /\ rem_on_target n = true)).
Proof.
  split; [exact target_score_spec|].
  intros row n. unfold architecture_score.
  destruct (target_score_spec (deep_pct n) 15%Q 20%Q) as (d & Hd & Hd0 & Hd100 & Hdon & _);
    [reflexivity | discriminate |].
  destruct (target_score_spec (rem_pct n) 20%Q 25%Q) as (r & Hr & Hr0 & Hr100 & Hron & _);
    [reflexivity | discriminate |].
  cbn [_DEEP_TARGET_PCT _REM_TARGET_PCT fst snd]. rewrite Hd, Hr.
  cbn [fadd fdiv]. exists ((d + r) / 2)%Q. split; [reflexivity|].
  assert (Hsum0 : (0 <= d + r)%Q).
  { apply (Qle_trans _ (0 + 0)); [discriminate|]. now apply Qplus_le_compat. }
  assert (Hsum200 : (d + r <= 200)%Q).
  { apply (Qle_trans _ (100 + 100)); [|discriminate]. now apply Qplus_le_compat. }
  split; [|split].
  - apply Qle_shift_div_l; [reflexivity|]. rewrite Qmult_0_l. exact Hsum0.
  - apply Qle_shift_div_r; [reflexivity|]. exact Hsum200.
  - change (deep_on_target n) with (on_target (deep_pct n) (15%Q, 20%Q)).
    change (rem_on_target n) with (on_target (rem_pct n) (20%Q, 25%Q)).
    rewrite <- Hdon, <- Hron. split.
    + intros E.
      assert (Esum : (d + r == 200)%Q).
      { assert (E2 : ((d + r) / 2 * 2 == d + r)%Q) by field.
        rewrite <- E2, E. reflexivity. }
      assert (Hd' : (100 <= d)%Q).
      { apply (Qplus_le_l _ _ r). apply (Qle_trans _ (100 + 100)).
        - now apply Qplus_le_r.
        - rewrite Esum. discriminate. }
      assert (Hr' : (100 <= r)%Q).
      { apply (Qplus_le_r _ _ d). apply (Qle_trans _ (100 + 100)).
        - now apply Qplus_le_l.
        - rewrite Esum. discriminate. }
      split; apply Qle_antisym; assumption.
    + intros [Ed Er]. rewrite Ed, Er. reflexivity.
Qed.

Lemma target_score_and_flags_witness :
  exists s, _target_score (Fin 10) 15%Q 20%Q = Fin s /\ (0 <= s)%Q /\ (s <= 100)%Q.
Proof.
  destruct (proj1 target_score_and_flags (Fin 10) 15%Q 20%Q) as (s & Hs & H0 & H100 & _);
    [reflexivity | discriminate |].
  exists s. auto.
Defined.

Lemma rem_debt_sum_mono (recent : list night_summary) (acc : Q) :
  (acc <= rem_debt_sum acc recent)%Q.
Proof.
  revert acc. induction recent as [|n rest IH]; intros acc; [apply Qle_refl|].
  cbn [rem_debt_sum]. destruct (rem_deficit n) as [d|]; [|apply IH].
  destruct (Qlt_bool 0 d) eqn:Hd; [|apply IH].
  apply Qlt_bool_iff in Hd. eapply Qle_trans; [|apply IH].
  apply (Qle_trans _ (acc + 0)).
  - rewrite Qplus_0_r. apply Qle_refl.
  - apply Qplus_le_r. now apply Qlt_le_weak.
Qed.

Lemma rem_debt_sum_none (recent : list night_summary) (acc : Q) :
  Forall (fun n => fgt (rem_deficit n) (Fin 0) = false) recent ->
  rem_debt_sum acc recent = acc.
Proof.
  intros Hall. revert acc.
  induction Hall as [|n rest Hn _ IH]; intros acc; [reflexivity|].
  cbn [rem_debt_sum]. unfold fgt, flt in Hn.
  destruct (rem_deficit n) as [d|]; [|apply IH]. rewrite Hn. apply IH.
Qed.

(** X28. The three-night REM debt is never negative, looks at the last
    three primary nights only, and is zero when none of them has a REM
    deficit (REM minutes below 20 percent of the sleep minutes). *)
Theorem rem_debt_nonneg (primary_nights : list night_summary) :
  (0 <= rem_debt_min_3night primary_nights)%Z
  /\ (forall earlier recent, length recent = 3%nat ->
        rem_debt_min_3night (earlier ++ recent)%list = rem_debt_min_3night recent)
  /\ (Forall (fun n => fgt (rem_deficit n) (Fin 0) = false) (last3 primary_nights) ->
      rem_debt_min_3night primary_nights = 0%Z).
Proof.
  unfold rem_debt_min_3night. split; [|split].
  - apply round_half_even_nonneg. apply rem_debt_sum_mono.
  - intros earlier recent Hlen. unfold last3.
    rewrite length_app, Hlen.
    replace (length earlier + 3 - 3)%nat with (length earlier) by lia.
    rewrite drop_app_length. simpl Nat.sub. reflexivity.
  - intros Hnone. now rewrite rem_debt_sum_none.
Qed.

End ArchitectureExtras.

(** ** performance.py *)

Section PerformanceExtras.
Import PyFloat Frame Performance.








End PerformanceExtras.

(** ** sleep.py: continuity *)

Section ContinuityExtras.
Import PyFloat Frame Sleep SleepContinuity.

Lemma nil_or_cons {A : Type} (l : list A) : l = [] \/ l <> [].
Proof. destruct l; [left; reflexivity|right; discriminate]. Qed.

Lemma count_gaps_cons2 (gap : Z) (x y : nat) (rest : list nat) :
  count_gaps gap (x :: y :: rest)
  = ((if (gap <? Z.of_nat y - Z.of_nat x)%Z then 1 else 0)
     + count_gaps gap (y :: rest))%nat.
Proof. reflexivity. Qed.

Lemma count_gaps_split (gap : Z) (idx : list nat) :
  idx <> [] -> length (ActivityFrame.split_gaps gap idx) = (count_gaps gap idx + 1)%nat.
Proof.
  induction idx as [|x rest IH]; [congruence|]. intros _.
  destruct rest as [|y rest']; [reflexivity|].
  rewrite split_gaps_cons2, count_gaps_cons2.
  assert (IH' : length (ActivityFrame.split_gaps gap (y :: rest'))
                = (count_gaps gap (y :: rest') + 1)%nat)
    by (apply IH; discriminate).
  destruct (gap <? Z.of_nat y - Z.of_nat x)%Z.
  - cbn [length]. lia.
  - destruct (ActivityFrame.split_gaps gap (y :: rest')) as [|g gs]; cbn [length] in *; lia.
Qed.

Lemma count_gaps_length (gap : Z) (idx : list nat) :
  idx <> [] -> (count_gaps gap idx + 1 <= length idx)%nat.
Proof.
  induction idx as [|x rest IH]; [congruence|]. intros _.
  destruct rest as [|y rest']; [cbn; lia|].
  rewrite count_gaps_cons2.
  assert (IH' : (count_gaps gap (y :: rest') + 1 <= length (y :: rest'))%nat)
    by (apply IH; discriminate).
  cbn [length] in *. destruct (gap <? Z.of_nat y - Z.of_nat x)%Z; lia.
Qed.

Lemma Qpymax_0_range (x : Q) : (x <= 1 -> 0 <= Qpymax 0 x <= 1)%Q.
Proof.
  intros Hx. unfold Qpymax. destruct (Qlt_bool 0 x) eqn:H.
  - apply Qlt_bool_iff in H. split; [now apply Qlt_le_weak|exact Hx].
  - split; discriminate.
Qed.

Lemma Qpymin_1_le (x : Q) : (Qpymin 1 x <= 1)%Q /\ (Qpymin 1 x <= x)%Q.
Proof.
  unfold Qpymin. destruct (Qlt_bool x 1) eqn:H.
  - apply Qlt_bool_iff in H. split; [now apply Qlt_le_weak|apply Qle_refl].
  - apply Qlt_bool_false_iff in H. split; [apply Qle_refl|exact H].
Qed.

Lemma continuity_score_range (e : nat) (d : Q) :
  (0 <= continuity_score e d <= 1)%Q.
Proof. unfold continuity_score. apply Qpymax_0_range, Qpymin_1_le. Qed.

Lemma continuity_score_no_episode (d : Q) : (continuity_score 0 d == 1)%Q.
Proof.
  unfold continuity_score, round3.
  set (x := (1 - inject_Z (Z.of_nat 0) * 5 / Qpymax d 1)%Q).
  assert (Ex : (x == 1)%Q).
  { unfold x, Qdiv. change (inject_Z (Z.of_nat 0)) with 0%Q. ring. }
  assert (Hr : round_half_even (x * 1000) = 1000%Z).
  { apply Z.le_antisymm.
    - apply round_half_even_upper. rewrite Ex. discriminate.
    - apply round_half_even_lower. rewrite Ex. discriminate. }
  rewrite Hr. reflexivity.
Qed.

Lemma continuity_score_with_episode (e : nat) (d : Q) :
  (1 <= e)%nat -> (60 <= d)%Q -> (d <= 1440)%Q ->
  (continuity_score e d <= 997 # 1000)%Q.
Proof.
  intros He Hlo Hhi. unfold continuity_score.
  assert (Hm : Qpymax d 1 = d).
  { unfold Qpymax.
    assert (H : Qlt_bool d 1 = false) by (apply Qlt_bool_false_iff; Lqa.lra).
    now rewrite H. }
  rewrite Hm.
  set (E := inject_Z (Z.of_nat e)).
  assert (HE : (1 <= E)%Q).
  { unfold E. change 1%Q with (inject_Z 1). rewrite <- Zle_Qle. lia. }
  assert (Hq : (5 # 1440 <= E * 5 / d)%Q).
  { apply Qle_shift_div_l; Lqa.lra. }
  set (q := (E * 5 / d)%Q) in *. clearbody q.
  assert (Hr : (round_half_even ((1 - q) * 1000) <= 997)%Z).
  { apply round_half_even_upper. change (inject_Z 997) with 997%Q. Lqa.lra. }
  assert (Hc : (round3 (1 - q) <= 997 # 1000)%Q).
  { unfold round3. apply Qle_shift_div_r; [reflexivity|].
    rewrite Zle_Qle in Hr. change (inject_Z 997) with 997%Q in Hr.
    apply (Qle_trans _ _ _ Hr). discriminate. }
  set (c := round3 (1 - q)) in *. clearbody c.
  destruct (Qpymin_1_le c) as [_ Hmin].
  unfold Qpymax. destruct (Qlt_bool 0 (Qpymin 1 c)); [|discriminate].
  exact (Qle_trans _ _ _ Hmin Hc).
Qed.

Lemma same_night_duration (d t1 t2 : Z) :
  date_of (t1 - 18 * 3600) = d -> date_of (t2 - 18 * 3600) = d ->
  (inject_Z (t2 - t1) / 60 <= 1440)%Q.
Proof.
  unfold date_of. intros H1 H2.
  assert (H : (t2 - t1 <= 86400)%Z) by (Z.to_euclidean_division_equations; lia).
  apply Qle_shift_div_r; [reflexivity|].
  rewrite Zle_Qle in H. exact H.
Qed.

(** X30. Wake episodes and continuity of a reported night.  The number of
    wake episodes is the number of clusters into which gaps of more than five
    labels split the epochs of the sleep period with heart rate above 70 and
    energy above 500, so it never exceeds the number of such epochs.  The
    continuity score lies between 0 and 1; it is 1 when the period has no such
    epoch and at most 0.997 when it has one. *)
Theorem continuity_score_cases (acc_energy : nat -> pyfloat) (has_rmssd : bool)
    (d : Z) (night_df : list row) (n : night) :
  (forall r, In r night_df -> night_date_of r = d) ->
  analyse_night has_rmssd d night_df = Reported n ->
  let period := sleep_period night_df (sleep_onset n) (sleep_offset n) in
  let idx_arr := List.map fst (wake_epochs acc_energy period) in
  let c := continuity_score (wake_episodes acc_energy period) (duration_min n) in
  (wake_episodes acc_energy period <= length idx_arr)%nat
  /\ (idx_arr <> [] ->
      wake_episodes acc_energy period = length (ActivityFrame.split_gaps 5 idx_arr)
      /\ Forall (fun g => g <> [] /\ ActivityFrame.within_gap 5 g = true)
                (ActivityFrame.split_gaps 5 idx_arr)
      /\ concat (ActivityFrame.split_gaps 5 idx_arr) = idx_arr)
  /\ (0 <= c <= 1)%Q
  /\ (idx_arr = [] -> (c == 1)%Q)
  /\ (idx_arr <> [] -> (c <= 997 # 1000)%Q).
Proof.
  intros Hgrp Hrep period idx_arr c.
  destruct (analyse_night_reported _ _ _ _ Hrep)
    as (_ & Hd60 & Hdur & (r1 & Hr1 & Ht1 & _) & (r2 & Hr2 & Ht2)).
  assert (Hd1440 : (duration_min n <= 1440)%Q).
  { rewrite Hdur. apply (same_night_duration d).
    - rewrite <- Ht1. apply (Hgrp r1 Hr1).
    - rewrite <- Ht2. apply (Hgrp r2 Hr2). }
  assert (He0 : idx_arr = [] -> wake_episodes acc_energy period = 0%nat).
  { intros E. unfold wake_episodes. fold idx_arr. rewrite E.
    now destruct period. }
  assert (He1 : idx_arr <> [] ->
                wake_episodes acc_energy period = (count_gaps 5 idx_arr + 1)%nat).
  { intros Hne. unfold wake_episodes. fold idx_arr.
    destruct period as [|p ps] eqn:Ep; [now elim Hne|].
    destruct idx_arr; [now elim Hne|reflexivity]. }
  split; [|split; [|split; [|split]]].
  - destruct (nil_or_cons idx_arr) as [E|Hne].
    + rewrite (He0 E). lia.
    + rewrite (He1 Hne). now apply count_gaps_length.
  - intros Hne. destruct (split_gaps_spec 5 idx_arr Hne) as (Hcat & Hall & _).
    split; [|split; assumption].
    rewrite He1 by exact Hne. symmetry. now apply count_gaps_split.
  - apply continuity_score_range.
  - intros E. unfold c. rewrite (He0 E). apply continuity_score_no_episode.
  - intros Hne. unfold c. apply continuity_score_with_episode; try assumption.
    rewrite (He1 Hne). lia.
Qed.

Lemma continuity_score_cases_witness :
  let night_df := reset_index (epochs_from 1702162800 3600 [60%Q; 60%Q; 75%Q]) in
  let acc_energy := fun _ : nat => Fin 600 in
  exists n,
    analyse_night false 19700 night_df = Reported n
    /\ wake_episodes acc_energy
         (sleep_period night_df (sleep_onset n) (sleep_offset n)) = 1%nat
    /\ (continuity_score
          (wake_episodes acc_energy
             (sleep_period night_df (sleep_onset n) (sleep_offset n)))
          (duration_min n) <= 997 # 1000)%Q.
Proof.
  intros night_df acc_energy.
  assert (Hgrp : forall r, In r night_df -> night_date_of r = 19700%Z).
  { intros r Hr. vm_compute in Hr.
    destruct Hr as [<-|[<-|[<-|[]]]]; vm_compute; reflexivity. }
  eexists. split; [vm_compute; reflexivity|].
  edestruct (continuity_score_cases acc_energy false 19700%Z night_df)
    as (_ & Hsplit & _ & _ & Hc); [exact Hgrp|vm_compute; reflexivity|].
  split.
  - destruct Hsplit as (-> & _); [vm_compute; discriminate|].
    vm_compute. reflexivity.
  - apply Hc. vm_compute. discriminate.
Defined.

End ContinuityExtras.
